(** * Rotor-RPM acquisition: ESC telemetry decoding and RPM source arbitration

    A shallow embedding of [src/main/sensors/esc_sensor.c] and
    [src/main/flight/motors.c], followed by the properties established
    about them.  C integers are carried as [Z] with every conversion and
    wrap-around written out; the file-scope [static] variables of
    [esc_sensor.c] form the record [escSensor], threaded explicitly through
    the functions that mutate them.  The writes of [DEBUG_SET]/[DEBUG] to
    the [debug] array go to the logging sink and are not part of the
    model; the two counters that are incremented inside the value argument
    of these macros are, and go up only when the macro evaluates its
    argument (see [debugEscSensor] below). *)

From Stdlib Require Import ZArith List Bool Lia.
From stdpp Require Import base numbers list.

Local Open Scope Z_scope.

(** ** Machine integers *)

Definition to_uint8 (z : Z) : Z := z mod 2 ^ 8.
Definition to_uint16 (z : Z) : Z := z mod 2 ^ 16.
Definition to_uint32 (z : Z) : Z := z mod 2 ^ 32.

(** Conversion to a signed [w]-bit integer (two's complement). *)
Definition to_signed (w : Z) (z : Z) : Z :=
  (z + 2 ^ (w - 1)) mod 2 ^ w - 2 ^ (w - 1).
Definition to_int16 : Z -> Z := to_signed 16.
Definition to_int32 : Z -> Z := to_signed 32.

Definition is_uint8 (z : Z) : Prop := 0 <= z < 256.

(** [cmp32(a, b)] of [common/time.h]: the signed difference of two 32-bit
    time stamps. *)
Definition cmp32 (a b : Z) : Z := to_int32 (a - b).

(** Array cells.  An access outside the array is undefined in C; the model
    reads the zero value there and drops the write, and the theorems below
    carry the bounds under which this is never observed. *)
Definition rd (a : list Z) (i : Z) : Z := a !!! Z.to_nat i.
Definition wr (a : list Z) (i v : Z) : list Z := <[Z.to_nat i := v]> a.

(** ** Types of [esc_sensor.h] and [esc_sensor.c] *)

(** Modelled from the spec: [esc_sensor.h] is not among the sources.  The
    telemetry record has the fields the code assigns; their C types are
    those of the data model ([dataAge] is a [uint8_t], [temperature] an
    [int16_t], the other four [int32_t]). *)
Record escSensorData_t : Type := mkEscSensorData {
  dataAge : Z;
  temperature : Z;
  voltage : Z;
  current : Z;
  consumption : Z;
  rpm : Z
}.

(** Modelled from the spec: the saturating ceiling of the 8-bit [dataAge]
    and the motor number that selects the combined record; both are [255]
    in [esc_sensor.h]. *)
Definition ESC_DATA_INVALID : Z := 255.
Definition ESC_SENSOR_COMBINED : Z := 255.

(** The protocol stored in [escSensorConfig()->protocol]; the code tests it
    against the two constants and does nothing for any other value. *)
Inductive escSensorProtocol_e : Type :=
  | ESC_SENSOR_PROTO_KISS
  | ESC_SENSOR_PROTO_HW4
  | ESC_SENSOR_PROTO_OTHER.

Inductive escTlmFrameState_t : Type :=
  | ESC_SENSOR_FRAME_PENDING
  | ESC_SENSOR_FRAME_COMPLETE
  | ESC_SENSOR_FRAME_FAILED.

Inductive escSensorTriggerState_t : Type :=
  | ESC_SENSOR_TRIGGER_STARTUP
  | ESC_SENSOR_TRIGGER_PENDING.

#[global] Instance escTlmFrameState_eq_dec : EqDecision escTlmFrameState_t.
Proof. solve_decision. Defined.

#[global] Instance escSensorTriggerState_eq_dec : EqDecision escSensorTriggerState_t.
Proof. solve_decision. Defined.

Definition ESC_BOOTTIME : Z := 5000.
Definition ESC_REQUEST_TIMEOUT : Z := 100.
Definition TELEMETRY_FRAME_SIZE : Z := 10.

(** A [float] is carried as its 32-bit pattern; the arithmetic on it is
    not interpreted here but supplied by the platform ([fpu] below). *)
Definition float32 : Type := Z.

(** What the Hobbywing decoder computes in single precision.  Each field
    stands for the C expression named in its comment. *)
Record fpu : Type := mkFpu {
  (* calcTempHW(tempRaw) *)
  fp_calcTempHW : Z -> float32;
  (* voltRaw * (ESCHW4_V_REF / ESCHW4_ADC_RESOLUTION) * (gain / 10.0f) *)
  fp_voltScale : Z -> Z -> float32;
  (* diff * (ESCHW4_V_REF / (ESCHW4_ADC_RESOLUTION * ESCHW4_DIFFAMP_SHUNT * gain / 10.0f)) *)
  fp_currScale : Z -> Z -> float32;
  (* 0 converted to float *)
  fp_zero : float32;
  (* x * 100 *)
  fp_mul100 : float32 -> float32;
  (* lrintf(x) *)
  fp_lrintf : float32 -> Z;
  (* total + n * 10.0f *)
  fp_accumulate : float32 -> Z -> float32;
  (* total / 3600e6f *)
  fp_toMilliAmpHours : float32 -> float32
}.

(** The collaborators of the two files: configuration, feature flags, the
    mixer, the serial layer, the other RPM origins and the debug mode.

    Modelled from the spec: [build/debug.h] is not among the sources.  The
    logging sink is an external collaborator; its macros are taken as
    [DEBUG_SET(mode, index, value)] and [DEBUG(mode, index, value)] being
    [if (debugMode == mode) debug[index] = value], so that [value] is
    evaluated only when the debug mode is the one named.  The code passes
    [++totalTimeoutCount] and [++totalCrcErrorCount] as [value] under the
    mode [DEBUG_ESC_SENSOR]; [debugEscSensor] says whether that mode is
    selected. *)
Record platform : Type := mkPlatform {
  MAX_SUPPORTED_MOTORS : Z;
  (* featureIsEnabled(FEATURE_ESC_SENSOR) *)
  featureEscSensor : bool;
  (* featureIsEnabled(FEATURE_FREQ_SENSOR) *)
  featureFreqSensor : bool;
  getMotorCount : Z;
  motorIsEnabled : bool;
  (* escSensorConfig() *)
  protocol : escSensorProtocol_e;
  hw4_current_offset : Z;
  hw4_current_gain : Z;
  hw4_voltage_gain : Z;
  (* findSerialPortConfig(FUNCTION_ESC_SENSOR) != NULL *)
  serialPortConfigured : bool;
  (* openSerialPort(...) != NULL *)
  serialPortOpens : bool;
  (* isFreqSensorPortInitialized(i), getFreqSensorRPM(i) *)
  isFreqSensorPortInitialized : Z -> bool;
  getFreqSensorRPM : Z -> Z;
  (* isMotorProtocolDshot() && motorConfig()->dev.useDshotTelemetry, getDshotTelemetry(i) *)
  useDshotTelemetry : bool;
  getDshotTelemetry : Z -> Z;
  (* motorConfig()->motorPoleCount[i] *)
  motorPoleCount : Z -> Z;
  (* debugMode == DEBUG_ESC_SENSOR *)
  debugEscSensor : bool
}.

(** The file-scope variables of [esc_sensor.c].  [buffer] always points at
    [telemetryBuffer] once [startEscDataRead] has run, so the two are one
    field.  [requestTelemetry] records, newest first, the motors whose
    [protocolControl.requestTelemetry] flag [setRequest] has raised. *)
Record escSensor : Type := mkEscSensor {
  telemetryBuffer : list Z;
  bufferSize : Z;
  bufferPosition : Z;
  escSensorPort : bool;
  escSensorData : list escSensorData_t;
  escSensorTriggerState : escSensorTriggerState_t;
  escTriggerTimestamp : Z;
  escSensorMotor : Z;
  combinedEscSensorData : escSensorData_t;
  combinedDataNeedsUpdate : bool;
  totalTimeoutCount : Z;
  totalCrcErrorCount : Z;
  hwData : list Z;
  skipBytes : Z;
  bytesRead : Z;
  dataUpdateUs : Z;
  consumptionUpdateUs : Z;
  totalConsumption : float32;
  requestTelemetry : list Z
}.

(** *** Field assignment *)

Definition with_dataAge (v : Z) (r : escSensorData_t) : escSensorData_t :=
  {| dataAge := v; temperature := temperature r; voltage := voltage r; current := current r;
     consumption := consumption r; rpm := rpm r |}.

Definition with_temperature (v : Z) (r : escSensorData_t) : escSensorData_t :=
  {| dataAge := dataAge r; temperature := v; voltage := voltage r; current := current r;
     consumption := consumption r; rpm := rpm r |}.

Definition with_voltage (v : Z) (r : escSensorData_t) : escSensorData_t :=
  {| dataAge := dataAge r; temperature := temperature r; voltage := v; current := current r;
     consumption := consumption r; rpm := rpm r |}.

Definition with_current (v : Z) (r : escSensorData_t) : escSensorData_t :=
  {| dataAge := dataAge r; temperature := temperature r; voltage := voltage r; current := v;
     consumption := consumption r; rpm := rpm r |}.

Definition with_consumption (v : Z) (r : escSensorData_t) : escSensorData_t :=
  {| dataAge := dataAge r; temperature := temperature r; voltage := voltage r;
     current := current r; consumption := v; rpm := rpm r |}.

Definition with_rpm (v : Z) (r : escSensorData_t) : escSensorData_t :=
  {| dataAge := dataAge r; temperature := temperature r; voltage := voltage r;
     current := current r; consumption := consumption r; rpm := v |}.

Definition set_telemetryBuffer (v : list Z) (st : escSensor) : escSensor :=
  {| telemetryBuffer := v; bufferSize := bufferSize st; bufferPosition := bufferPosition st;
     escSensorPort := escSensorPort st; escSensorData := escSensorData st;
     escSensorTriggerState := escSensorTriggerState st;
     escTriggerTimestamp := escTriggerTimestamp st; escSensorMotor := escSensorMotor st;
     combinedEscSensorData := combinedEscSensorData st;
     combinedDataNeedsUpdate := combinedDataNeedsUpdate st;
     totalTimeoutCount := totalTimeoutCount st; totalCrcErrorCount := totalCrcErrorCount st;
     hwData := hwData st; skipBytes := skipBytes st; bytesRead := bytesRead st;
     dataUpdateUs := dataUpdateUs st; consumptionUpdateUs := consumptionUpdateUs st;
     totalConsumption := totalConsumption st; requestTelemetry := requestTelemetry st |}.

Definition set_bufferSize (v : Z) (st : escSensor) : escSensor :=
  {| telemetryBuffer := telemetryBuffer st; bufferSize := v;
     bufferPosition := bufferPosition st; escSensorPort := escSensorPort st;
     escSensorData := escSensorData st; escSensorTriggerState := escSensorTriggerState st;
     escTriggerTimestamp := escTriggerTimestamp st; escSensorMotor := escSensorMotor st;
     combinedEscSensorData := combinedEscSensorData st;
     combinedDataNeedsUpdate := combinedDataNeedsUpdate st;
     totalTimeoutCount := totalTimeoutCount st; totalCrcErrorCount := totalCrcErrorCount st;
     hwData := hwData st; skipBytes := skipBytes st; bytesRead := bytesRead st;
     dataUpdateUs := dataUpdateUs st; consumptionUpdateUs := consumptionUpdateUs st;
     totalConsumption := totalConsumption st; requestTelemetry := requestTelemetry st |}.

Definition set_bufferPosition (v : Z) (st : escSensor) : escSensor :=
  {| telemetryBuffer := telemetryBuffer st; bufferSize := bufferSize st; bufferPosition := v;
     escSensorPort := escSensorPort st; escSensorData := escSensorData st;
     escSensorTriggerState := escSensorTriggerState st;
     escTriggerTimestamp := escTriggerTimestamp st; escSensorMotor := escSensorMotor st;
     combinedEscSensorData := combinedEscSensorData st;
     combinedDataNeedsUpdate := combinedDataNeedsUpdate st;
     totalTimeoutCount := totalTimeoutCount st; totalCrcErrorCount := totalCrcErrorCount st;
     hwData := hwData st; skipBytes := skipBytes st; bytesRead := bytesRead st;
     dataUpdateUs := dataUpdateUs st; consumptionUpdateUs := consumptionUpdateUs st;
     totalConsumption := totalConsumption st; requestTelemetry := requestTelemetry st |}.

Definition set_escSensorPort (v : bool) (st : escSensor) : escSensor :=
  {| telemetryBuffer := telemetryBuffer st; bufferSize := bufferSize st;
     bufferPosition := bufferPosition st; escSensorPort := v; escSensorData := escSensorData st;
     escSensorTriggerState := escSensorTriggerState st;
     escTriggerTimestamp := escTriggerTimestamp st; escSensorMotor := escSensorMotor st;
     combinedEscSensorData := combinedEscSensorData st;
     combinedDataNeedsUpdate := combinedDataNeedsUpdate st;
     totalTimeoutCount := totalTimeoutCount st; totalCrcErrorCount := totalCrcErrorCount st;
     hwData := hwData st; skipBytes := skipBytes st; bytesRead := bytesRead st;
     dataUpdateUs := dataUpdateUs st; consumptionUpdateUs := consumptionUpdateUs st;
     totalConsumption := totalConsumption st; requestTelemetry := requestTelemetry st |}.

Definition set_escSensorData (v : list escSensorData_t) (st : escSensor) : escSensor :=
  {| telemetryBuffer := telemetryBuffer st; bufferSize := bufferSize st;
     bufferPosition := bufferPosition st; escSensorPort := escSensorPort st; escSensorData := v;
     escSensorTriggerState := escSensorTriggerState st;
     escTriggerTimestamp := escTriggerTimestamp st; escSensorMotor := escSensorMotor st;
     combinedEscSensorData := combinedEscSensorData st;
     combinedDataNeedsUpdate := combinedDataNeedsUpdate st;
     totalTimeoutCount := totalTimeoutCount st; totalCrcErrorCount := totalCrcErrorCount st;
     hwData := hwData st; skipBytes := skipBytes st; bytesRead := bytesRead st;
     dataUpdateUs := dataUpdateUs st; consumptionUpdateUs := consumptionUpdateUs st;
     totalConsumption := totalConsumption st; requestTelemetry := requestTelemetry st |}.

Definition set_escSensorTriggerState (v : escSensorTriggerState_t) (st : escSensor) : escSensor :=
  {| telemetryBuffer := telemetryBuffer st; bufferSize := bufferSize st;
     bufferPosition := bufferPosition st; escSensorPort := escSensorPort st;
     escSensorData := escSensorData st; escSensorTriggerState := v;
     escTriggerTimestamp := escTriggerTimestamp st; escSensorMotor := escSensorMotor st;
     combinedEscSensorData := combinedEscSensorData st;
     combinedDataNeedsUpdate := combinedDataNeedsUpdate st;
     totalTimeoutCount := totalTimeoutCount st; totalCrcErrorCount := totalCrcErrorCount st;
     hwData := hwData st; skipBytes := skipBytes st; bytesRead := bytesRead st;
     dataUpdateUs := dataUpdateUs st; consumptionUpdateUs := consumptionUpdateUs st;
     totalConsumption := totalConsumption st; requestTelemetry := requestTelemetry st |}.

Definition set_escTriggerTimestamp (v : Z) (st : escSensor) : escSensor :=
  {| telemetryBuffer := telemetryBuffer st; bufferSize := bufferSize st;
     bufferPosition := bufferPosition st; escSensorPort := escSensorPort st;
     escSensorData := escSensorData st; escSensorTriggerState := escSensorTriggerState st;
     escTriggerTimestamp := v; escSensorMotor := escSensorMotor st;
     combinedEscSensorData := combinedEscSensorData st;
     combinedDataNeedsUpdate := combinedDataNeedsUpdate st;
     totalTimeoutCount := totalTimeoutCount st; totalCrcErrorCount := totalCrcErrorCount st;
     hwData := hwData st; skipBytes := skipBytes st; bytesRead := bytesRead st;
     dataUpdateUs := dataUpdateUs st; consumptionUpdateUs := consumptionUpdateUs st;
     totalConsumption := totalConsumption st; requestTelemetry := requestTelemetry st |}.

Definition set_escSensorMotor (v : Z) (st : escSensor) : escSensor :=
  {| telemetryBuffer := telemetryBuffer st; bufferSize := bufferSize st;
     bufferPosition := bufferPosition st; escSensorPort := escSensorPort st;
     escSensorData := escSensorData st; escSensorTriggerState := escSensorTriggerState st;
     escTriggerTimestamp := escTriggerTimestamp st; escSensorMotor := v;
     combinedEscSensorData := combinedEscSensorData st;
     combinedDataNeedsUpdate := combinedDataNeedsUpdate st;
     totalTimeoutCount := totalTimeoutCount st; totalCrcErrorCount := totalCrcErrorCount st;
     hwData := hwData st; skipBytes := skipBytes st; bytesRead := bytesRead st;
     dataUpdateUs := dataUpdateUs st; consumptionUpdateUs := consumptionUpdateUs st;
     totalConsumption := totalConsumption st; requestTelemetry := requestTelemetry st |}.

Definition set_combinedEscSensorData (v : escSensorData_t) (st : escSensor) : escSensor :=
  {| telemetryBuffer := telemetryBuffer st; bufferSize := bufferSize st;
     bufferPosition := bufferPosition st; escSensorPort := escSensorPort st;
     escSensorData := escSensorData st; escSensorTriggerState := escSensorTriggerState st;
     escTriggerTimestamp := escTriggerTimestamp st; escSensorMotor := escSensorMotor st;
     combinedEscSensorData := v; combinedDataNeedsUpdate := combinedDataNeedsUpdate st;
     totalTimeoutCount := totalTimeoutCount st; totalCrcErrorCount := totalCrcErrorCount st;
     hwData := hwData st; skipBytes := skipBytes st; bytesRead := bytesRead st;
     dataUpdateUs := dataUpdateUs st; consumptionUpdateUs := consumptionUpdateUs st;
     totalConsumption := totalConsumption st; requestTelemetry := requestTelemetry st |}.

Definition set_combinedDataNeedsUpdate (v : bool) (st : escSensor) : escSensor :=
  {| telemetryBuffer := telemetryBuffer st; bufferSize := bufferSize st;
     bufferPosition := bufferPosition st; escSensorPort := escSensorPort st;
     escSensorData := escSensorData st; escSensorTriggerState := escSensorTriggerState st;
     escTriggerTimestamp := escTriggerTimestamp st; escSensorMotor := escSensorMotor st;
     combinedEscSensorData := combinedEscSensorData st; combinedDataNeedsUpdate := v;
     totalTimeoutCount := totalTimeoutCount st; totalCrcErrorCount := totalCrcErrorCount st;
     hwData := hwData st; skipBytes := skipBytes st; bytesRead := bytesRead st;
     dataUpdateUs := dataUpdateUs st; consumptionUpdateUs := consumptionUpdateUs st;
     totalConsumption := totalConsumption st; requestTelemetry := requestTelemetry st |}.

Definition set_totalTimeoutCount (v : Z) (st : escSensor) : escSensor :=
  {| telemetryBuffer := telemetryBuffer st; bufferSize := bufferSize st;
     bufferPosition := bufferPosition st; escSensorPort := escSensorPort st;
     escSensorData := escSensorData st; escSensorTriggerState := escSensorTriggerState st;
     escTriggerTimestamp := escTriggerTimestamp st; escSensorMotor := escSensorMotor st;
     combinedEscSensorData := combinedEscSensorData st;
     combinedDataNeedsUpdate := combinedDataNeedsUpdate st; totalTimeoutCount := v;
     totalCrcErrorCount := totalCrcErrorCount st; hwData := hwData st;
     skipBytes := skipBytes st; bytesRead := bytesRead st; dataUpdateUs := dataUpdateUs st;
     consumptionUpdateUs := consumptionUpdateUs st; totalConsumption := totalConsumption st;
     requestTelemetry := requestTelemetry st |}.

Definition set_totalCrcErrorCount (v : Z) (st : escSensor) : escSensor :=
  {| telemetryBuffer := telemetryBuffer st; bufferSize := bufferSize st;
     bufferPosition := bufferPosition st; escSensorPort := escSensorPort st;
     escSensorData := escSensorData st; escSensorTriggerState := escSensorTriggerState st;
     escTriggerTimestamp := escTriggerTimestamp st; escSensorMotor := escSensorMotor st;
     combinedEscSensorData := combinedEscSensorData st;
     combinedDataNeedsUpdate := combinedDataNeedsUpdate st;
     totalTimeoutCount := totalTimeoutCount st; totalCrcErrorCount := v; hwData := hwData st;
     skipBytes := skipBytes st; bytesRead := bytesRead st; dataUpdateUs := dataUpdateUs st;
     consumptionUpdateUs := consumptionUpdateUs st; totalConsumption := totalConsumption st;
     requestTelemetry := requestTelemetry st |}.

Definition set_hwData (v : list Z) (st : escSensor) : escSensor :=
  {| telemetryBuffer := telemetryBuffer st; bufferSize := bufferSize st;
     bufferPosition := bufferPosition st; escSensorPort := escSensorPort st;
     escSensorData := escSensorData st; escSensorTriggerState := escSensorTriggerState st;
     escTriggerTimestamp := escTriggerTimestamp st; escSensorMotor := escSensorMotor st;
     combinedEscSensorData := combinedEscSensorData st;
     combinedDataNeedsUpdate := combinedDataNeedsUpdate st;
     totalTimeoutCount := totalTimeoutCount st; totalCrcErrorCount := totalCrcErrorCount st;
     hwData := v; skipBytes := skipBytes st; bytesRead := bytesRead st;
     dataUpdateUs := dataUpdateUs st; consumptionUpdateUs := consumptionUpdateUs st;
     totalConsumption := totalConsumption st; requestTelemetry := requestTelemetry st |}.

Definition set_skipBytes (v : Z) (st : escSensor) : escSensor :=
  {| telemetryBuffer := telemetryBuffer st; bufferSize := bufferSize st;
     bufferPosition := bufferPosition st; escSensorPort := escSensorPort st;
     escSensorData := escSensorData st; escSensorTriggerState := escSensorTriggerState st;
     escTriggerTimestamp := escTriggerTimestamp st; escSensorMotor := escSensorMotor st;
     combinedEscSensorData := combinedEscSensorData st;
     combinedDataNeedsUpdate := combinedDataNeedsUpdate st;
     totalTimeoutCount := totalTimeoutCount st; totalCrcErrorCount := totalCrcErrorCount st;
     hwData := hwData st; skipBytes := v; bytesRead := bytesRead st;
     dataUpdateUs := dataUpdateUs st; consumptionUpdateUs := consumptionUpdateUs st;
     totalConsumption := totalConsumption st; requestTelemetry := requestTelemetry st |}.

Definition set_bytesRead (v : Z) (st : escSensor) : escSensor :=
  {| telemetryBuffer := telemetryBuffer st; bufferSize := bufferSize st;
     bufferPosition := bufferPosition st; escSensorPort := escSensorPort st;
     escSensorData := escSensorData st; escSensorTriggerState := escSensorTriggerState st;
     escTriggerTimestamp := escTriggerTimestamp st; escSensorMotor := escSensorMotor st;
     combinedEscSensorData := combinedEscSensorData st;
     combinedDataNeedsUpdate := combinedDataNeedsUpdate st;
     totalTimeoutCount := totalTimeoutCount st; totalCrcErrorCount := totalCrcErrorCount st;
     hwData := hwData st; skipBytes := skipBytes st; bytesRead := v;
     dataUpdateUs := dataUpdateUs st; consumptionUpdateUs := consumptionUpdateUs st;
     totalConsumption := totalConsumption st; requestTelemetry := requestTelemetry st |}.

Definition set_dataUpdateUs (v : Z) (st : escSensor) : escSensor :=
  {| telemetryBuffer := telemetryBuffer st; bufferSize := bufferSize st;
     bufferPosition := bufferPosition st; escSensorPort := escSensorPort st;
     escSensorData := escSensorData st; escSensorTriggerState := escSensorTriggerState st;
     escTriggerTimestamp := escTriggerTimestamp st; escSensorMotor := escSensorMotor st;
     combinedEscSensorData := combinedEscSensorData st;
     combinedDataNeedsUpdate := combinedDataNeedsUpdate st;
     totalTimeoutCount := totalTimeoutCount st; totalCrcErrorCount := totalCrcErrorCount st;
     hwData := hwData st; skipBytes := skipBytes st; bytesRead := bytesRead st;
     dataUpdateUs := v; consumptionUpdateUs := consumptionUpdateUs st;
     totalConsumption := totalConsumption st; requestTelemetry := requestTelemetry st |}.

Definition set_consumptionUpdateUs (v : Z) (st : escSensor) : escSensor :=
  {| telemetryBuffer := telemetryBuffer st; bufferSize := bufferSize st;
     bufferPosition := bufferPosition st; escSensorPort := escSensorPort st;
     escSensorData := escSensorData st; escSensorTriggerState := escSensorTriggerState st;
     escTriggerTimestamp := escTriggerTimestamp st; escSensorMotor := escSensorMotor st;
     combinedEscSensorData := combinedEscSensorData st;
     combinedDataNeedsUpdate := combinedDataNeedsUpdate st;
     totalTimeoutCount := totalTimeoutCount st; totalCrcErrorCount := totalCrcErrorCount st;
     hwData := hwData st; skipBytes := skipBytes st; bytesRead := bytesRead st;
     dataUpdateUs := dataUpdateUs st; consumptionUpdateUs := v;
     totalConsumption := totalConsumption st; requestTelemetry := requestTelemetry st |}.

Definition set_totalConsumption (v : float32) (st : escSensor) : escSensor :=
  {| telemetryBuffer := telemetryBuffer st; bufferSize := bufferSize st;
     bufferPosition := bufferPosition st; escSensorPort := escSensorPort st;
     escSensorData := escSensorData st; escSensorTriggerState := escSensorTriggerState st;
     escTriggerTimestamp := escTriggerTimestamp st; escSensorMotor := escSensorMotor st;
     combinedEscSensorData := combinedEscSensorData st;
     combinedDataNeedsUpdate := combinedDataNeedsUpdate st;
     totalTimeoutCount := totalTimeoutCount st; totalCrcErrorCount := totalCrcErrorCount st;
     hwData := hwData st; skipBytes := skipBytes st; bytesRead := bytesRead st;
     dataUpdateUs := dataUpdateUs st; consumptionUpdateUs := consumptionUpdateUs st;
     totalConsumption := v; requestTelemetry := requestTelemetry st |}.

Definition set_requestTelemetry (v : list Z) (st : escSensor) : escSensor :=
  {| telemetryBuffer := telemetryBuffer st; bufferSize := bufferSize st;
     bufferPosition := bufferPosition st; escSensorPort := escSensorPort st;
     escSensorData := escSensorData st; escSensorTriggerState := escSensorTriggerState st;
     escTriggerTimestamp := escTriggerTimestamp st; escSensorMotor := escSensorMotor st;
     combinedEscSensorData := combinedEscSensorData st;
     combinedDataNeedsUpdate := combinedDataNeedsUpdate st;
     totalTimeoutCount := totalTimeoutCount st; totalCrcErrorCount := totalCrcErrorCount st;
     hwData := hwData st; skipBytes := skipBytes st; bytesRead := bytesRead st;
     dataUpdateUs := dataUpdateUs st; consumptionUpdateUs := consumptionUpdateUs st;
     totalConsumption := totalConsumption st; requestTelemetry := v |}.

Definition zeroEscSensorData : escSensorData_t :=
  {| dataAge := 0; temperature := 0; voltage := 0; current := 0; consumption := 0; rpm := 0 |}.

#[global] Instance escSensorData_inhabited : Inhabited escSensorData_t :=
  populate zeroEscSensorData.

(** [escSensorData[i]] read, and [escSensorData[i].field = ...] written. *)
Definition escData (st : escSensor) (i : Z) : escSensorData_t :=
  escSensorData st !!! Z.to_nat i.

Definition modifyEscData (i : Z) (f : escSensorData_t -> escSensorData_t)
    (st : escSensor) : escSensor :=
  set_escSensorData (alter f (Z.to_nat i) (escSensorData st)) st.

(** The variables as the C initialisers leave them at program start. *)
Definition initialEscSensor (env : platform) : escSensor :=
  {| telemetryBuffer := replicate 10 0;
     bufferSize := 0;
     bufferPosition := 0;
     escSensorPort := false;
     escSensorData := replicate (Z.to_nat (MAX_SUPPORTED_MOTORS env)) zeroEscSensorData;
     escSensorTriggerState := ESC_SENSOR_TRIGGER_STARTUP;
     escTriggerTimestamp := 0;
     escSensorMotor := 0;
     combinedEscSensorData := zeroEscSensorData;
     combinedDataNeedsUpdate := true;
     totalTimeoutCount := 0;
     totalCrcErrorCount := 0;
     hwData := replicate 20 0;
     skipBytes := 0;
     bytesRead := 0;
     dataUpdateUs := 0;
     consumptionUpdateUs := 0;
     totalConsumption := 0;
     requestTelemetry := [] |}.

(** ** [esc_sensor.c]: receive buffer and queries *)

Definition startEscDataRead (frameLength : Z) (st : escSensor) : escSensor :=
  set_bufferSize frameLength (set_bufferPosition 0 st).

Definition getNumberEscBytesRead (st : escSensor) : Z := bufferPosition st.

Definition isEscSensorActive (st : escSensor) : bool := escSensorPort st.

(** The function returns a [uint16_t]. *)
Definition getEscSensorRPM (st : escSensor) (motorNumber : Z) : Z :=
  to_uint16 (rpm (escData st motorNumber)).

(** What a non-null result of [getEscSensorData] points at. *)
Inductive escSensorDataRef : Type :=
  | MotorRecord (i : Z)
  | CombinedRecord.

(** One round of the loop that folds motor [i] into the combined record. *)
Definition combineMotor (st : escSensor) (c : escSensorData_t) (i : Z) : escSensorData_t :=
  let c := with_dataAge (to_uint8 (Z.max (dataAge c) (dataAge (escData st i)))) c in
  let c := with_temperature
             (to_int16 (Z.max (temperature c) (temperature (escData st i)))) c in
  let c := with_voltage (to_int32 (voltage c + voltage (escData st i))) c in
  let c := with_current (to_int32 (current c + current (escData st i))) c in
  let c := with_consumption (to_int32 (consumption c + consumption (escData st i))) c in
  with_rpm (to_int32 (rpm c + rpm (escData st i))) c.

Fixpoint combineLoop (st : escSensor) (n : nat) (i : Z) (c : escSensorData_t)
    : escSensorData_t :=
  match n with
  | O => c
  | S n' => combineLoop st n' (i + 1) (combineMotor st c i)
  end.

Definition updateCombined (env : platform) (st : escSensor) : escSensor :=
  let c := combineLoop st (Z.to_nat (getMotorCount env)) 0 zeroEscSensorData in
  let c := with_voltage (to_int32 (Z.quot (voltage c) (getMotorCount env))) c in
  let c := with_rpm (to_int32 (Z.quot (rpm c) (getMotorCount env))) c in
  set_combinedDataNeedsUpdate false (set_combinedEscSensorData c st).

(** [None] is the null pointer. *)
Definition getEscSensorData (env : platform) (motorNumber : Z) (st : escSensor)
    : option escSensorDataRef * escSensor :=
  if negb (featureEscSensor env) then (None, st) else
  match protocol env with
  | ESC_SENSOR_PROTO_KISS =>
      if motorNumber <? getMotorCount env then (Some (MotorRecord motorNumber), st)
      else if motorNumber =? ESC_SENSOR_COMBINED then
        if combinedDataNeedsUpdate st && (0 <? getMotorCount env)
        then (Some CombinedRecord, updateCombined env st)
        else (Some CombinedRecord, st)
      else (None, st)
  | ESC_SENSOR_PROTO_HW4 => (Some (MotorRecord 0), st)
  | ESC_SENSOR_PROTO_OTHER => (None, st)
  end.

Definition isFrameComplete (st : escSensor) : bool :=
  bufferPosition st =? bufferSize st.

(** The serial receive callback; [c] is a [uint16_t] stored into a byte. *)
Definition escSensorDataReceive (c : Z) (st : escSensor) : escSensor :=
  if bufferPosition st <? bufferSize st then
    set_bufferPosition (to_uint8 (bufferPosition st + 1))
      (set_telemetryBuffer (wr (telemetryBuffer st) (bufferPosition st) (to_uint8 c)) st)
  else st.

Fixpoint invalidateLoop (n : nat) (i : Z) (st : escSensor) : escSensor :=
  match n with
  | O => st
  | S n' => invalidateLoop n' (i + 1) (modifyEscData i (with_dataAge ESC_DATA_INVALID) st)
  end.

Definition escSensorInit (env : platform) (st : escSensor) : bool * escSensor :=
  if negb (serialPortConfigured env) then (false, st) else
  let st :=
    match protocol env with
    | ESC_SENSOR_PROTO_KISS | ESC_SENSOR_PROTO_HW4 => set_escSensorPort (serialPortOpens env) st
    | ESC_SENSOR_PROTO_OTHER => st
    end in
  let st := invalidateLoop (Z.to_nat (MAX_SUPPORTED_MOTORS env)) 0 st in
  (escSensorPort st, st).

(** ** KISS frame decoder *)

(** One round of the loop of [updateCrc8]. *)
Definition crc8Round (crc_u : Z) : Z :=
  if negb (Z.land crc_u 0x80 =? 0)
  then to_uint8 (Z.lxor 0x7 (Z.shiftl crc_u 1))
  else to_uint8 (Z.shiftl crc_u 1).

Definition updateCrc8 (crc crc_seed : Z) : Z :=
  let crc_u := to_uint8 (Z.lxor crc crc_seed) in
  Nat.iter 8 crc8Round crc_u.

Fixpoint calculateCrc8Loop (Buf : list Z) (n : nat) (i : Z) (crc : Z) : Z :=
  match n with
  | O => crc
  | S n' => calculateCrc8Loop Buf n' (i + 1) (updateCrc8 (rd Buf i) crc)
  end.

Definition calculateCrc8 (Buf : list Z) (BufLen : Z) : Z :=
  calculateCrc8Loop Buf (Z.to_nat BufLen) 0 0.

(** The assignments of a successful decode, in source order. *)
Definition storeEscFrame (b : list Z) (r : escSensorData_t) : escSensorData_t :=
  let r := with_dataAge 0 r in
  let r := with_temperature (to_int16 (rd b 0)) r in
  let r := with_voltage (to_int32 (Z.lor (Z.shiftl (rd b 1) 8) (rd b 2))) r in
  let r := with_current (to_int32 (Z.lor (Z.shiftl (rd b 3) 8) (rd b 4))) r in
  let r := with_consumption (to_int32 (Z.lor (Z.shiftl (rd b 5) 8) (rd b 6))) r in
  with_rpm (to_int32 (Z.lor (Z.shiftl (rd b 7) 8) (rd b 8))) r.

Definition decodeEscFrame (st : escSensor) : escTlmFrameState_t * escSensor :=
  if negb (isFrameComplete st) then (ESC_SENSOR_FRAME_PENDING, st) else
  let chksum := to_uint16 (calculateCrc8 (telemetryBuffer st) (TELEMETRY_FRAME_SIZE - 1)) in
  let tlmsum := to_uint16 (rd (telemetryBuffer st) (TELEMETRY_FRAME_SIZE - 1)) in
  if chksum =? tlmsum then
    (ESC_SENSOR_FRAME_COMPLETE,
     set_combinedDataNeedsUpdate true
       (modifyEscData (escSensorMotor st) (storeEscFrame (telemetryBuffer st)) st))
  else (ESC_SENSOR_FRAME_FAILED, st).

(** ** KISS poll scheduler *)

Definition increaseDataAge (st : escSensor) : escSensor :=
  if dataAge (escData st (escSensorMotor st)) <? ESC_DATA_INVALID then
    set_combinedDataNeedsUpdate true
      (modifyEscData (escSensorMotor st)
         (fun r => with_dataAge (to_uint8 (dataAge r + 1)) r) st)
  else st.

Definition selectNextMotor (env : platform) (st : escSensor) : escSensor :=
  let st := set_escSensorMotor (to_uint8 (escSensorMotor st + 1)) st in
  if escSensorMotor st =? getMotorCount env then set_escSensorMotor 0 st else st.

Definition setRequest (currentTimeMs : Z) (st : escSensor) : escSensor :=
  let st := startEscDataRead TELEMETRY_FRAME_SIZE st in
  let st := set_requestTelemetry (escSensorMotor st :: requestTelemetry st) st in
  let st := set_escSensorTriggerState ESC_SENSOR_TRIGGER_PENDING st in
  set_escTriggerTimestamp currentTimeMs st.

Definition kissSensorProcess (env : platform) (currentTimeUs : Z) (st : escSensor)
    : escSensor :=
  let currentTimeMs := currentTimeUs / 1000 in
  match escSensorTriggerState st with
  | ESC_SENSOR_TRIGGER_STARTUP =>
      if ESC_BOOTTIME <=? currentTimeMs then setRequest currentTimeMs st else st
  | ESC_SENSOR_TRIGGER_PENDING =>
      if currentTimeMs <? to_uint32 (escTriggerTimestamp st + ESC_REQUEST_TIMEOUT) then
        let '(state, st) := decodeEscFrame st in
        match state with
        | ESC_SENSOR_FRAME_COMPLETE =>
            setRequest currentTimeMs (selectNextMotor env st)
        | ESC_SENSOR_FRAME_FAILED =>
            let st := setRequest currentTimeMs (selectNextMotor env (increaseDataAge st)) in
            if debugEscSensor env
            then set_totalCrcErrorCount (to_uint32 (totalCrcErrorCount st + 1)) st
            else st
        | ESC_SENSOR_FRAME_PENDING => st
        end
      else
        let st := setRequest currentTimeMs (selectNextMotor env (increaseDataAge st)) in
        if debugEscSensor env
        then set_totalTimeoutCount (to_uint32 (totalTimeoutCount st + 1)) st
        else st
  end.

(** ** Hobbywing V4 stream synchroniser *)

Definition processHW4TelemetryStream (dataByte : Z) (st : escSensor) : bool * escSensor :=
  if 0 <? skipBytes st then
    (false, set_skipBytes (to_uint8 (skipBytes st - 1)) st)
  else if (bytesRead st =? 0) && (dataByte =? 0x9B) then
    (false, set_bytesRead (to_uint8 (bytesRead st + 1))
              (set_hwData (wr (hwData st) (bytesRead st) dataByte) st))
  else if (bytesRead st =? 1) && (dataByte =? 0x9B) then
    (false, set_skipBytes 11 (set_bytesRead 0 st))
  else if 0 <? bytesRead st then
    let st := set_bytesRead (to_uint8 (bytesRead st + 1))
                (set_hwData (wr (hwData st) (bytesRead st) dataByte) st) in
    if bytesRead st =? 19 then (true, set_bytesRead 0 st) else (false, st)
  else (false, st).

(** ** Hobbywing V4 telemetry decoder *)

Definition calcVoltHW (env : platform) (fp : fpu) (voltRaw : Z) : float32 :=
  fp_voltScale fp voltRaw (hw4_voltage_gain env).

Definition calcCurrHW (env : platform) (fp : fpu) (currentRaw : Z) : float32 :=
  if hw4_current_offset env <? currentRaw
  then fp_currScale fp (currentRaw - hw4_current_offset env) (hw4_current_gain env)
  else fp_zero fp.

(** The condition guarding the decode of a complete frame. *)
Definition hw4FrameSane (d : list Z) : bool :=
  (rd d 4 <? 4) && (rd d 6 <? 4) && (rd d 8 <? 4) &&
  (rd d 11 <? 0xF) && (rd d 13 <? 0xF) && (rd d 15 <? 0xF) && (rd d 17 <? 0xF).

Definition hw4Throttle (d : list Z) : Z :=
  to_uint16 (Z.lor (Z.shiftl (rd d 4) 8) (rd d 5)).

Definition hw4Rpm (d : list Z) : Z :=
  to_uint32 (Z.lor (Z.lor (Z.shiftl (rd d 8) 16) (Z.shiftl (rd d 9) 8)) (rd d 10)).

Definition hw4Raw16 (d : list Z) (i : Z) : Z :=
  to_uint16 (Z.lor (Z.shiftl (rd d i) 8) (rd d (i + 1))).

(** The assignments to [escSensorData[0]] for an accepted frame. *)
Definition storeHW4Frame (env : platform) (fp : fpu) (d : list Z) (r : escSensorData_t)
    : escSensorData_t :=
  let thr := hw4Throttle d in
  let rpm := hw4Rpm d in
  let voltage := calcVoltHW env fp (hw4Raw16 d 11) in
  let current := calcCurrHW env fp (hw4Raw16 d 13) in
  let tempFET := fp_calcTempHW fp (hw4Raw16 d 15) in
  let r := with_dataAge 0 r in
  let r := with_temperature (to_int16 (fp_lrintf fp tempFET)) r in
  let r := with_voltage (to_int32 (fp_lrintf fp (fp_mul100 fp voltage))) r in
  let r := with_current (to_int32 (fp_lrintf fp (fp_mul100 fp current))) r in
  let r := with_rpm (to_int32 (rpm / 100)) r in
  if (rpm <? 100) || (thr <? 50) then with_current 0 r else r.

(** The body run for each complete frame. *)
Definition hw4DecodeFrame (env : platform) (fp : fpu) (currentTimeUs : Z) (st : escSensor)
    : escSensor :=
  if hw4FrameSane (hwData st) then
    set_dataUpdateUs currentTimeUs (modifyEscData 0 (storeHW4Frame env fp (hwData st)) st)
  else if debugEscSensor env
  then set_totalCrcErrorCount (to_uint32 (totalCrcErrorCount st + 1)) st
  else st.

Definition hw4ReceiveByte (env : platform) (fp : fpu) (currentTimeUs : Z)
    (st : escSensor) (dataByte : Z) : escSensor :=
  let '(complete, st) := processHW4TelemetryStream dataByte st in
  if complete then hw4DecodeFrame env fp currentTimeUs st else st.

(** [rx] holds the bytes waiting in the serial receive buffer at this tick;
    the loop reads all of them. *)
Definition hw4SensorProcess (env : platform) (fp : fpu) (currentTimeUs : Z) (rx : list Z)
    (st : escSensor) : escSensor :=
  let st :=
    if 250000 <? cmp32 currentTimeUs (dataUpdateUs st)
    then set_dataUpdateUs currentTimeUs (increaseDataAge st)
    else st in
  let st := fold_left (hw4ReceiveByte env fp currentTimeUs) rx st in
  let st :=
    set_totalConsumption
      (fp_accumulate fp (totalConsumption st)
         (to_int32 (cmp32 currentTimeUs (consumptionUpdateUs st) * current (escData st 0))))
      st in
  let st := set_consumptionUpdateUs currentTimeUs st in
  modifyEscData 0
    (with_consumption
       (to_int32 (fp_lrintf fp (fp_toMilliAmpHours fp (totalConsumption st))))) st.

Definition escSensorProcess (env : platform) (fp : fpu) (currentTimeUs : Z) (rx : list Z)
    (st : escSensor) : escSensor :=
  if negb (escSensorPort st) || negb (motorIsEnabled env) then st else
  match protocol env with
  | ESC_SENSOR_PROTO_KISS => kissSensorProcess env currentTimeUs st
  | ESC_SENSOR_PROTO_HW4 => hw4SensorProcess env fp currentTimeUs rx st
  | ESC_SENSOR_PROTO_OTHER => st
  end.

(** ** Runs of the KISS side *)

(** What happens to the KISS scheduler: the task runs at a time given in
    microseconds, or the serial driver delivers a byte. *)
Inductive kissEvent : Type :=
  | KissTick (currentTimeUs : Z)
  | KissReceive (c : Z).

Definition kissStep (env : platform) (st : escSensor) (e : kissEvent) : escSensor :=
  match e with
  | KissTick currentTimeUs => kissSensorProcess env currentTimeUs st
  | KissReceive c => escSensorDataReceive c st
  end.

Definition kissRun (env : platform) (evs : list kissEvent) (st : escSensor) : escSensor :=
  fold_left (kissStep env) evs st.



(** The scheduler before its first request. *)
Definition kissStartup (st : escSensor) : Prop :=
  escSensorTriggerState st = ESC_SENSOR_TRIGGER_STARTUP /\
  escSensorMotor st = 0 /\
  totalTimeoutCount st = 0 /\
  requestTelemetry st = [].






(** The motors requested by [k + 1] successive requests that start at motor
    0 and go round [n] motors, newest first. *)
Fixpoint roundRobin (n : Z) (k : nat) : list Z :=
  match k with
  | O => [0]
  | S k' => (Z.of_nat k mod n) :: roundRobin n k'
  end.





(** The operations that touch a record's age on the KISS side. *)
Inductive kissOp : Type :=
  | OpIncreaseDataAge
  | OpDecodeEscFrame
  | OpSelectNextMotor
  | OpSetRequest (currentTimeMs : Z)
  | OpReceive (c : Z).

Definition applyKissOp (env : platform) (st : escSensor) (op : kissOp) : escSensor :=
  match op with
  | OpIncreaseDataAge => increaseDataAge st
  | OpDecodeEscFrame => snd (decodeEscFrame st)
  | OpSelectNextMotor => selectNextMotor env st
  | OpSetRequest currentTimeMs => setRequest currentTimeMs st
  | OpReceive c => escSensorDataReceive c st
  end.

Definition runKissOps (env : platform) (ops : list kissOp) (st : escSensor) : escSensor :=
  fold_left (applyKissOp env) ops st.

(** Every stored age is an 8-bit value and the motor index is not negative. *)
Definition agesInRange (st : escSensor) : Prop :=
  0 <= escSensorMotor st /\
  Forall (fun r => 0 <= dataAge r <= ESC_DATA_INVALID) (escSensorData st).

(** Every stored rpm fits the [uint16_t] that [getEscSensorRPM] returns. *)
Definition rpmFits (st : escSensor) : Prop :=
  Forall (fun r => 0 <= rpm r < 2 ^ 16) (escSensorData st).

(** ** Runs of the Hobbywing synchroniser *)

(** Feeds the bytes in order; the result lists what each call returned. *)
Fixpoint hw4Feed (bytes : list Z) (st : escSensor) : list bool * escSensor :=
  match bytes with
  | [] => ([], st)
  | b :: bytes' =>
      let '(complete, st) := processHW4TelemetryStream b st in
      let '(flags, st) := hw4Feed bytes' st in
      (complete :: flags, st)
  end.

(** CRC-8 as the frame format describes it: the byte is XORed into the
    running value, which then goes through 8 rounds of "if the top bit is
    set, shift left and XOR with the polynomial [0x07], else shift left";
    the bytes are taken in order from the seed 0. *)
Definition crc8Shift (v : Z) : Z :=
  if Z.testbit v 7 then Z.lxor (v * 2) 0x07 mod 256 else v * 2 mod 256.
Definition crc8Byte (crc byte : Z) : Z := Nat.iter 8 crc8Shift (Z.lxor crc byte).
Definition crc8 (bytes : list Z) : Z := fold_left crc8Byte bytes 0.

(** A full KISS frame buffer of bytes. *)
Definition kissFrame (b : list Z) : Prop :=
  length b = 10%nat /\ Forall is_uint8 b.

(** The record a valid KISS frame stands for: byte 0 is the temperature,
    the byte pairs that follow are voltage, current, consumption and rpm,
    high byte first. *)
Definition decodedEscFrame (b : list Z) : escSensorData_t :=
  {| dataAge := 0;
     temperature := rd b 0;
     voltage := rd b 1 * 256 + rd b 2;
     current := rd b 3 * 256 + rd b 4;
     consumption := rd b 5 * 256 + rd b 6;
     rpm := rd b 7 * 256 + rd b 8 |}.

(** The result of [getEscSensorData] as the interface describes it: null
    when the feature is off or the index is not valid for the protocol,
    where KISS takes a motor below the motor count or the combined number
    and Hobbywing takes its one index, 0. *)
Definition validIndexAsDescribed (env : platform) (motorNumber : Z) : bool :=
  match protocol env with
  | ESC_SENSOR_PROTO_KISS =>
      (motorNumber <? getMotorCount env) || (motorNumber =? ESC_SENSOR_COMBINED)
  | ESC_SENSOR_PROTO_HW4 => motorNumber =? 0
  | ESC_SENSOR_PROTO_OTHER => false
  end.

(** ** [motors.c]: RPM source arbitration *)

Inductive rpmSource_e : Type :=
  | RPM_SRC_NONE
  | RPM_SRC_DSHOT_TELEM
  | RPM_SRC_FREQ_SENSOR
  | RPM_SRC_ESC_SENSOR.

#[global] Instance rpmSource_eq_dec : EqDecision rpmSource_e.
Proof. solve_decision. Defined.

#[global] Instance rpmSource_inhabited : Inhabited rpmSource_e := populate RPM_SRC_NONE.

(** The integer arrays of [motors.c]; the float arrays and the filters are
    left out. *)
Record motors : Type := mkMotors {
  motorRpmDiv : list Z;
  motorRpmSource : list rpmSource_e
}.

Fixpoint isRpmSourceActiveLoop (src : list rpmSource_e) (n : nat) (i : Z) : bool :=
  match n with
  | O => true
  | S n' =>
      if bool_decide (src !!! Z.to_nat i = RPM_SRC_NONE) then false
      else isRpmSourceActiveLoop src n' (i + 1)
  end.

Definition isRpmSourceActive (env : platform) (ms : motors) : bool :=
  isRpmSourceActiveLoop (motorRpmSource ms) (Z.to_nat (getMotorCount env)) 0.

Definition calcMotorRPM (ms : motors) (motor erpm : Z) : Z :=
  Z.quot (to_int32 (100 * erpm)) (rd (motorRpmDiv ms) motor).

(** Built with [USE_FREQ_SENSOR], [USE_DSHOT_TELEMETRY] and
    [USE_ESC_SENSOR]. *)
Definition getMotorERPM (env : platform) (esc : escSensor) (ms : motors) (motor : Z) : Z :=
  match motorRpmSource ms !!! Z.to_nat motor with
  | RPM_SRC_FREQ_SENSOR => getFreqSensorRPM env motor
  | RPM_SRC_DSHOT_TELEM => getDshotTelemetry env motor
  | RPM_SRC_ESC_SENSOR => getEscSensorRPM esc motor
  | RPM_SRC_NONE => 0
  end.

Definition constrain (amt low high : Z) : Z :=
  if amt <? low then low else if high <? amt then high else amt.

Definition selectRpmSource (env : platform) (esc : escSensor) (i : Z) : rpmSource_e :=
  if featureFreqSensor env && isFreqSensorPortInitialized env i then RPM_SRC_FREQ_SENSOR
  else if useDshotTelemetry env then RPM_SRC_DSHOT_TELEM
  else if featureEscSensor env && isEscSensorActive esc then RPM_SRC_ESC_SENSOR
  else RPM_SRC_NONE.

Fixpoint rpmSourceInitLoop (env : platform) (esc : escSensor) (n : nat) (i : Z)
    (ms : motors) : motors :=
  match n with
  | O => ms
  | S n' =>
      rpmSourceInitLoop env esc n' (i + 1)
        {| motorRpmSource := <[Z.to_nat i := selectRpmSource env esc i]> (motorRpmSource ms);
           motorRpmDiv :=
             wr (motorRpmDiv ms) i (to_uint8 (constrain (motorPoleCount env i / 2) 1 100)) |}
  end.

Definition rpmSourceInit (env : platform) (esc : escSensor) (ms : motors) : motors :=
  rpmSourceInitLoop env esc (Z.to_nat (MAX_SUPPORTED_MOTORS env)) 0 ms.

(** ** Sample configurations and inputs *)

(** Four motors polled over KISS, with the debug mode [DEBUG_ESC_SENSOR]
    selected, so that the two counters run. *)
Definition quadKiss : platform :=
  {| MAX_SUPPORTED_MOTORS := 4;
     featureEscSensor := true;
     featureFreqSensor := false;
     getMotorCount := 4;
     motorIsEnabled := true;
     protocol := ESC_SENSOR_PROTO_KISS;
     hw4_current_offset := 15;
     hw4_current_gain := 100;
     hw4_voltage_gain := 110;
     serialPortConfigured := true;
     serialPortOpens := true;
     isFreqSensorPortInitialized := fun _ => false;
     getFreqSensorRPM := fun _ => 0;
     useDshotTelemetry := false;
     getDshotTelemetry := fun _ => 0;
     motorPoleCount := fun _ => 2;
     debugEscSensor := true |}.

(** One motor behind a Hobbywing V4 controller, with the same debug
    mode. *)
Definition singleHW4 : platform :=
  {| MAX_SUPPORTED_MOTORS := 4;
     featureEscSensor := true;
     featureFreqSensor := false;
     getMotorCount := 1;
     motorIsEnabled := true;
     protocol := ESC_SENSOR_PROTO_HW4;
     hw4_current_offset := 15;
     hw4_current_gain := 100;
     hw4_voltage_gain := 110;
     serialPortConfigured := true;
     serialPortOpens := true;
     isFreqSensorPortInitialized := fun _ => false;
     getFreqSensorRPM := fun _ => 0;
     useDshotTelemetry := false;
     getDshotTelemetry := fun _ => 0;
     motorPoleCount := fun _ => 2;
     debugEscSensor := true |}.

(** The same platform with another debug mode. *)
Definition withDebugEscSensor (selected : bool) (env : platform) : platform :=
  {| MAX_SUPPORTED_MOTORS := MAX_SUPPORTED_MOTORS env;
     featureEscSensor := featureEscSensor env;
     featureFreqSensor := featureFreqSensor env;
     getMotorCount := getMotorCount env;
     motorIsEnabled := motorIsEnabled env;
     protocol := protocol env;
     hw4_current_offset := hw4_current_offset env;
     hw4_current_gain := hw4_current_gain env;
     hw4_voltage_gain := hw4_voltage_gain env;
     serialPortConfigured := serialPortConfigured env;
     serialPortOpens := serialPortOpens env;
     isFreqSensorPortInitialized := isFreqSensorPortInitialized env;
     getFreqSensorRPM := getFreqSensorRPM env;
     useDshotTelemetry := useDshotTelemetry env;
     getDshotTelemetry := getDshotTelemetry env;
     motorPoleCount := motorPoleCount env;
     debugEscSensor := selected |}.

(** The two platforms as they are with the debug mode left at its
    default. *)
Definition quadKissNoDebug : platform := withDebugEscSensor false quadKiss.
Definition singleHW4NoDebug : platform := withDebugEscSensor false singleHW4.

(** A stand-in for the float arithmetic that keeps the raw integers, good
    enough to run the decoder on sample frames. *)
Definition rawFpu : fpu :=
  {| fp_calcTempHW := fun tempRaw => tempRaw;
     fp_voltScale := fun voltRaw gain => voltRaw * gain;
     fp_currScale := fun diff gain => diff * gain;
     fp_zero := 0;
     fp_mul100 := fun x => x * 100;
     fp_lrintf := fun x => x;
     fp_accumulate := fun total n => total + n * 10;
     fp_toMilliAmpHours := fun total => total / 3600000000 |}.

(** The KISS payload of the testable properties, then with its check byte
    and with the lowest bit of the check byte flipped. *)
Definition kissPayload : list Z := [10; 0; 220; 0; 5; 0; 10; 1; 244].
Definition kissGoodFrame : list Z := kissPayload ++ [13].
Definition kissBadFrame : list Z := kissPayload ++ [12].

(** A scheduler with a request pending for motor 0 at 5000 ms and the
    given ten bytes received. *)
Definition kissAwaiting (frame : list Z) : escSensor :=
  set_bufferPosition 10
    (set_telemetryBuffer frame (setRequest 5000 (initialEscSensor quadKiss))).

(** A Hobbywing frame of a running motor (throttle 512, rpm 66000, raw
    current 300), one of a stopped motor that still reports a current
    (throttle 0, rpm 0, raw current 300), and one with a bad byte 4. *)
Definition hw4RunningFrame : list Z :=
  [0x9B; 0; 0; 1; 2; 0; 2; 0; 1; 1; 208; 8; 0; 1; 44; 9; 0; 9; 0].
Definition hw4StoppedFrame : list Z :=
  [0x9B; 0; 0; 2; 0; 0; 0; 0; 0; 0; 0; 8; 0; 1; 44; 9; 0; 9; 0].
Definition hw4InsaneFrame : list Z :=
  [0x9B; 0; 0; 3; 4; 0; 2; 0; 1; 1; 208; 8; 0; 1; 44; 9; 0; 9; 0].

(** The parser one byte short of the given frame. *)
Definition hw4AwaitingLast (frame : list Z) : escSensor :=
  set_bytesRead 18
    (set_hwData (take 18 frame ++ [0; 0]) (initialEscSensor singleHW4)).

(** The stream of the resynchronisation property with a payload that
    starts with the sync byte. *)
Definition hw4SyncPayloadStream : list Z :=
  [0x9B; 0x9B] ++ replicate 11 0 ++ [0x9B] ++ (0x9B :: replicate 17 0).




(** On-time ticks with a corrupt frame arriving right after the request
    of 5000 ms. *)
Definition corruptFrameRun : list kissEvent :=
  [KissTick 0; KissTick 5000000] ++ map KissReceive kissBadFrame ++
  [KissTick 5001000; KissTick 5100000].

(** The store after a boot and one frame decoded for motor 0: record 0 is
    fresh, the others are still invalid. *)
Definition oneFreshRecord : escSensor :=
  set_escSensorData
    [ {| dataAge := 0; temperature := 10; voltage := 220; current := 5;
         consumption := 10; rpm := 500 |};
      with_dataAge ESC_DATA_INVALID zeroEscSensorData;
      with_dataAge ESC_DATA_INVALID zeroEscSensorData;
      with_dataAge ESC_DATA_INVALID zeroEscSensorData ]
    (initialEscSensor quadKiss).

Definition threeSources : motors :=
  {| motorRpmDiv := [1; 1; 1; 1];
     motorRpmSource := [RPM_SRC_ESC_SENSOR; RPM_SRC_ESC_SENSOR; RPM_SRC_ESC_SENSOR;
                        RPM_SRC_NONE] |}.
Definition fourSources : motors :=
  {| motorRpmDiv := [1; 1; 1; 1];
     motorRpmSource := [RPM_SRC_ESC_SENSOR; RPM_SRC_ESC_SENSOR; RPM_SRC_ESC_SENSOR;
                        RPM_SRC_ESC_SENSOR] |}.

(** ** Further runs and reference values *)

(** The serial driver delivers the bytes in order. *)
Definition receiveAll (cs : list Z) (st : escSensor) : escSensor :=
  fold_left (fun s c => escSensorDataReceive c s) cs st.

(** A KISS frame for the given values, laid out as the protocol comment of
    the decoder has it: temperature, then voltage, current, consumption
    and rpm high byte first, then the check byte. *)
Definition kissPayloadOf (r : escSensorData_t) : list Z :=
  [temperature r; voltage r / 256; voltage r mod 256; current r / 256; current r mod 256;
   consumption r / 256; consumption r mod 256; rpm r / 256; rpm r mod 256].

Definition kissEncode (r : escSensorData_t) : list Z :=
  kissPayloadOf r ++ [calculateCrc8 (kissPayloadOf r) 9].

(** A record as the KISS decoder writes it and the scheduler ages it. *)
Definition kissRecord (r : escSensorData_t) : Prop :=
  (0 <= dataAge r <= ESC_DATA_INVALID) /\ (0 <= temperature r < 256) /\
  (0 <= voltage r < 65536) /\ (0 <= current r < 65536) /\
  (0 <= consumption r < 65536) /\ (0 <= rpm r < 65536).

(** The combined record of a list of motor records: the largest age and
    temperature (not below 0), the summed current and consumption, the
    mean voltage and rpm. *)
Definition sumOf (f : escSensorData_t -> Z) (rs : list escSensorData_t) : Z :=
  fold_right Z.add 0 (map f rs).

Definition maxOf (f : escSensorData_t -> Z) (rs : list escSensorData_t) : Z :=
  fold_right Z.max 0 (map f rs).

Definition aggregate (rs : list escSensorData_t) : escSensorData_t :=
  {| dataAge := maxOf dataAge rs;
     temperature := maxOf temperature rs;
     voltage := sumOf voltage rs / Z.of_nat (length rs);
     current := sumOf current rs;
     consumption := sumOf consumption rs;
     rpm := sumOf rpm rs / Z.of_nat (length rs) |}.

(** The records of the motors in use. *)
Definition motorRecords (env : platform) (st : escSensor) : list escSensorData_t :=
  take (Z.to_nat (getMotorCount env)) (escSensorData st).

(** The combined record is either marked stale or is the aggregate of the
    records of the motors in use. *)
Definition combinedFresh (env : platform) (st : escSensor) : Prop :=
  combinedDataNeedsUpdate st = false ->
  combinedEscSensorData st = aggregate (motorRecords env st).

(** What happens on the KISS side when consumers are counted in: an event
    of the scheduler, or a query for a motor's telemetry. *)
Inductive kissActivity : Type :=
  | Scheduler (e : kissEvent)
  | Query (motorNumber : Z).

Definition kissAct (env : platform) (st : escSensor) (a : kissActivity) : escSensor :=
  match a with
  | Scheduler e => kissStep env st e
  | Query motorNumber => snd (getEscSensorData env motorNumber st)
  end.

Definition kissActs (env : platform) (acts : list kissActivity) (st : escSensor)
    : escSensor :=
  fold_left (kissAct env) acts st.

(** The requests made so far, newest first, when they went round the
    motors from motor 0. *)
Definition requestsInOrder (n : Z) (made : nat) : list Z :=
  match made with
  | O => []
  | S k => roundRobin n k
  end.

(** The state of the Hobbywing parser between two bytes: the counters are
    in range, the buffer has its 20 cells, and a frame under way starts
    with the sync byte and does not go on with a second one. *)
Definition hw4ParserOk (st : escSensor) : Prop :=
  0 <= bytesRead st <= 18 /\
  0 <= skipBytes st <= 11 /\
  length (hwData st) = 20%nat /\
  (1 <= bytesRead st -> rd (hwData st) 0 = 0x9B) /\
  (2 <= bytesRead st -> rd (hwData st) 1 <> 0x9B).

(** A Hobbywing data frame on the wire: the sync byte and 18 more bytes of
    which the first is not the sync byte. *)
Definition hw4DataFrame (frame : list Z) : Prop :=
  length frame = 19%nat /\ head frame = Some 0x9B /\ frame !! 1%nat <> Some 0x9B.

(** The time from [last] to [now] on the 32-bit microsecond clock, across
    a wrap of the clock. *)
Definition elapsedUs (now last : Z) : Z := (now - last) mod 2 ^ 32.

(** The requests so far went round the motors in order from motor 0, and
    the scheduler waits for the answer of the motor it asked last. *)
Definition kissInOrder (env : platform) (st : escSensor) : Prop :=
  requestTelemetry st = requestsInOrder (getMotorCount env) (length (requestTelemetry st)) /\
  match length (requestTelemetry st) with
  | O => escSensorTriggerState st = ESC_SENSOR_TRIGGER_STARTUP /\ escSensorMotor st = 0
  | S k =>
      escSensorTriggerState st = ESC_SENSOR_TRIGGER_PENDING /\
      escSensorMotor st = Z.of_nat k mod getMotorCount env
  end.

(** What the KISS side keeps true of the store: the buffer holds ten
    bytes, every record is a KISS reading, the array keeps its length and
    the combined record is fresh or marked stale. *)
Definition storeSound (env : platform) (len : nat) (st : escSensor) : Prop :=
  kissFrame (telemetryBuffer st) /\
  Forall kissRecord (escSensorData st) /\
  length (escSensorData st) = len /\
  combinedFresh env st.

(** The variables that only the KISS side and the initialisation write. *)
Definition kissVariables (st : escSensor) :=
  (telemetryBuffer st, bufferSize st, bufferPosition st, escSensorPort st,
   escSensorTriggerState st, escTriggerTimestamp st, escSensorMotor st,
   combinedEscSensorData st, totalTimeoutCount st, requestTelemetry st).

(** The task run at the given times, each with the bytes then waiting in
    the serial receive buffer. *)
Definition escSensorTicks (env : platform) (fp : fpu) (ticks : list (Z * list Z))
    (st : escSensor) : escSensor :=
  fold_left (fun s tick => escSensorProcess env fp (fst tick) (snd tick) s) ticks st.

(** ** Further sample inputs *)

(** The scheduler right after the first request, at 5000 ms. *)
Definition kissRequested : escSensor := setRequest 5000 (initialEscSensor quadKiss).

(** The reading that the sample frame stands for, at some age. *)
Definition sampleReading : escSensorData_t :=
  {| dataAge := 7; temperature := 10; voltage := 220; current := 5;
     consumption := 10; rpm := 500 |}.

(** Ticks, received bytes and queries mixed. *)
Definition sampleActivity : list kissActivity :=
  [Scheduler (KissTick 0); Query ESC_SENSOR_COMBINED; Scheduler (KissTick 5000000)]
  ++ map (fun c => Scheduler (KissReceive c)) kissGoodFrame
  ++ [Scheduler (KissTick 5001000); Query 0].

(** Four motors and no serial port assigned to the ESC sensor. *)
Definition unwiredKiss : platform :=
  {| MAX_SUPPORTED_MOTORS := 4;
     featureEscSensor := true;
     featureFreqSensor := false;
     getMotorCount := 4;
     motorIsEnabled := true;
     protocol := ESC_SENSOR_PROTO_KISS;
     hw4_current_offset := 15;
     hw4_current_gain := 100;
     hw4_voltage_gain := 110;
     serialPortConfigured := false;
     serialPortOpens := true;
     isFreqSensorPortInitialized := fun _ => false;
     getFreqSensorRPM := fun _ => 0;
     useDshotTelemetry := false;
     getDshotTelemetry := fun _ => 0;
     motorPoleCount := fun _ => 2;
     debugEscSensor := false |}.

(** * Properties *)

(** ** Integer conversions *)

Lemma to_uint8_range z : 0 <= to_uint8 z < 256.
Proof. unfold to_uint8. apply Z.mod_pos_bound. lia. Qed.

Lemma to_uint8_small z : 0 <= z < 256 -> to_uint8 z = z.
Proof. intros H. unfold to_uint8. apply Z.mod_small. lia. Qed.

Lemma to_uint16_small z : 0 <= z < 65536 -> to_uint16 z = z.
Proof. intros H. unfold to_uint16. apply Z.mod_small. lia. Qed.

Lemma to_uint32_small z : 0 <= z < 4294967296 -> to_uint32 z = z.
Proof. intros H. unfold to_uint32. apply Z.mod_small. lia. Qed.

Lemma to_int16_small z : -32768 <= z < 32768 -> to_int16 z = z.
Proof.
  intros H. unfold to_int16, to_signed.
  change (2 ^ (16 - 1)) with 32768. change (2 ^ 16) with 65536.
  rewrite Z.mod_small by lia. lia.
Qed.

Lemma to_int32_small z : -2147483648 <= z < 2147483648 -> to_int32 z = z.
Proof.
  intros H. unfold to_int32, to_signed.
  change (2 ^ (32 - 1)) with 2147483648. change (2 ^ 32) with 4294967296.
  rewrite Z.mod_small by lia. lia.
Qed.

(** [hi << n | lo] is [hi * 2 ^ n + lo] when [lo] fits in the low [n] bits. *)
Lemma lor_shiftl_low hi lo n :
  0 <= n -> 0 <= lo < 2 ^ n -> Z.lor (Z.shiftl hi n) lo = hi * 2 ^ n + lo.
Proof.
  intros Hn Hlo.
  assert (Hdisj : Z.land (Z.shiftl hi n) lo = 0).
  { apply Z.bits_inj'. intros i Hi. rewrite Z.land_spec, Z.bits_0.
    destruct (Z.lt_ge_cases i n) as [Hlt | Hge].
    - rewrite Z.shiftl_spec_low by lia. reflexivity.
    - destruct (Z.eq_dec lo 0) as [-> | Hne]; [rewrite Z.bits_0; apply andb_false_r |].
      rewrite (Z.bits_above_log2 lo i); [apply andb_false_r | lia |].
      apply Z.lt_le_trans with n; [| lia].
      apply Z.log2_lt_pow2; lia. }
  rewrite <- Z.lxor_lor by exact Hdisj.
  rewrite <- Z.add_nocarry_lxor by exact Hdisj.
  rewrite Z.shiftl_mul_pow2 by lia. reflexivity.
Qed.

(** [hi << 8 | lo] is the big-endian value of the two bytes. *)
Lemma lor_shiftl_byte hi lo : 0 <= lo < 256 -> Z.lor (Z.shiftl hi 8) lo = hi * 256 + lo.
Proof. intros Hlo. apply (lor_shiftl_low hi lo 8); [lia | exact Hlo]. Qed.

(** Flipping one bit changes the value. *)
Lemma lxor_pow2_neq b k : 0 <= k -> Z.lxor b (2 ^ k) <> b.
Proof.
  intros Hk Heq.
  assert (H0 : Z.lxor (Z.lxor b (2 ^ k)) b = 0) by (rewrite Heq; apply Z.lxor_nilpotent).
  rewrite (Z.lxor_comm b), Z.lxor_assoc, Z.lxor_nilpotent, Z.lxor_0_r in H0.
  pose proof (Z.pow_pos_nonneg 2 k). lia.
Qed.

Lemma lxor_pow2_uint8 b k : is_uint8 b -> 0 <= k < 8 -> is_uint8 (Z.lxor b (2 ^ k)).
Proof.
  unfold is_uint8. intros Hb Hk.
  assert (Hnn : 0 <= Z.lxor b (2 ^ k)) by (apply Z.lxor_nonneg; split; intros; [apply Z.pow_nonneg|]; lia).
  split; [exact Hnn |].
  destruct (Z.eq_dec (Z.lxor b (2 ^ k)) 0) as [-> | Hne]; [lia |].
  change 256 with (2 ^ 8). apply Z.log2_lt_pow2; [lia |].
  eapply Z.le_lt_trans; [apply Z.log2_lxor; [lia | apply Z.pow_nonneg; lia] |].
  apply Z.max_lub_lt.
  - destruct (Z.eq_dec b 0) as [-> | Hb0]; [simpl; lia |]. apply Z.log2_lt_pow2; lia.
  - rewrite Z.log2_pow2 by lia. lia.
Qed.

(** ** KISS frame decoder *)

Lemma crc8Round_range x : is_uint8 (crc8Round x).
Proof. unfold crc8Round. destruct (negb _); apply to_uint8_range. Qed.

Lemma updateCrc8_range crc crc_seed : is_uint8 (updateCrc8 crc crc_seed).
Proof. unfold updateCrc8. cbn [Nat.iter]. apply crc8Round_range. Qed.

Create HintDb uint8.
#[global] Hint Resolve to_uint8_range crc8Round_range updateCrc8_range : uint8.

Lemma calculateCrc8Loop_range Buf n : forall i crc,
  is_uint8 crc -> is_uint8 (calculateCrc8Loop Buf n i crc).
Proof.
  induction n as [| n IH]; intros i crc Hcrc; cbn [calculateCrc8Loop];
    auto with uint8.
Qed.

Lemma calculateCrc8_range Buf BufLen : is_uint8 (calculateCrc8 Buf BufLen).
Proof. apply calculateCrc8Loop_range. unfold is_uint8. lia. Qed.

(** The checksum reads only the cells below [BufLen]. *)
Lemma calculateCrc8Loop_ext Buf Buf' n : forall i crc,
  0 <= i ->
  (forall j, i <= j < i + Z.of_nat n -> rd Buf j = rd Buf' j) ->
  calculateCrc8Loop Buf n i crc = calculateCrc8Loop Buf' n i crc.
Proof.
  induction n as [| n IH]; intros i crc Hi Hsame; cbn [calculateCrc8Loop].
  - reflexivity.
  - rewrite (Hsame i) by lia. apply IH; [lia |].
    intros j Hj. apply Hsame. lia.
Qed.

Lemma rd_uint8 b i : Forall is_uint8 b -> 0 <= i < Z.of_nat (length b) -> is_uint8 (rd b i).
Proof.
  intros Hall Hi. unfold rd.
  destruct (lookup_lt_is_Some_2 b (Z.to_nat i)) as [x Hx]; [lia |].
  rewrite (list_lookup_total_correct _ _ _ Hx).
  eapply Forall_lookup_1; eassumption.
Qed.

(** A property of all bytes that a computation confirms for each of the
    256 values. *)
Lemma forall_uint8 (P : Z -> bool) :
  forallb P (map Z.of_nat (seq 0 256)) = true -> forall v, is_uint8 v -> P v = true.
Proof.
  intros Hall v Hv. rewrite forallb_forall in Hall. apply Hall.
  apply in_map_iff. exists (Z.to_nat v). unfold is_uint8 in Hv.
  split; [lia | apply in_seq; lia].
Qed.

Lemma crc8Round_shift v : is_uint8 v -> crc8Round v = crc8Shift v.
Proof.
  intros Hv. apply Z.eqb_eq.
  apply (forall_uint8 (fun v => crc8Round v =? crc8Shift v)); [| exact Hv].
  vm_compute. reflexivity.
Qed.

Lemma lxor_uint8 a b : is_uint8 a -> is_uint8 b -> is_uint8 (Z.lxor a b).
Proof.
  unfold is_uint8. intros Ha Hb.
  assert (Hnn : 0 <= Z.lxor a b) by (apply Z.lxor_nonneg; lia).
  split; [exact Hnn |].
  destruct (Z.eq_dec (Z.lxor a b) 0) as [-> | Hne]; [lia |].
  change 256 with (2 ^ 8). apply Z.log2_lt_pow2; [lia |].
  eapply Z.le_lt_trans; [apply Z.log2_lxor; lia |].
  apply Z.max_lub_lt.
  - destruct (Z.eq_dec a 0) as [-> | Ha0]; [simpl; lia |]. apply Z.log2_lt_pow2; lia.
  - destruct (Z.eq_dec b 0) as [-> | Hb0]; [simpl; lia |]. apply Z.log2_lt_pow2; lia.
Qed.

Lemma crc8Round_iter k : forall v,
  is_uint8 v -> Nat.iter k crc8Round v = Nat.iter k crc8Shift v /\
                is_uint8 (Nat.iter k crc8Round v).
Proof.
  induction k as [| k IH]; intros v Hv.
  - split; [reflexivity | exact Hv].
  - rewrite !Nat.iter_succ. destruct (IH v Hv) as [Heq Hrange]. rewrite <- Heq.
    split; [apply crc8Round_shift, Hrange | apply crc8Round_range].
Qed.

Lemma updateCrc8_crc8Byte crc byte :
  is_uint8 crc -> is_uint8 byte -> updateCrc8 byte crc = crc8Byte crc byte.
Proof.
  intros Hcrc Hbyte. unfold updateCrc8, crc8Byte.
  pose proof (lxor_uint8 byte crc Hbyte Hcrc) as Hx.
  rewrite to_uint8_small by exact Hx. rewrite (Z.lxor_comm crc byte).
  apply crc8Round_iter, Hx.
Qed.

(** The loop of [calculateCrc8] folds the byte step over the cells it
    visits. *)
Lemma calculateCrc8Loop_fold Buf n : forall i crc,
  Forall is_uint8 Buf -> 0 <= i -> (Z.to_nat i + n <= length Buf)%nat -> is_uint8 crc ->
  calculateCrc8Loop Buf n i crc = fold_left crc8Byte (take n (drop (Z.to_nat i) Buf)) crc.
Proof.
  induction n as [| n IH]; intros i crc Hall Hi Hlen Hcrc; cbn [calculateCrc8Loop].
  - reflexivity.
  - destruct (lookup_lt_is_Some_2 Buf (Z.to_nat i)) as [x Hx]; [lia |].
    assert (Hrd : rd Buf i = x) by (apply list_lookup_total_correct, Hx).
    assert (Hbyte : is_uint8 x) by (eapply Forall_lookup_1; eassumption).
    rewrite (drop_S _ _ _ Hx). cbn [take fold_left].
    rewrite Hrd, updateCrc8_crc8Byte by assumption.
    rewrite IH; [| exact Hall | lia | lia | ].
    + replace (Z.to_nat (i + 1)) with (S (Z.to_nat i)) by lia. reflexivity.
    + rewrite <- updateCrc8_crc8Byte by assumption. apply updateCrc8_range.
Qed.

Lemma calculateCrc8_crc8 Buf BufLen :
  Forall is_uint8 Buf -> 0 <= BufLen <= Z.of_nat (length Buf) ->
  calculateCrc8 Buf BufLen = crc8 (take (Z.to_nat BufLen) Buf).
Proof.
  intros Hall Hlen. unfold calculateCrc8, crc8.
  rewrite calculateCrc8Loop_fold; [reflexivity | exact Hall | lia | cbn; lia |].
  unfold is_uint8. lia.
Qed.

Lemma rd_wr_eq b i v : 0 <= i < Z.of_nat (length b) -> rd (wr b i v) i = v.
Proof.
  intros Hi. unfold rd, wr. apply list_lookup_total_insert_eq. lia.
Qed.

Lemma rd_wr_ne b i j v : 0 <= i -> 0 <= j -> i <> j -> rd (wr b i v) j = rd b j.
Proof.
  intros Hi Hj Hne. unfold rd, wr. apply list_lookup_total_insert_ne. lia.
Qed.

(** A successful decode overwrites every field, so the stored record does
    not depend on the one it replaces. *)
Lemma storeEscFrame_decoded b r : kissFrame b -> storeEscFrame b r = decodedEscFrame b.
Proof.
  intros [Hlen Hall].
  assert (Hb : forall i, 0 <= i < 10 -> 0 <= rd b i < 256).
  { intros i Hi. apply rd_uint8; [exact Hall | lia]. }
  pose proof (Hb 0) as H0. pose proof (Hb 1) as H1. pose proof (Hb 2) as H2.
  pose proof (Hb 3) as H3. pose proof (Hb 4) as H4. pose proof (Hb 5) as H5.
  pose proof (Hb 6) as H6. pose proof (Hb 7) as H7. pose proof (Hb 8) as H8.
  unfold storeEscFrame, decodedEscFrame, with_rpm, with_consumption, with_current,
    with_voltage, with_temperature, with_dataAge; cbn.
  rewrite !lor_shiftl_byte by lia.
  rewrite to_int16_small by lia.
  rewrite !to_int32_small by lia.
  reflexivity.
Qed.

(** C1.  The checksum the decoder computes is the CRC-8 (polynomial
    [0x07], seed 0) of the first nine bytes.  A full 10-byte frame buffer
    whose last byte differs from it makes [decodeEscFrame] return
    [ESC_SENSOR_FRAME_FAILED] and leaves the whole state as it was, in
    particular all six fields of the selected motor's record.  So does a
    frame with a matching checksum after any one bit of its last byte is
    flipped. *)
Theorem decodeEscFrame_crc_mismatch (st : escSensor) :
  kissFrame (telemetryBuffer st) ->
  isFrameComplete st = true ->
  calculateCrc8 (telemetryBuffer st) 9 = crc8 (take 9 (telemetryBuffer st)) /\
  (rd (telemetryBuffer st) 9 <> crc8 (take 9 (telemetryBuffer st)) ->
   decodeEscFrame st = (ESC_SENSOR_FRAME_FAILED, st)) /\
  (rd (telemetryBuffer st) 9 = crc8 (take 9 (telemetryBuffer st)) ->
   forall k, 0 <= k < 8 ->
     let corrupted :=
       set_telemetryBuffer
         (wr (telemetryBuffer st) 9 (Z.lxor (rd (telemetryBuffer st) 9) (2 ^ k))) st in
     decodeEscFrame corrupted = (ESC_SENSOR_FRAME_FAILED, corrupted)).
Proof.
  intros [Hlen Hall] Hfull.
  assert (Hfail : forall s, isFrameComplete s = true ->
            is_uint8 (rd (telemetryBuffer s) 9) ->
            rd (telemetryBuffer s) 9 <> calculateCrc8 (telemetryBuffer s) 9 ->
            decodeEscFrame s = (ESC_SENSOR_FRAME_FAILED, s)).
  { intros s Hs Hbyte Hne. unfold decodeEscFrame. rewrite Hs. cbn [negb].
    change (TELEMETRY_FRAME_SIZE - 1) with 9.
    pose proof (calculateCrc8_range (telemetryBuffer s) 9) as Hcrc.
    unfold is_uint8 in Hbyte, Hcrc.
    rewrite !to_uint16_small by lia.
    destruct (Z.eqb_spec (calculateCrc8 (telemetryBuffer s) 9) (rd (telemetryBuffer s) 9));
      [congruence | reflexivity]. }
  assert (Hlast : is_uint8 (rd (telemetryBuffer st) 9)) by (apply rd_uint8; [exact Hall | lia]).
  assert (Hspec : calculateCrc8 (telemetryBuffer st) 9 = crc8 (take 9 (telemetryBuffer st))).
  { apply (calculateCrc8_crc8 (telemetryBuffer st) 9 Hall). lia. }
  split; [exact Hspec |]. rewrite <- Hspec. split.
  - intros Hne. apply Hfail; assumption.
  - intros Hcrc k Hk corrupted. apply Hfail.
    + exact Hfull.
    + subst corrupted. cbn. rewrite rd_wr_eq by lia. apply lxor_pow2_uint8; assumption.
    + subst corrupted. cbn. rewrite rd_wr_eq by lia.
      unfold calculateCrc8.
      rewrite (calculateCrc8Loop_ext _ (telemetryBuffer st)).
      * fold (calculateCrc8 (telemetryBuffer st) 9). rewrite <- Hcrc.
        apply lxor_pow2_neq. lia.
      * lia.
      * intros j Hj. apply rd_wr_ne; lia.
Qed.

(** C5.  A full 10-byte frame buffer whose last byte is the CRC-8 of the
    first nine makes [decodeEscFrame] return [ESC_SENSOR_FRAME_COMPLETE],
    replace the current motor's record by the decoded one (age 0,
    temperature byte 0, then voltage, current, consumption and rpm as the
    big-endian byte pairs 1-2, 3-4, 5-6, 7-8) and set the dirty flag of
    the combined record, changing nothing else; a buffer that is not full
    gives [ESC_SENSOR_FRAME_PENDING] and the state is unchanged. *)
Theorem decodeEscFrame_valid (st : escSensor) :
  kissFrame (telemetryBuffer st) ->
  0 <= escSensorMotor st < Z.of_nat (length (escSensorData st)) ->
  (isFrameComplete st = true ->
   rd (telemetryBuffer st) 9 = crc8 (take 9 (telemetryBuffer st)) ->
   let st' :=
     set_combinedDataNeedsUpdate true
       (set_escSensorData
          (<[Z.to_nat (escSensorMotor st) := decodedEscFrame (telemetryBuffer st)]>
             (escSensorData st)) st) in
   decodeEscFrame st = (ESC_SENSOR_FRAME_COMPLETE, st') /\
   escData st' (escSensorMotor st) = decodedEscFrame (telemetryBuffer st) /\
   dataAge (escData st' (escSensorMotor st)) = 0 /\
   combinedDataNeedsUpdate st' = true) /\
  (isFrameComplete st = false -> decodeEscFrame st = (ESC_SENSOR_FRAME_PENDING, st)).
Proof.
  intros Hframe Hmotor. split.
  - intros Hfull Hcrc st'.
    assert (Hspec : calculateCrc8 (telemetryBuffer st) 9 = crc8 (take 9 (telemetryBuffer st))).
    { destruct Hframe as [Hlen Hall].
      apply (calculateCrc8_crc8 (telemetryBuffer st) 9 Hall). lia. }
    rewrite <- Hspec in Hcrc.
    assert (Hrec : escData st' (escSensorMotor st) = decodedEscFrame (telemetryBuffer st)).
    { subst st'. unfold escData. cbn. apply list_lookup_total_insert_eq. lia. }
    split; [| split; [exact Hrec | split; [rewrite Hrec; reflexivity | reflexivity]]].
    unfold decodeEscFrame. rewrite Hfull. cbn [negb].
    change (TELEMETRY_FRAME_SIZE - 1) with 9. rewrite Hcrc, Z.eqb_refl.
    subst st'. unfold modifyEscData. do 3 f_equal.
    rewrite list_insert_alter. apply list_alter_ext; [| reflexivity].
    intros r _. apply storeEscFrame_decoded, Hframe.
  - intros Hpart. unfold decodeEscFrame. rewrite Hpart. reflexivity.
Qed.

(** ** The telemetry store *)

Lemma escData_modify_eq i f st :
  0 <= i < Z.of_nat (length (escSensorData st)) ->
  escData (modifyEscData i f st) i = f (escData st i).
Proof.
  intros Hi. unfold escData, modifyEscData. cbn.
  apply list_lookup_total_alter_eq. lia.
Qed.

Lemma escData_modify_ne i j f st :
  0 <= i -> 0 <= j -> i <> j ->
  escData (modifyEscData i f st) j = escData st j.
Proof.
  intros Hi Hj Hne. unfold escData, modifyEscData. cbn.
  apply list_lookup_total_alter_ne. lia.
Qed.

Lemma escData_lookup st i :
  0 <= i < Z.of_nat (length (escSensorData st)) ->
  escSensorData st !! Z.to_nat i = Some (escData st i).
Proof.
  intros Hi. unfold escData.
  destruct (lookup_lt_is_Some_2 (escSensorData st) (Z.to_nat i)) as [x Hx]; [lia |].
  rewrite Hx. f_equal. symmetry. apply list_lookup_total_correct, Hx.
Qed.

(** ** Data age *)

Lemma increaseDataAge_length st :
  length (escSensorData (increaseDataAge st)) = length (escSensorData st).
Proof.
  unfold increaseDataAge. destruct (_ <? _); [| reflexivity].
  cbn. apply length_alter.
Qed.

Lemma decodeEscFrame_length st :
  length (escSensorData (snd (decodeEscFrame st))) = length (escSensorData st).
Proof.
  unfold decodeEscFrame. destruct (negb _); [reflexivity |].
  destruct (_ =? _); [| reflexivity]. cbn. apply length_alter.
Qed.

Lemma applyKissOp_length env st op :
  length (escSensorData (applyKissOp env st op)) = length (escSensorData st).
Proof.
  destruct op; cbn [applyKissOp].
  - apply increaseDataAge_length.
  - apply decodeEscFrame_length.
  - unfold selectNextMotor. cbn. destruct (_ =? _); reflexivity.
  - reflexivity.
  - unfold escSensorDataReceive. destruct (_ <? _); reflexivity.
Qed.

Lemma increaseDataAge_agesInRange st : agesInRange st -> agesInRange (increaseDataAge st).
Proof.
  intros [Hm Hall]. unfold increaseDataAge.
  destruct (Z.ltb_spec (dataAge (escData st (escSensorMotor st))) ESC_DATA_INVALID)
    as [Hlt | Hge]; [| split; assumption].
  split; [exact Hm |]. cbn.
  apply Forall_alter; [exact Hall |].
  intros r Hr Hrange. cbn.
  assert (escData st (escSensorMotor st) = r) as Hsame
    by (apply list_lookup_total_correct, Hr).
  rewrite Hsame in Hlt. unfold ESC_DATA_INVALID in *.
  rewrite to_uint8_small; lia.
Qed.

Lemma decodeEscFrame_agesInRange st : agesInRange st -> agesInRange (snd (decodeEscFrame st)).
Proof.
  intros [Hm Hall]. unfold decodeEscFrame.
  destruct (negb _); [split; assumption |].
  destruct (_ =? _); [| split; assumption].
  split; [exact Hm |]. cbn.
  apply Forall_alter; [exact Hall |].
  intros r _ _. cbn. unfold ESC_DATA_INVALID. lia.
Qed.

Lemma applyKissOp_agesInRange env st op : agesInRange st -> agesInRange (applyKissOp env st op).
Proof.
  intros Hst. destruct op; cbn [applyKissOp].
  - apply increaseDataAge_agesInRange, Hst.
  - apply decodeEscFrame_agesInRange, Hst.
  - destruct Hst as [Hm Hall]. unfold selectNextMotor. cbn.
    pose proof (to_uint8_range (escSensorMotor st + 1)).
    destruct (_ =? _); split; cbn; first [lia | exact Hall].
  - exact Hst.
  - unfold escSensorDataReceive. destruct (_ <? _); exact Hst.
Qed.

Lemma runKissOps_invariant env ops : forall st,
  agesInRange st ->
  agesInRange (runKissOps env ops st) /\
  length (escSensorData (runKissOps env ops st)) = length (escSensorData st).
Proof.
  unfold runKissOps.
  induction ops as [| op ops IH]; intros st Hst; cbn [fold_left].
  - split; [exact Hst | reflexivity].
  - destruct (IH (applyKissOp env st op)) as [Hinv Hlen].
    + apply applyKissOp_agesInRange, Hst.
    + split; [exact Hinv |]. rewrite Hlen. apply applyKissOp_length.
Qed.

(** The age of motor [m] after [increaseDataAge]. *)
Lemma increaseDataAge_age st m :
  0 <= escSensorMotor st -> 0 <= m < Z.of_nat (length (escSensorData st)) ->
  0 <= dataAge (escData st m) <= ESC_DATA_INVALID ->
  dataAge (escData (increaseDataAge st) m) =
    if (escSensorMotor st =? m) && (dataAge (escData st m) <? ESC_DATA_INVALID)
    then dataAge (escData st m) + 1
    else dataAge (escData st m).
Proof.
  intros Hcur Hm Hage. unfold increaseDataAge.
  destruct (Z.eqb_spec (escSensorMotor st) m) as [-> | Hne]; cbn [andb].
  - destruct (Z.ltb_spec (dataAge (escData st m)) ESC_DATA_INVALID) as [Hlt | Hge];
      [| reflexivity].
    replace (escData (set_combinedDataNeedsUpdate true _) m)
      with (escData (modifyEscData m (fun r => with_dataAge (to_uint8 (dataAge r + 1)) r) st) m)
      by reflexivity.
    rewrite escData_modify_eq by exact Hm. cbn.
    unfold ESC_DATA_INVALID in *. apply to_uint8_small. lia.
  - destruct (_ <? _); [| reflexivity].
    replace (escData (set_combinedDataNeedsUpdate true _) m)
      with (escData (modifyEscData (escSensorMotor st)
                       (fun r => with_dataAge (to_uint8 (dataAge r + 1)) r) st) m)
      by reflexivity.
    rewrite escData_modify_ne by lia. reflexivity.
Qed.

(** The age of motor [m] after [decodeEscFrame]. *)
Lemma decodeEscFrame_age st m :
  0 <= escSensorMotor st -> 0 <= m < Z.of_nat (length (escSensorData st)) ->
  dataAge (escData (snd (decodeEscFrame st)) m) =
    if (escSensorMotor st =? m) &&
       bool_decide (fst (decodeEscFrame st) = ESC_SENSOR_FRAME_COMPLETE)
    then 0
    else dataAge (escData st m).
Proof.
  intros Hcur Hm. unfold decodeEscFrame.
  destruct (negb _); cbn [fst snd]; [rewrite andb_false_r; reflexivity |].
  destruct (_ =? _); cbn [fst snd]; [| rewrite andb_false_r; reflexivity].
  rewrite andb_true_r.
  replace (escData (set_combinedDataNeedsUpdate true _) m)
    with (escData (modifyEscData (escSensorMotor st) (storeEscFrame (telemetryBuffer st)) st) m)
    by reflexivity.
  destruct (Z.eqb_spec (escSensorMotor st) m) as [-> | Hne].
  - rewrite escData_modify_eq by exact Hm. reflexivity.
  - rewrite escData_modify_ne by lia. reflexivity.
Qed.

(** C9.  [dataAge] is a saturating counter.  After any sequence of KISS
    operations the age of motor [m] lies between 0 and
    [ESC_DATA_INVALID]; [increaseDataAge] on motor [m] adds one below
    [ESC_DATA_INVALID] and leaves the age at [ESC_DATA_INVALID] otherwise;
    the age grows only by such a bump, by exactly one; and it falls
    exactly when [decodeEscFrame] completes a frame for motor [m], to 0. *)
Theorem dataAge_saturating (env : platform) (ops : list kissOp) (st0 : escSensor) (m : Z) :
  agesInRange st0 ->
  0 <= m < Z.of_nat (length (escSensorData st0)) ->
  let st := runKissOps env ops st0 in
  let age := fun s => dataAge (escData s m) in
  0 <= age st <= ESC_DATA_INVALID /\
  (escSensorMotor st = m ->
   age (increaseDataAge st) =
     if age st <? ESC_DATA_INVALID then age st + 1 else ESC_DATA_INVALID) /\
  (escSensorMotor st = m -> fst (decodeEscFrame st) = ESC_SENSOR_FRAME_COMPLETE ->
   age (snd (decodeEscFrame st)) = 0) /\
  forall op,
    let st' := applyKissOp env st op in
    (age st < age st' ->
     op = OpIncreaseDataAge /\ escSensorMotor st = m /\ age st' = age st + 1) /\
    (age st' < age st ->
     op = OpDecodeEscFrame /\ escSensorMotor st = m /\
     fst (decodeEscFrame st) = ESC_SENSOR_FRAME_COMPLETE /\ age st' = 0).
Proof.
  intros Hst0 Hm st age.
  destruct (runKissOps_invariant env ops st0 Hst0) as [[Hcur Hall] Hlen].
  fold st in Hcur, Hall, Hlen.
  assert (Hm' : 0 <= m < Z.of_nat (length (escSensorData st))) by lia.
  assert (Hage : 0 <= age st <= ESC_DATA_INVALID).
  { subst age. cbn beta.
    apply (Forall_lookup_1 _ _ _ _ Hall (escData_lookup st m Hm')). }
  assert (Hbump := increaseDataAge_age st m Hcur Hm' Hage).
  assert (Hdec := decodeEscFrame_age st m Hcur Hm').
  fold (age (increaseDataAge st)) in Hbump. fold (age st) in Hbump.
  fold (age (snd (decodeEscFrame st))) in Hdec. fold (age st) in Hdec.
  split; [exact Hage |]. split; [| split].
  - intros Heq. rewrite Hbump, Heq, Z.eqb_refl. cbn [andb].
    destruct (Z.ltb_spec (age st) ESC_DATA_INVALID); lia.
  - intros Heq Hok. rewrite Hdec, Heq, Z.eqb_refl, Hok. reflexivity.
  - intros op st'. subst st'.
    assert (Hkeep : forall s, escSensorData s = escSensorData st -> age s = age st).
    { intros s Hs. subst age. unfold escData. cbn beta. rewrite Hs. reflexivity. }
    destruct op; cbn [applyKissOp].
    + rewrite Hbump.
      destruct (Z.eqb_spec (escSensorMotor st) m); cbn [andb];
        [destruct (Z.ltb_spec (age st) ESC_DATA_INVALID) |];
        (split; intros Hlt; [| exfalso; lia]); try (exfalso; lia).
      split; [reflexivity |]. split; [assumption | reflexivity].
    + rewrite Hdec.
      destruct (Z.eqb_spec (escSensorMotor st) m); cbn [andb];
        [case_bool_decide |];
        (split; intros Hlt; [exfalso; lia |]); try (exfalso; lia).
      split; [reflexivity |]. split; [assumption |]. split; [assumption | reflexivity].
    + rewrite (Hkeep (selectNextMotor env st)); [split; intros; exfalso; lia |].
      unfold selectNextMotor. cbn.
      destruct (to_uint8 (escSensorMotor st + 1) =? getMotorCount env); reflexivity.
    + rewrite (Hkeep (setRequest currentTimeMs st)); [split; intros; exfalso; lia |].
      reflexivity.
    + rewrite (Hkeep (escSensorDataReceive c st)); [split; intros; exfalso; lia |].
      unfold escSensorDataReceive.
      destruct (bufferPosition st <? bufferSize st); reflexivity.
Qed.

(** ** KISS poll scheduler *)

Lemma increaseDataAge_other_fields st :
  escSensorMotor (increaseDataAge st) = escSensorMotor st /\
  escSensorTriggerState (increaseDataAge st) = escSensorTriggerState st /\
  escTriggerTimestamp (increaseDataAge st) = escTriggerTimestamp st /\
  totalTimeoutCount (increaseDataAge st) = totalTimeoutCount st /\
  requestTelemetry (increaseDataAge st) = requestTelemetry st.
Proof.
  unfold increaseDataAge.
  destruct (dataAge (escData st (escSensorMotor st)) <? ESC_DATA_INVALID);
    repeat split; reflexivity.
Qed.

Section KissScheduler.

Variable env : platform.

(** The motor count is an 8-bit value and there is a motor to poll. *)
Hypothesis motorCount_range : 1 <= getMotorCount env <= 255.

Lemma selectNextMotor_motor st :
  0 <= escSensorMotor st < getMotorCount env ->
  escSensorMotor (selectNextMotor env st) = (escSensorMotor st + 1) mod getMotorCount env.
Proof using motorCount_range.
  intros Hm. pose proof motorCount_range as Hn. unfold selectNextMotor. cbn.
  rewrite to_uint8_small by lia.
  destruct (Z.eqb_spec (escSensorMotor st + 1) (getMotorCount env)) as [Heq | Hne]; cbn.
  - rewrite Heq, Z.mod_same by lia. reflexivity.
  - rewrite Z.mod_small by lia. reflexivity.
Qed.

Lemma selectNextMotor_other_fields st :
  escSensorData (selectNextMotor env st) = escSensorData st /\
  escSensorTriggerState (selectNextMotor env st) = escSensorTriggerState st /\
  escTriggerTimestamp (selectNextMotor env st) = escTriggerTimestamp st /\
  totalTimeoutCount (selectNextMotor env st) = totalTimeoutCount st /\
  requestTelemetry (selectNextMotor env st) = requestTelemetry st.
Proof.
  unfold selectNextMotor. cbn.
  destruct (to_uint8 (escSensorMotor st + 1) =? getMotorCount env); repeat split; reflexivity.
Qed.

Lemma escSensorDataReceive_other_fields c st :
  escSensorData (escSensorDataReceive c st) = escSensorData st /\
  escSensorMotor (escSensorDataReceive c st) = escSensorMotor st /\
  escSensorTriggerState (escSensorDataReceive c st) = escSensorTriggerState st /\
  escTriggerTimestamp (escSensorDataReceive c st) = escTriggerTimestamp st /\
  totalTimeoutCount (escSensorDataReceive c st) = totalTimeoutCount st /\
  requestTelemetry (escSensorDataReceive c st) = requestTelemetry st.
Proof.
  unfold escSensorDataReceive.
  destruct (bufferPosition st <? bufferSize st); repeat split; reflexivity.
Qed.
















End KissScheduler.

(** ** Hobbywing V4 stream synchroniser *)

Lemma hw4Feed_cons b bytes st :
  hw4Feed (b :: bytes) st =
    (fst (processHW4TelemetryStream b st)
       :: fst (hw4Feed bytes (snd (processHW4TelemetryStream b st))),
     snd (hw4Feed bytes (snd (processHW4TelemetryStream b st)))).
Proof.
  cbn [hw4Feed]. destruct (processHW4TelemetryStream b st) as [complete st1].
  cbn [fst snd]. destruct (hw4Feed bytes st1) as [flags st2]. reflexivity.
Qed.

Lemma hw4Feed_app bytes1 : forall bytes2 st,
  hw4Feed (bytes1 ++ bytes2) st =
    (fst (hw4Feed bytes1 st) ++ fst (hw4Feed bytes2 (snd (hw4Feed bytes1 st))),
     snd (hw4Feed bytes2 (snd (hw4Feed bytes1 st)))).
Proof.
  induction bytes1 as [| b bytes1 IH]; intros bytes2 st.
  - cbn. destruct (hw4Feed bytes2 st); reflexivity.
  - change ((b :: bytes1) ++ bytes2) with (b :: (bytes1 ++ bytes2)).
    rewrite !hw4Feed_cons, IH. reflexivity.
Qed.


(** Rule 2: the sync byte opens a frame in an empty buffer. *)
Lemma processHW4_sync st :
  skipBytes st = 0 -> bytesRead st = 0 ->
  processHW4TelemetryStream 0x9B st =
    (false, set_bytesRead 1 (set_hwData (wr (hwData st) 0 0x9B) st)).
Proof.
  intros Hskip Hread. unfold processHW4TelemetryStream. rewrite Hskip, Hread. reflexivity.
Qed.


(** Rule 4: any other byte is appended to a buffer that is not empty; the
    19th byte completes the frame and empties the buffer. *)
Lemma processHW4_append b st :
  skipBytes st = 0 -> 1 <= bytesRead st < 19 ->
  ~ (bytesRead st = 1 /\ b = 0x9B) ->
  processHW4TelemetryStream b st =
    let st' := set_hwData (wr (hwData st) (bytesRead st) b) st in
    if bytesRead st + 1 =? 19
    then (true, set_bytesRead 0 (set_bytesRead (bytesRead st + 1) st'))
    else (false, set_bytesRead (bytesRead st + 1) st').
Proof.
  intros Hskip Hread Hnot. unfold processHW4TelemetryStream. rewrite Hskip.
  destruct (Z.ltb_spec 0 0); [lia |].
  destruct (Z.eqb_spec (bytesRead st) 0); [lia |]. cbn [andb].
  assert (Hsig : (bytesRead st =? 1) && (b =? 155) = false).
  { destruct (Z.eqb_spec (bytesRead st) 1), (Z.eqb_spec b 155); try reflexivity.
    exfalso. apply Hnot. split; assumption. }
  rewrite Hsig.
  destruct (Z.ltb_spec 0 (bytesRead st)); [| lia].
  cbn. rewrite to_uint8_small by lia. reflexivity.
Qed.



(** Bytes fed to a buffer that holds the start of a frame fill it up to
    the 19th, which reports the frame. *)
Lemma hw4Feed_fill bytes : forall st,
  skipBytes st = 0 -> 1 <= bytesRead st < 19 ->
  bytesRead st + Z.of_nat (length bytes) = 19 ->
  (bytesRead st = 1 -> head bytes <> Some 0x9B) ->
  length (hwData st) = 20%nat ->
  fst (hw4Feed bytes st) = replicate (length bytes - 1) false ++ [true] /\
  hwData (snd (hw4Feed bytes st)) =
    take (Z.to_nat (bytesRead st)) (hwData st) ++ bytes ++ drop 19 (hwData st) /\
  bytesRead (snd (hw4Feed bytes st)) = 0 /\
  skipBytes (snd (hw4Feed bytes st)) = 0.
Proof.
  induction bytes as [| b bytes IH]; intros st Hskip Hread Hsum Hfirst Hlen.
  - cbn [length] in Hsum. lia.
  - cbn [length] in Hsum. rewrite hw4Feed_cons.
    rewrite processHW4_append; [| exact Hskip | exact Hread |];
      [| intros [H1 Hb]; apply (Hfirst H1); rewrite Hb; reflexivity].
    cbn zeta.
    assert (Hcell : (Z.to_nat (bytesRead st) < length (hwData st))%nat) by lia.
    destruct (lookup_lt_is_Some_2 _ _ Hcell) as [old Hold].
    assert (Htake : take (S (Z.to_nat (bytesRead st))) (wr (hwData st) (bytesRead st) b) =
                    take (Z.to_nat (bytesRead st)) (hwData st) ++ [b]).
    { unfold wr. rewrite (take_S_r _ _ b) by (apply list_lookup_insert_eq; exact Hcell).
      rewrite take_insert_ge by lia. reflexivity. }
    destruct (Z.eqb_spec (bytesRead st + 1) 19) as [Hlast | Hmore].
    + assert (bytes = []) as -> by (destruct bytes; [reflexivity | cbn [length] in Hsum; lia]).
      cbn [fst snd hw4Feed length replicate]. cbn.
      repeat split; try assumption.
      unfold wr. replace (Z.to_nat (bytesRead st)) with 18%nat by lia.
      apply insert_take_drop. lia.
    + cbn [fst snd].
      destruct (IH (set_bytesRead (bytesRead st + 1)
                      (set_hwData (wr (hwData st) (bytesRead st) b) st)))
        as (Hf & Hd & Hr & Hs).
      * exact Hskip.
      * cbn. lia.
      * cbn. lia.
      * cbn. lia.
      * cbn. unfold wr. rewrite length_insert. exact Hlen.
      * rewrite Hf, Hd, Hr, Hs. cbn [length set_bytesRead bytesRead set_hwData hwData].
        split; [| split; [| split; reflexivity]].
        -- replace (S (length bytes) - 1)%nat with (S (length bytes - 1))
             by (destruct bytes; cbn [length] in *; lia).
           reflexivity.
        -- replace (Z.to_nat (bytesRead st + 1)) with (S (Z.to_nat (bytesRead st))) by lia.
           rewrite Htake. unfold wr. rewrite drop_insert_lt by lia.
           rewrite <- app_assoc. reflexivity.
Qed.


(** ** Hobbywing V4 telemetry decoder *)

Section Hw4Decoder.

(** The configuration, the float arithmetic and the time of the tick are
    arbitrary. *)
Variables (env : platform) (fp : fpu) (currentTimeUs : Z).

Lemma hw4FrameSane_spec d :
  hw4FrameSane d = true <->
  rd d 4 < 4 /\ rd d 6 < 4 /\ rd d 8 < 4 /\
  rd d 11 < 0xF /\ rd d 13 < 0xF /\ rd d 15 < 0xF /\ rd d 17 < 0xF.
Proof.
  unfold hw4FrameSane. rewrite !andb_true_iff, !Z.ltb_lt. tauto.
Qed.

(** The throttle and RPM fields are the big-endian values of their bytes. *)
Lemma hw4Throttle_bytes d :
  Forall is_uint8 d -> length d = 20%nat -> hw4Throttle d = rd d 4 * 256 + rd d 5.
Proof.
  intros Hall Hlen.
  pose proof (rd_uint8 d 4 Hall ltac:(lia)) as H4.
  pose proof (rd_uint8 d 5 Hall ltac:(lia)) as H5.
  unfold is_uint8 in *. unfold hw4Throttle.
  rewrite lor_shiftl_byte by lia. apply to_uint16_small. lia.
Qed.

Lemma hw4Rpm_bytes d :
  Forall is_uint8 d -> length d = 20%nat ->
  hw4Rpm d = rd d 8 * 65536 + rd d 9 * 256 + rd d 10.
Proof.
  intros Hall Hlen.
  pose proof (rd_uint8 d 8 Hall ltac:(lia)) as H8.
  pose proof (rd_uint8 d 9 Hall ltac:(lia)) as H9.
  pose proof (rd_uint8 d 10 Hall ltac:(lia)) as H10.
  unfold is_uint8 in *. unfold hw4Rpm.
  rewrite <- Z.lor_assoc, lor_shiftl_byte by lia.
  rewrite (lor_shiftl_low (rd d 8) _ 16) by lia.
  change (2 ^ 16) with 65536. rewrite to_uint32_small by lia. lia.
Qed.

(** C4 (as amended).  When a byte completes a 19-byte frame, the decoder
    accepts it exactly when bytes 4, 6 and 8 are below 4 and bytes 11, 13,
    15 and 17 are below [0x0F].  An accepted frame rewrites record 0
    (age 0) and leaves the error counter alone.  A rejected frame changes
    no field of any telemetry record; it adds one to the 32-bit error
    counter when the debug mode is [DEBUG_ESC_SENSOR] and changes nothing
    at all in any other debug mode. *)
Theorem hw4_sanity_check (st frame : escSensor) (b : Z) :
  processHW4TelemetryStream b st = (true, frame) ->
  (0 < length (escSensorData st))%nat ->
  0 <= totalCrcErrorCount st < 2 ^ 32 - 1 ->
  let d := hwData frame in
  let st' := hw4ReceiveByte env fp currentTimeUs st b in
  (hw4FrameSane d = true <->
   rd d 4 < 4 /\ rd d 6 < 4 /\ rd d 8 < 4 /\
   rd d 11 < 0xF /\ rd d 13 < 0xF /\ rd d 15 < 0xF /\ rd d 17 < 0xF) /\
  (hw4FrameSane d = true ->
   escData st' 0 = storeHW4Frame env fp d (escData st 0) /\
   dataAge (escData st' 0) = 0 /\
   dataUpdateUs st' = currentTimeUs /\
   totalCrcErrorCount st' = totalCrcErrorCount st) /\
  (hw4FrameSane d = false ->
   st' = (if debugEscSensor env
          then set_totalCrcErrorCount (totalCrcErrorCount st + 1) frame
          else frame) /\
   totalCrcErrorCount st' =
     (if debugEscSensor env then totalCrcErrorCount st + 1 else totalCrcErrorCount st) /\
   escSensorData st' = escSensorData st).
Proof.
  intros Hdone Hrec Hcount d st'.
  assert (Hframe : escSensorData frame = escSensorData st /\
                   totalCrcErrorCount frame = totalCrcErrorCount st).
  { revert Hdone. unfold processHW4TelemetryStream.
    repeat match goal with
           | |- context [if ?c then _ else _] => destruct c
           end; intros [= <-]; split; reflexivity. }
  destruct Hframe as [Hdata Hcrc].
  assert (Hst' : st' = hw4DecodeFrame env fp currentTimeUs frame).
  { subst st'. unfold hw4ReceiveByte. rewrite Hdone. reflexivity. }
  split; [apply hw4FrameSane_spec |]. rewrite Hst'. unfold hw4DecodeFrame. fold d.
  split; intros Hsane; rewrite Hsane.
  - assert (Hrec0 : escData (modifyEscData 0 (storeHW4Frame env fp d) frame) 0 =
                    storeHW4Frame env fp d (escData st 0)).
    { rewrite escData_modify_eq by (rewrite Hdata; lia).
      unfold escData. rewrite Hdata. reflexivity. }
    change (escData (set_dataUpdateUs currentTimeUs ?s) 0) with (escData s 0).
    rewrite Hrec0. cbn [dataUpdateUs set_dataUpdateUs totalCrcErrorCount modifyEscData
                        set_escSensorData].
    split; [reflexivity |]. split; [| split; [reflexivity | exact Hcrc]].
    unfold storeHW4Frame. cbn zeta. destruct (_ || _); reflexivity.
  - change (2 ^ 32 - 1) with 4294967295 in Hcount.
    rewrite Hcrc, to_uint32_small by lia.
    destruct (debugEscSensor env).
    + split; [reflexivity |]. split; [reflexivity | exact Hdata].
    + split; [reflexivity |]. split; [exact Hcrc | exact Hdata].
Qed.

(** C6.  In an accepted frame whose RPM field (bytes 8 to 10, big-endian)
    is below 100 or whose throttle field (bytes 4 and 5) is below 50, the
    current stored in record 0 is 0 whatever the current field holds. *)
Theorem hw4_current_zero_when_stopped (st frame : escSensor) (b : Z) :
  processHW4TelemetryStream b st = (true, frame) ->
  (0 < length (escSensorData st))%nat ->
  Forall is_uint8 (hwData frame) ->
  length (hwData frame) = 20%nat ->
  hw4FrameSane (hwData frame) = true ->
  let d := hwData frame in
  rd d 8 * 65536 + rd d 9 * 256 + rd d 10 < 100 \/ rd d 4 * 256 + rd d 5 < 50 ->
  current (escData (hw4ReceiveByte env fp currentTimeUs st b) 0) = 0.
Proof.
  intros Hdone Hrec Hbytes Hlen Hsane d Hstopped.
  assert (Hdata : escSensorData frame = escSensorData st).
  { revert Hdone. unfold processHW4TelemetryStream.
    repeat match goal with
           | |- context [if ?c then _ else _] => destruct c
           end; intros [= <-]; reflexivity. }
  unfold hw4ReceiveByte. rewrite Hdone. unfold hw4DecodeFrame. rewrite Hsane.
  change (escData (set_dataUpdateUs currentTimeUs ?s) 0) with (escData s 0).
  rewrite escData_modify_eq by (rewrite Hdata; lia).
  unfold storeHW4Frame. cbn zeta. fold d.
  rewrite (hw4Rpm_bytes d Hbytes Hlen), (hw4Throttle_bytes d Hbytes Hlen).
  assert (Hcond : (rd d 8 * 65536 + rd d 9 * 256 + rd d 10 <? 100)
                  || (rd d 4 * 256 + rd d 5 <? 50) = true).
  { apply orb_true_iff. rewrite !Z.ltb_lt. exact Hstopped. }
  rewrite Hcond. reflexivity.
Qed.

End Hw4Decoder.

(** ** Queries *)

(** C8 (as amended).  [getEscSensorData] returns null exactly when the
    feature is disabled, or the protocol is KISS and the motor number is
    neither below the motor count nor the combined number, or the protocol
    is neither KISS nor Hobbywing.  With KISS a motor below the count gets
    its own record and the combined number the combined record; with
    Hobbywing every motor number gets record 0. *)
Theorem getEscSensorData_null (env : platform) (motorNumber : Z) (st : escSensor) :
  let result := fst (getEscSensorData env motorNumber st) in
  (result = None <->
   featureEscSensor env = false \/
   (protocol env = ESC_SENSOR_PROTO_KISS /\
    ~ motorNumber < getMotorCount env /\ motorNumber <> ESC_SENSOR_COMBINED) \/
   protocol env = ESC_SENSOR_PROTO_OTHER) /\
  (featureEscSensor env = true -> protocol env = ESC_SENSOR_PROTO_KISS ->
   motorNumber < getMotorCount env -> result = Some (MotorRecord motorNumber)) /\
  (featureEscSensor env = true -> protocol env = ESC_SENSOR_PROTO_KISS ->
   ~ motorNumber < getMotorCount env -> motorNumber = ESC_SENSOR_COMBINED ->
   result = Some CombinedRecord) /\
  (featureEscSensor env = true -> protocol env = ESC_SENSOR_PROTO_HW4 ->
   result = Some (MotorRecord 0)).
Proof.
  intros result. subst result. unfold getEscSensorData.
  destruct (featureEscSensor env); cbn [negb];
    [| split; [split; [tauto | reflexivity] | repeat split; discriminate]].
  destruct (protocol env).
  - destruct (Z.ltb_spec motorNumber (getMotorCount env)) as [Hlt | Hge].
    + cbn [fst]. split; [split; [discriminate |] |].
      * intros [H | [(_ & H & _) | H]]; [discriminate | contradiction | discriminate].
      * repeat split; intros; first [reflexivity | lia | discriminate].
    + destruct (Z.eqb_spec motorNumber ESC_SENSOR_COMBINED) as [Heq | Hne].
      * assert (Hres : forall c u, fst (if c : bool then (Some CombinedRecord, u)
                                        else (Some CombinedRecord, st))
                                   = Some CombinedRecord)
          by (intros [] u; reflexivity).
        rewrite Hres. split; [split; [discriminate |] |].
        -- intros [H | [(_ & _ & H) | H]]; [discriminate | contradiction | discriminate].
        -- repeat split; intros; first [reflexivity | lia | discriminate].
      * cbn [fst]. split; [split; [intros _; right; left; repeat split; [lia | exact Hne] |
                                   reflexivity] |].
        repeat split; intros; first [lia | contradiction | discriminate].
  - cbn [fst]. split; [split; [discriminate |] |].
    + intros [H | [(H & _) | H]]; discriminate.
    + repeat split; intros; first [reflexivity | discriminate].
  - cbn [fst]. split; [split; [tauto | reflexivity] |].
    repeat split; intros; discriminate.
Qed.

(** The decoders only store rpm values that fit 16 bits. *)
Lemma decodeEscFrame_rpmFits st :
  kissFrame (telemetryBuffer st) -> rpmFits st -> rpmFits (snd (decodeEscFrame st)).
Proof.
  intros Hframe Hfits. unfold decodeEscFrame.
  destruct (negb _); [exact Hfits |]. destruct (_ =? _); [| exact Hfits].
  unfold rpmFits. cbn. apply Forall_alter; [exact Hfits |].
  intros r _ _. rewrite storeEscFrame_decoded by exact Hframe. cbn.
  destruct Hframe as [Hlen Hall].
  pose proof (rd_uint8 _ 7 Hall ltac:(lia)) as H7.
  pose proof (rd_uint8 _ 8 Hall ltac:(lia)) as H8.
  unfold is_uint8 in *. change (2 ^ 16) with 65536. lia.
Qed.

Lemma hw4DecodeFrame_rpmFits env fp t st :
  Forall is_uint8 (hwData st) -> length (hwData st) = 20%nat ->
  rpmFits st -> rpmFits (hw4DecodeFrame env fp t st).
Proof.
  intros Hall Hlen Hfits. unfold hw4DecodeFrame.
  destruct (hw4FrameSane (hwData st)) eqn:Hsane;
    [| destruct (debugEscSensor env); exact Hfits].
  apply hw4FrameSane_spec in Hsane. destruct Hsane as (_ & _ & H8 & _).
  unfold rpmFits. cbn. apply Forall_alter; [exact Hfits |].
  intros r _ _.
  assert (Hrpm : 0 <= hw4Rpm (hwData st) / 100 < 65536).
  { rewrite hw4Rpm_bytes by assumption.
    pose proof (rd_uint8 _ 8 Hall ltac:(lia)) as B8.
    pose proof (rd_uint8 _ 9 Hall ltac:(lia)) as B9.
    pose proof (rd_uint8 _ 10 Hall ltac:(lia)) as B10.
    unfold is_uint8 in *.
    split; [apply Z.div_pos; lia | apply Z.div_lt_upper_bound; lia]. }
  unfold storeHW4Frame. cbn zeta. change (2 ^ 16) with 65536.
  destruct (_ || _); cbn; rewrite to_int32_small by lia; exact Hrpm.
Qed.

Lemma increaseDataAge_rpmFits st : rpmFits st -> rpmFits (increaseDataAge st).
Proof.
  intros Hfits. unfold increaseDataAge. destruct (_ <? _); [| exact Hfits].
  unfold rpmFits. cbn. apply Forall_alter; [exact Hfits |].
  intros r _ Hr. exact Hr.
Qed.

(** [escSensorInit] marks every record invalid and leaves the rest of each
    record as it was. *)
Lemma invalidateLoop_spec n : forall i st,
  0 <= i ->
  length (escSensorData (invalidateLoop n i st)) = length (escSensorData st) /\
  forall j, 0 <= j < Z.of_nat (length (escSensorData st)) ->
    escData (invalidateLoop n i st) j =
      if (i <=? j) && (j <? i + Z.of_nat n)
      then with_dataAge ESC_DATA_INVALID (escData st j)
      else escData st j.
Proof.
  induction n as [| n IH]; intros i st Hi; cbn [invalidateLoop].
  - split; [reflexivity |]. intros j Hj.
    destruct (Z.leb_spec i j), (Z.ltb_spec j (i + Z.of_nat 0)); cbn [andb];
      first [reflexivity | lia].
  - destruct (IH (i + 1) (modifyEscData i (with_dataAge ESC_DATA_INVALID) st) ltac:(lia))
      as [Hlen Hget].
    assert (Hlen' : length (escSensorData (modifyEscData i (with_dataAge ESC_DATA_INVALID) st))
                    = length (escSensorData st)) by (cbn; apply length_alter).
    split; [rewrite Hlen; exact Hlen' |].
    intros j Hj. rewrite Hget by (rewrite Hlen'; exact Hj).
    destruct (Z.eq_dec i j) as [<- | Hne].
    + rewrite escData_modify_eq by exact Hj.
      destruct (Z.leb_spec (i + 1) i), (Z.ltb_spec i (i + 1 + Z.of_nat n)),
        (Z.leb_spec i i), (Z.ltb_spec i (i + Z.of_nat (S n)));
        cbn [andb]; first [reflexivity | lia].
    + rewrite escData_modify_ne by lia.
      destruct (Z.leb_spec (i + 1) j), (Z.ltb_spec j (i + 1 + Z.of_nat n)),
        (Z.leb_spec i j), (Z.ltb_spec j (i + Z.of_nat (S n)));
        cbn [andb]; first [reflexivity | lia].
Qed.

(** C10.  [getEscSensorRPM] returns the rpm stored for the motor, as an
    unsigned 16-bit value, whatever the feature flag, the protocol, the
    motor count and the age of the record; it takes none of them.  With
    the ESC sensor as source [getMotorERPM] passes the value on.  Right
    after [escSensorInit] every record has age [ESC_DATA_INVALID] and rpm
    0, and that 0 is what the query returns. *)
Theorem getEscSensorRPM_unconditional (env : platform) (st : escSensor) (ms : motors)
    (motorNumber : Z) :
  0 <= motorNumber < Z.of_nat (length (escSensorData st)) ->
  rpmFits st ->
  getEscSensorRPM st motorNumber = rpm (escData st motorNumber) /\
  (motorRpmSource ms !! Z.to_nat motorNumber = Some RPM_SRC_ESC_SENSOR ->
   getMotorERPM env st ms motorNumber = rpm (escData st motorNumber)) /\
  (featureEscSensor env = false ->
   fst (getEscSensorData env motorNumber st) = None /\
   getEscSensorRPM st motorNumber = rpm (escData st motorNumber)) /\
  (dataAge (escData st motorNumber) = ESC_DATA_INVALID ->
   getEscSensorRPM st motorNumber = rpm (escData st motorNumber)) /\
  (serialPortConfigured env = true ->
   0 <= motorNumber < MAX_SUPPORTED_MOTORS env ->
   let booted := snd (escSensorInit env (initialEscSensor env)) in
   dataAge (escData booted motorNumber) = ESC_DATA_INVALID /\
   rpm (escData booted motorNumber) = 0 /\
   getEscSensorRPM booted motorNumber = 0).
Proof.
  intros Hm Hfits.
  assert (Hrpm : getEscSensorRPM st motorNumber = rpm (escData st motorNumber)).
  { unfold getEscSensorRPM. apply to_uint16_small.
    apply (Forall_lookup_1 _ _ _ _ Hfits (escData_lookup st motorNumber Hm)). }
  split; [exact Hrpm |]. split; [| split; [| split]].
  - intros Hsrc. unfold getMotorERPM.
    rewrite (list_lookup_total_correct _ _ _ Hsrc). exact Hrpm.
  - intros Hoff. split; [| exact Hrpm].
    unfold getEscSensorData. rewrite Hoff. reflexivity.
  - intros _. exact Hrpm.
  - intros Hport Hmax booted.
    assert (Hbooted : exists s0,
              booted = invalidateLoop (Z.to_nat (MAX_SUPPORTED_MOTORS env)) 0 s0 /\
              escSensorData s0 = escSensorData (initialEscSensor env)).
    { subst booted. unfold escSensorInit. rewrite Hport. cbn [negb snd].
      destruct (protocol env); eexists; split; reflexivity. }
    destruct Hbooted as (s0 & -> & Hs0).
    assert (Hlen0 : length (escSensorData s0) = Z.to_nat (MAX_SUPPORTED_MOTORS env)).
    { rewrite Hs0. cbn. apply length_replicate. }
    destruct (invalidateLoop_spec (Z.to_nat (MAX_SUPPORTED_MOTORS env)) 0 s0 ltac:(lia))
      as [_ Hget].
    assert (Hrec : escData (invalidateLoop (Z.to_nat (MAX_SUPPORTED_MOTORS env)) 0 s0)
                     motorNumber = with_dataAge ESC_DATA_INVALID zeroEscSensorData).
    { rewrite Hget by lia.
      destruct (Z.leb_spec 0 motorNumber),
        (Z.ltb_spec motorNumber (0 + Z.of_nat (Z.to_nat (MAX_SUPPORTED_MOTORS env))));
        cbn [andb]; try lia.
      f_equal. unfold escData. rewrite Hs0. cbn.
      apply lookup_total_replicate_2. lia. }
    unfold getEscSensorRPM. rewrite Hrec. repeat split; reflexivity.
Qed.

(** ** RPM source arbitration *)

Lemma isRpmSourceActiveLoop_spec src n : forall i,
  0 <= i ->
  isRpmSourceActiveLoop src n i = true <->
  forall j, i <= j < i + Z.of_nat n -> src !!! Z.to_nat j <> RPM_SRC_NONE.
Proof.
  induction n as [| n IH]; intros i Hi; cbn [isRpmSourceActiveLoop].
  - split; [intros _ j Hj; lia | reflexivity].
  - case_bool_decide as Hnone.
    + split; [discriminate |]. intros Hall. exfalso. apply (Hall i); [lia | exact Hnone].
    + rewrite IH by lia. split; intros Hall j Hj.
      * destruct (Z.eq_dec j i) as [-> | Hne]; [exact Hnone | apply Hall; lia].
      * apply Hall. lia.
Qed.

(** C7.  [isRpmSourceActive] is true exactly when every motor below the
    motor count has a source other than [RPM_SRC_NONE]; one motor without
    a source makes it false. *)
Theorem isRpmSourceActive_iff (env : platform) (ms : motors) :
  0 <= getMotorCount env <= Z.of_nat (length (motorRpmSource ms)) ->
  (isRpmSourceActive env ms = true <->
   forall i, 0 <= i < getMotorCount env ->
     exists s, motorRpmSource ms !! Z.to_nat i = Some s /\ s <> RPM_SRC_NONE) /\
  ((exists i, 0 <= i < getMotorCount env /\
              motorRpmSource ms !! Z.to_nat i = Some RPM_SRC_NONE) ->
   isRpmSourceActive env ms = false).
Proof.
  intros Hn.
  assert (Hcell : forall i, 0 <= i < getMotorCount env ->
            motorRpmSource ms !! Z.to_nat i = Some (motorRpmSource ms !!! Z.to_nat i)).
  { intros i Hi.
    destruct (lookup_lt_is_Some_2 (motorRpmSource ms) (Z.to_nat i)) as [s Hs]; [lia |].
    rewrite Hs. f_equal. symmetry. apply list_lookup_total_correct, Hs. }
  assert (Hiff : isRpmSourceActive env ms = true <->
            forall i, 0 <= i < getMotorCount env ->
              exists s, motorRpmSource ms !! Z.to_nat i = Some s /\ s <> RPM_SRC_NONE).
  { unfold isRpmSourceActive. rewrite isRpmSourceActiveLoop_spec by lia.
    split; intros Hall i Hi.
    - eexists. split; [apply Hcell; exact Hi | apply Hall; lia].
    - destruct (Hall i ltac:(lia)) as (s & Hs & Hne).
      rewrite (list_lookup_total_correct _ _ _ Hs). exact Hne. }
  split; [exact Hiff |].
  intros (i & Hi & Hnone). apply not_true_is_false. intros Hactive.
  destruct (proj1 Hiff Hactive i Hi) as (s & Hs & Hne). congruence.
Qed.

(** [rpmSourceInit] gives every slot the source that the configuration
    and the available sensors select for it. *)
Lemma rpmSourceInitLoop_source env esc n : forall i ms,
  0 <= i ->
  length (motorRpmSource (rpmSourceInitLoop env esc n i ms)) = length (motorRpmSource ms) /\
  forall j, 0 <= j < Z.of_nat (length (motorRpmSource ms)) ->
    motorRpmSource (rpmSourceInitLoop env esc n i ms) !!! Z.to_nat j =
      if (i <=? j) && (j <? i + Z.of_nat n)
      then selectRpmSource env esc j
      else motorRpmSource ms !!! Z.to_nat j.
Proof.
  induction n as [| n IH]; intros i ms Hi; cbn [rpmSourceInitLoop].
  - split; [reflexivity |]. intros j Hj.
    destruct (Z.leb_spec i j), (Z.ltb_spec j (i + Z.of_nat 0)); cbn [andb];
      first [reflexivity | lia].
  - match goal with
    | |- context [rpmSourceInitLoop env esc n (i + 1) ?ms'] =>
        destruct (IH (i + 1) ms' ltac:(lia)) as [Hlen Hget]
    end.
    cbn [motorRpmSource] in Hlen, Hget. rewrite length_insert in Hlen, Hget.
    split; [exact Hlen |]. intros j Hj. rewrite Hget by exact Hj.
    destruct (Z.eq_dec i j) as [<- | Hne].
    + rewrite list_lookup_total_insert_eq by lia.
      destruct (Z.leb_spec (i + 1) i), (Z.ltb_spec i (i + 1 + Z.of_nat n)),
        (Z.leb_spec i i), (Z.ltb_spec i (i + Z.of_nat (S n)));
        cbn [andb]; first [reflexivity | lia].
    + rewrite list_lookup_total_insert_ne by lia.
      destruct (Z.leb_spec (i + 1) j), (Z.ltb_spec j (i + 1 + Z.of_nat n)),
        (Z.leb_spec i j), (Z.ltb_spec j (i + Z.of_nat (S n)));
        cbn [andb]; first [reflexivity | lia].
Qed.

(** After [rpmSourceInit] the RPM sources are active exactly when a source
    is selected for every motor below the motor count. *)
Lemma rpmSourceInit_active env esc ms :
  0 <= getMotorCount env <= MAX_SUPPORTED_MOTORS env ->
  MAX_SUPPORTED_MOTORS env <= Z.of_nat (length (motorRpmSource ms)) ->
  isRpmSourceActive env (rpmSourceInit env esc ms) = true <->
  forall i, 0 <= i < getMotorCount env -> selectRpmSource env esc i <> RPM_SRC_NONE.
Proof.
  intros Hn Hmax. unfold isRpmSourceActive, rpmSourceInit.
  rewrite isRpmSourceActiveLoop_spec by lia.
  destruct (rpmSourceInitLoop_source env esc (Z.to_nat (MAX_SUPPORTED_MOTORS env)) 0 ms
              ltac:(lia)) as [_ Hget].
  assert (Hcell : forall j, 0 <= j < getMotorCount env ->
            motorRpmSource (rpmSourceInitLoop env esc (Z.to_nat (MAX_SUPPORTED_MOTORS env)) 0 ms)
              !!! Z.to_nat j = selectRpmSource env esc j).
  { intros j Hj. rewrite Hget by lia.
    destruct (Z.leb_spec 0 j),
      (Z.ltb_spec j (0 + Z.of_nat (Z.to_nat (MAX_SUPPORTED_MOTORS env))));
      cbn [andb]; first [reflexivity | lia]. }
  split; intros Hall j Hj.
  - rewrite <- Hcell by exact Hj. apply Hall. lia.
  - rewrite Hcell by lia. apply Hall. lia.
Qed.

(** *** Stored rpm values along a run *)

Lemma rpmFits_same_data s t : escSensorData s = escSensorData t -> rpmFits t -> rpmFits s.
Proof. unfold rpmFits. intros ->. exact id. Qed.

Lemma escSensorDataReceive_kissFrame c st :
  kissFrame (telemetryBuffer st) -> kissFrame (telemetryBuffer (escSensorDataReceive c st)).
Proof.
  intros [Hlen Hall]. unfold escSensorDataReceive.
  destruct (bufferPosition st <? bufferSize st); [| split; assumption].
  cbn. unfold wr. split; [rewrite length_insert; exact Hlen |].
  apply Forall_insert; [exact Hall | apply to_uint8_range].
Qed.

Lemma kissSensorProcess_telemetryBuffer env us st :
  telemetryBuffer (kissSensorProcess env us st) = telemetryBuffer st.
Proof.
  assert (Hage : forall s, telemetryBuffer (increaseDataAge s) = telemetryBuffer s).
  { intros s. unfold increaseDataAge. destruct (_ <? _); reflexivity. }
  assert (Hnext : forall s, telemetryBuffer (selectNextMotor env s) = telemetryBuffer s).
  { intros s. unfold selectNextMotor. cbn. destruct (_ =? _); reflexivity. }
  assert (Hdec : forall s, telemetryBuffer (snd (decodeEscFrame s)) = telemetryBuffer s).
  { intros s. unfold decodeEscFrame. destruct (negb _); [reflexivity |].
    destruct (_ =? _); reflexivity. }
  unfold kissSensorProcess. destruct (escSensorTriggerState st).
  - destruct (_ <=? _); reflexivity.
  - destruct (_ <? _).
    + specialize (Hdec st). destruct (decodeEscFrame st) as [state st1].
      cbn [snd] in Hdec.
      destruct state; [| | destruct (debugEscSensor env)]; cbn;
        rewrite ?Hnext, ?Hage; exact Hdec.
    + destruct (debugEscSensor env); cbn; rewrite Hnext, Hage; reflexivity.
Qed.

Lemma kissSensorProcess_rpmFits env us st :
  kissFrame (telemetryBuffer st) -> rpmFits st -> rpmFits (kissSensorProcess env us st).
Proof.
  intros Hframe Hfits.
  assert (Hnext : forall s, rpmFits s -> rpmFits (selectNextMotor env s)).
  { intros s. apply rpmFits_same_data. apply selectNextMotor_other_fields. }
  unfold kissSensorProcess. destruct (escSensorTriggerState st).
  - destruct (_ <=? _); exact Hfits.
  - destruct (_ <? _).
    + pose proof (decodeEscFrame_rpmFits st Hframe Hfits) as Hdec.
      destruct (decodeEscFrame st) as [state st1]. cbn [snd] in Hdec.
      destruct state; [exact Hdec | |].
      * apply (rpmFits_same_data _ (selectNextMotor env st1)); [reflexivity |].
        apply Hnext, Hdec.
      * apply (rpmFits_same_data _ (selectNextMotor env (increaseDataAge st1)));
          [destruct (debugEscSensor env); reflexivity |].
        apply Hnext, increaseDataAge_rpmFits, Hdec.
    + apply (rpmFits_same_data _ (selectNextMotor env (increaseDataAge st)));
        [destruct (debugEscSensor env); reflexivity |].
      apply Hnext, increaseDataAge_rpmFits, Hfits.
Qed.

(** Whatever the KISS side receives and whenever it runs, every stored rpm
    fits 16 bits. *)
Lemma kissRun_rpmFits env evs : forall st,
  kissFrame (telemetryBuffer st) -> rpmFits st -> rpmFits (kissRun env evs st).
Proof.
  unfold kissRun.
  induction evs as [| e evs IH]; intros st Hframe Hfits; cbn [fold_left]; [exact Hfits |].
  destruct e as [us | c]; cbn [kissStep]; apply IH.
  - rewrite kissSensorProcess_telemetryBuffer. exact Hframe.
  - apply kissSensorProcess_rpmFits; assumption.
  - apply escSensorDataReceive_kissFrame, Hframe.
  - apply (rpmFits_same_data _ st); [| exact Hfits].
    apply escSensorDataReceive_other_fields.
Qed.

Lemma processHW4_hwData b st :
  is_uint8 b -> Forall is_uint8 (hwData st) -> length (hwData st) = 20%nat ->
  Forall is_uint8 (hwData (snd (processHW4TelemetryStream b st))) /\
  length (hwData (snd (processHW4TelemetryStream b st))) = 20%nat /\
  escSensorData (snd (processHW4TelemetryStream b st)) = escSensorData st.
Proof.
  intros Hb Hall Hlen. unfold processHW4TelemetryStream.
  repeat match goal with
         | |- context [if ?c then _ else _] => destruct c
         end; cbn; unfold wr; rewrite ?length_insert;
    repeat split; try assumption; apply Forall_insert; assumption.
Qed.

(** The same on the Hobbywing side, for a task run on received bytes. *)
Lemma hw4SensorProcess_rpmFits env fp t rx st :
  Forall is_uint8 rx -> Forall is_uint8 (hwData st) -> length (hwData st) = 20%nat ->
  rpmFits st -> rpmFits (hw4SensorProcess env fp t rx st).
Proof.
  intros Hrx Hall Hlen Hfits. unfold hw4SensorProcess.
  set (s0 := if 250000 <? cmp32 t (dataUpdateUs st)
             then set_dataUpdateUs t (increaseDataAge st) else st).
  assert (H0 : rpmFits s0 /\ Forall is_uint8 (hwData s0) /\ length (hwData s0) = 20%nat).
  { subst s0. destruct (_ <? _); [| repeat split; assumption].
    assert (Hsame : hwData (increaseDataAge st) = hwData st)
      by (unfold increaseDataAge; destruct (_ <? _); reflexivity).
    cbn. rewrite Hsame. repeat split; try assumption.
    apply (rpmFits_same_data _ (increaseDataAge st)); [reflexivity |].
    apply increaseDataAge_rpmFits, Hfits. }
  clearbody s0. clear Hall Hlen Hfits.
  assert (Hloop : rpmFits (fold_left (hw4ReceiveByte env fp t) rx s0)).
  { revert s0 H0. induction rx as [| b rx IH]; intros s0 (Hfits & Hall & Hlen);
      cbn [fold_left]; [exact Hfits |].
    inversion Hrx as [| ? ? Hb Hrx']; subst. apply IH; [exact Hrx' |].
    unfold hw4ReceiveByte.
    destruct (processHW4_hwData b s0 Hb Hall Hlen) as (Hall1 & Hlen1 & Hdata1).
    destruct (processHW4TelemetryStream b s0) as [complete s1]. cbn [snd] in *.
    assert (Hfits1 : rpmFits s1) by (apply (rpmFits_same_data _ s0); assumption).
    destruct complete; [| repeat split; assumption].
    split; [apply hw4DecodeFrame_rpmFits; assumption |].
    unfold hw4DecodeFrame.
    destruct (hw4FrameSane (hwData s1)); [| destruct (debugEscSensor env)];
      cbn; split; assumption. }
  unfold rpmFits. cbn. apply Forall_alter; [exact Hloop |].
  intros r _ Hr. exact Hr.
Qed.

(** ** The theorems at sample inputs *)

(** Closes goals that are plain computations on the sample inputs. *)
Ltac by_computation :=
  vm_compute; repeat split; intros;
  first [reflexivity | discriminate | congruence | (repeat constructor; fail)].

Lemma kissGoodFrame_is_frame : kissFrame kissGoodFrame.
Proof. split; [reflexivity |]. repeat constructor; by_computation. Defined.

Lemma kissBadFrame_is_frame : kissFrame kissBadFrame.
Proof. split; [reflexivity |]. repeat constructor; by_computation. Defined.

(** The CRC-8 of the ASCII digits 1 to 9 is the check value [0xF4] of the
    polynomial [0x07] with seed 0. *)
Example calculateCrc8_check_value :
  calculateCrc8 [49; 50; 51; 52; 53; 54; 55; 56; 57] 9 = 0xF4.
Proof. reflexivity. Qed.

(** The sample payload followed by its own check byte decodes to the
    fields it was built from. *)
Example kissGoodFrame_round_trip :
  calculateCrc8 kissGoodFrame 9 = 13 /\
  fst (decodeEscFrame (kissAwaiting kissGoodFrame)) = ESC_SENSOR_FRAME_COMPLETE /\
  escData (snd (decodeEscFrame (kissAwaiting kissGoodFrame))) 0 =
    {| dataAge := 0; temperature := 10; voltage := 220; current := 5;
       consumption := 10; rpm := 500 |}.
Proof. repeat split; reflexivity. Qed.

(** Pole counts 2, 4, 6 and 200 give the divisors 1, 2, 3 and 100. *)
Example pole_divisor_clamp :
  map (fun poles => constrain (poles / 2) 1 100) [2; 4; 6; 200] = [1; 2; 3; 100].
Proof. reflexivity. Qed.

Lemma decodeEscFrame_crc_mismatch_witness :
  kissFrame (telemetryBuffer (kissAwaiting kissBadFrame)) /\
  isFrameComplete (kissAwaiting kissBadFrame) = true /\
  rd kissBadFrame 9 <> crc8 (take 9 kissBadFrame) /\
  decodeEscFrame (kissAwaiting kissBadFrame) =
    (ESC_SENSOR_FRAME_FAILED, kissAwaiting kissBadFrame).
Proof.
  assert (Hne : rd kissBadFrame 9 <> crc8 (take 9 kissBadFrame)) by by_computation.
  split; [exact kissBadFrame_is_frame |]. split; [reflexivity |]. split; [exact Hne |].
  exact (proj1 (proj2 (decodeEscFrame_crc_mismatch (kissAwaiting kissBadFrame)
                         kissBadFrame_is_frame eq_refl)) Hne).
Defined.

Lemma decodeEscFrame_valid_witness :
  kissFrame (telemetryBuffer (kissAwaiting kissGoodFrame)) /\
  0 <= escSensorMotor (kissAwaiting kissGoodFrame)
    < Z.of_nat (length (escSensorData (kissAwaiting kissGoodFrame))) /\
  fst (decodeEscFrame (kissAwaiting kissGoodFrame)) = ESC_SENSOR_FRAME_COMPLETE /\
  escData (snd (decodeEscFrame (kissAwaiting kissGoodFrame))) 0 =
    decodedEscFrame kissGoodFrame.
Proof.
  assert (Hm : 0 <= escSensorMotor (kissAwaiting kissGoodFrame)
               < Z.of_nat (length (escSensorData (kissAwaiting kissGoodFrame))))
    by by_computation.
  split; [exact kissGoodFrame_is_frame |]. split; [exact Hm |].
  destruct (decodeEscFrame_valid (kissAwaiting kissGoodFrame) kissGoodFrame_is_frame Hm)
    as [Hok _].
  destruct (Hok eq_refl eq_refl) as (Hres & Hrec & _).
  rewrite Hres. split; [reflexivity | exact Hrec].
Defined.

Lemma dataAge_saturating_witness :
  agesInRange (kissAwaiting kissGoodFrame) /\
  0 <= 0 < Z.of_nat (length (escSensorData (kissAwaiting kissGoodFrame))) /\
  0 <= dataAge (escData (runKissOps quadKiss
                           [OpIncreaseDataAge; OpIncreaseDataAge; OpDecodeEscFrame;
                            OpIncreaseDataAge]
                           (kissAwaiting kissGoodFrame)) 0) <= ESC_DATA_INVALID.
Proof.
  assert (Hages : agesInRange (kissAwaiting kissGoodFrame)).
  { split; [by_computation |]. repeat constructor; by_computation. }
  assert (Hm : 0 <= 0 < Z.of_nat (length (escSensorData (kissAwaiting kissGoodFrame))))
    by by_computation.
  split; [exact Hages |]. split; [exact Hm |].
  exact (proj1 (dataAge_saturating quadKiss
                  [OpIncreaseDataAge; OpIncreaseDataAge; OpDecodeEscFrame; OpIncreaseDataAge]
                  (kissAwaiting kissGoodFrame) 0 Hages Hm)).
Defined.





Lemma hw4_sanity_check_witness :
  processHW4TelemetryStream 0 (hw4AwaitingLast hw4InsaneFrame) =
    (true, set_bytesRead 0 (set_hwData (hw4InsaneFrame ++ [0])
                              (hw4AwaitingLast hw4InsaneFrame))) /\
  (0 < length (escSensorData (hw4AwaitingLast hw4InsaneFrame)))%nat /\
  0 <= totalCrcErrorCount (hw4AwaitingLast hw4InsaneFrame) < 2 ^ 32 - 1 /\
  debugEscSensor singleHW4 = true /\
  totalCrcErrorCount
    (hw4ReceiveByte singleHW4 rawFpu 1000 (hw4AwaitingLast hw4InsaneFrame) 0) = 1 /\
  escSensorData (hw4ReceiveByte singleHW4 rawFpu 1000 (hw4AwaitingLast hw4InsaneFrame) 0) =
    escSensorData (hw4AwaitingLast hw4InsaneFrame) /\
  totalCrcErrorCount
    (hw4ReceiveByte singleHW4NoDebug rawFpu 1000 (hw4AwaitingLast hw4InsaneFrame) 0) = 0.
Proof.
  assert (Hrec : (0 < length (escSensorData (hw4AwaitingLast hw4InsaneFrame)))%nat)
    by (vm_compute; lia).
  assert (Hcount : 0 <= totalCrcErrorCount (hw4AwaitingLast hw4InsaneFrame) < 2 ^ 32 - 1)
    by by_computation.
  split; [reflexivity |]. split; [exact Hrec |]. split; [exact Hcount |].
  split; [reflexivity |].
  destruct (hw4_sanity_check singleHW4 rawFpu 1000 (hw4AwaitingLast hw4InsaneFrame) _ 0
              eq_refl Hrec Hcount) as (_ & _ & Hbad).
  destruct (Hbad eq_refl) as (_ & Hcrc & Hdata).
  split; [exact Hcrc |]. split; [exact Hdata |].
  destruct (hw4_sanity_check singleHW4NoDebug rawFpu 1000 (hw4AwaitingLast hw4InsaneFrame)
              _ 0 eq_refl Hrec Hcount) as (_ & _ & Hquiet).
  exact (proj1 (proj2 (Hquiet eq_refl))).
Defined.

(** C4, counterexample.  In a debug mode other than [DEBUG_ESC_SENSOR] a
    frame that fails the sanity check (byte 4 is 4) leaves the CRC-error
    counter at its value, where the claim has it go up by one; no
    telemetry record changes either. *)
Lemma hw4_crc_count_counterexample :
  debugEscSensor singleHW4NoDebug = false /\
  fst (processHW4TelemetryStream 0 (hw4AwaitingLast hw4InsaneFrame)) = true /\
  hw4FrameSane (hwData (snd (processHW4TelemetryStream 0 (hw4AwaitingLast hw4InsaneFrame))))
    = false /\
  rd hw4InsaneFrame 4 = 4 /\
  totalCrcErrorCount (hw4AwaitingLast hw4InsaneFrame) = 0 /\
  totalCrcErrorCount
    (hw4ReceiveByte singleHW4NoDebug rawFpu 1000 (hw4AwaitingLast hw4InsaneFrame) 0) = 0 /\
  escSensorData
    (hw4ReceiveByte singleHW4NoDebug rawFpu 1000 (hw4AwaitingLast hw4InsaneFrame) 0)
    = escSensorData (hw4AwaitingLast hw4InsaneFrame).
Proof. repeat split; reflexivity. Qed.

Lemma hw4_current_zero_when_stopped_witness :
  processHW4TelemetryStream 0 (hw4AwaitingLast hw4StoppedFrame) =
    (true, set_bytesRead 0 (set_hwData (hw4StoppedFrame ++ [0])
                              (hw4AwaitingLast hw4StoppedFrame))) /\
  (0 < length (escSensorData (hw4AwaitingLast hw4StoppedFrame)))%nat /\
  Forall is_uint8 (hw4StoppedFrame ++ [0]) /\
  length (hw4StoppedFrame ++ [0]) = 20%nat /\
  hw4FrameSane (hw4StoppedFrame ++ [0]) = true /\
  hw4Raw16 (hw4StoppedFrame ++ [0]) 13 = 300 /\
  current (escData (hw4ReceiveByte singleHW4 rawFpu 1000
                      (hw4AwaitingLast hw4StoppedFrame) 0) 0) = 0.
Proof.
  assert (Hrec : (0 < length (escSensorData (hw4AwaitingLast hw4StoppedFrame)))%nat)
    by (vm_compute; lia).
  assert (Hbytes : Forall is_uint8 (hw4StoppedFrame ++ [0]))
    by (repeat constructor; by_computation).
  split; [reflexivity |]. split; [exact Hrec |]. split; [exact Hbytes |].
  do 3 (split; [reflexivity |]).
  apply (hw4_current_zero_when_stopped singleHW4 rawFpu 1000
           (hw4AwaitingLast hw4StoppedFrame) _ 0 eq_refl Hrec Hbytes eq_refl eq_refl).
  left. by_computation.
Defined.

(** C8, counterexample.  With the Hobbywing protocol motor number 1 is not
    the protocol's one index, yet the query answers with record 0 rather
    than null; so it does for the combined number. *)
Lemma getEscSensorData_hw4_counterexample :
  featureEscSensor singleHW4 = true /\
  validIndexAsDescribed singleHW4 1 = false /\
  fst (getEscSensorData singleHW4 1 (initialEscSensor singleHW4)) = Some (MotorRecord 0) /\
  fst (getEscSensorData singleHW4 ESC_SENSOR_COMBINED (initialEscSensor singleHW4)) =
    Some (MotorRecord 0).
Proof. repeat split; reflexivity. Qed.

Lemma isRpmSourceActive_iff_witness :
  0 <= getMotorCount quadKiss <= Z.of_nat (length (motorRpmSource threeSources)) /\
  isRpmSourceActive quadKiss threeSources = false.
Proof.
  assert (Hn : 0 <= getMotorCount quadKiss <= Z.of_nat (length (motorRpmSource threeSources)))
    by by_computation.
  split; [exact Hn |].
  apply (proj2 (isRpmSourceActive_iff quadKiss threeSources Hn)).
  exists 3. split; [by_computation | reflexivity].
Defined.

Lemma getEscSensorRPM_unconditional_witness :
  0 <= 1 < Z.of_nat (length (escSensorData oneFreshRecord)) /\
  rpmFits oneFreshRecord /\
  dataAge (escData oneFreshRecord 1) = ESC_DATA_INVALID /\
  getEscSensorRPM oneFreshRecord 1 = rpm (escData oneFreshRecord 1).
Proof.
  assert (Hm : 0 <= 1 < Z.of_nat (length (escSensorData oneFreshRecord)))
    by by_computation.
  assert (Hfits : rpmFits oneFreshRecord) by (repeat constructor; by_computation).
  split; [exact Hm |]. split; [exact Hfits |]. split; [reflexivity |].
  exact (proj1 (getEscSensorRPM_unconditional quadKiss oneFreshRecord fourSources 1
                  Hm Hfits)).
Defined.

(** ** The receive buffer *)

Lemma set_buffer_same st :
  set_bufferPosition (bufferPosition st) (set_telemetryBuffer (telemetryBuffer st) st) = st.
Proof. destruct st. reflexivity. Qed.

Lemma receiveAll_cons c cs st :
  receiveAll (c :: cs) st = receiveAll cs (escSensorDataReceive c st).
Proof. reflexivity. Qed.

Lemma escSensorDataReceive_room c st :
  bufferPosition st < bufferSize st ->
  escSensorDataReceive c st =
    set_bufferPosition (to_uint8 (bufferPosition st + 1))
      (set_telemetryBuffer (wr (telemetryBuffer st) (bufferPosition st) (to_uint8 c)) st).
Proof.
  intros Hroom. unfold escSensorDataReceive.
  destruct (Z.ltb_spec (bufferPosition st) (bufferSize st)); [reflexivity | lia].
Qed.

Lemma escSensorDataReceive_full c st :
  bufferSize st <= bufferPosition st -> escSensorDataReceive c st = st.
Proof.
  intros Hfull. unfold escSensorDataReceive.
  destruct (Z.ltb_spec (bufferPosition st) (bufferSize st)); [lia | reflexivity].
Qed.

Lemma receiveAll_cells (cs : list Z) : forall st : escSensor,
  0 <= bufferPosition st <= bufferSize st ->
  bufferSize st <= Z.of_nat (length (telemetryBuffer st)) ->
  bufferSize st <= 255 ->
  let n := Z.min (Z.of_nat (length cs)) (bufferSize st - bufferPosition st) in
  let st' := receiveAll cs st in
  bufferPosition st' = bufferPosition st + n /\
  st' = set_bufferPosition (bufferPosition st + n)
          (set_telemetryBuffer (telemetryBuffer st') st) /\
  length (telemetryBuffer st') = length (telemetryBuffer st) /\
  (forall j, 0 <= j ->
     rd (telemetryBuffer st') j =
       if (bufferPosition st <=? j) && (j <? bufferPosition st + n)
       then to_uint8 (cs !!! Z.to_nat (j - bufferPosition st))
       else rd (telemetryBuffer st) j) /\
  (isFrameComplete st' = true <->
   bufferSize st - bufferPosition st <= Z.of_nat (length cs)).
Proof.
  induction cs as [| c cs IH]; intros st Hpos Hsize Hmax n st'.
  - subst n st'. cbn [receiveAll fold_left length].
    replace (Z.min (Z.of_nat 0) (bufferSize st - bufferPosition st)) with 0 by lia.
    rewrite Z.add_0_r. split; [reflexivity |].
    split; [symmetry; apply set_buffer_same |]. split; [reflexivity |]. split.
    + intros j Hj.
      destruct (Z.leb_spec (bufferPosition st) j), (Z.ltb_spec j (bufferPosition st));
        cbn [andb]; first [reflexivity | lia].
    + unfold isFrameComplete. rewrite Z.eqb_eq. cbn. lia.
  - subst st'. rewrite receiveAll_cons.
    destruct (Z.lt_ge_cases (bufferPosition st) (bufferSize st)) as [Hroom | Hfull].
    + rewrite escSensorDataReceive_room by exact Hroom.
      set (s1 := set_bufferPosition (to_uint8 (bufferPosition st + 1))
                   (set_telemetryBuffer
                      (wr (telemetryBuffer st) (bufferPosition st) (to_uint8 c)) st)).
      assert (Hp1 : bufferPosition s1 = bufferPosition st + 1)
        by (subst s1; cbn; apply to_uint8_small; lia).
      assert (Hs1 : bufferSize s1 = bufferSize st) by reflexivity.
      assert (Hl1 : length (telemetryBuffer s1) = length (telemetryBuffer st))
        by (subst s1; cbn; unfold wr; apply length_insert).
      destruct (IH s1) as (Hp & Heq & Hlen & Hcells & Hdone);
        [lia | lia | lia |].
      rewrite Hp1, Hs1 in Hp, Heq, Hcells, Hdone. cbn [length] in n. subst n.
      replace (bufferPosition st + 1 +
               Z.min (Z.of_nat (length cs)) (bufferSize st - (bufferPosition st + 1)))
        with (bufferPosition st +
              Z.min (Z.of_nat (S (length cs))) (bufferSize st - bufferPosition st))
        in Hp, Heq, Hcells by lia.
      split; [exact Hp |]. split; [rewrite Heq at 1; reflexivity |].
      split; [rewrite Hlen; exact Hl1 |]. split.
      * intros j Hj. rewrite Hcells by exact Hj.
        destruct (Z.eq_dec j (bufferPosition st)) as [-> | Hne].
        -- destruct (Z.leb_spec (bufferPosition st + 1) (bufferPosition st)); [lia |].
           cbn [andb]. subst s1. cbn. rewrite rd_wr_eq by lia.
           destruct (Z.leb_spec (bufferPosition st) (bufferPosition st)); [| lia].
           destruct (Z.ltb_spec (bufferPosition st)
                       (bufferPosition st +
                        Z.min (Z.of_nat (S (length cs)))
                          (bufferSize st - bufferPosition st))); [| lia].
           cbn [andb]. rewrite Z.sub_diag. reflexivity.
        -- destruct (Z.leb_spec (bufferPosition st + 1) j),
             (Z.leb_spec (bufferPosition st) j),
             (Z.ltb_spec j (bufferPosition st +
                            Z.min (Z.of_nat (S (length cs)))
                              (bufferSize st - bufferPosition st)));
             cbn [andb];
             first [ lia
                   | replace (Z.to_nat (j - bufferPosition st))
                       with (S (Z.to_nat (j - (bufferPosition st + 1)))) by lia;
                     reflexivity
                   | subst s1; cbn; apply rd_wr_ne; lia ].
      * rewrite Hdone. cbn [length]. lia.
    + rewrite escSensorDataReceive_full by exact Hfull.
      assert (Hat : bufferPosition st = bufferSize st) by lia.
      destruct (IH st) as (Hp & Heq & Hlen & Hcells & Hdone); [lia | lia | lia |].
      cbn [length] in n. subst n.
      replace (Z.min (Z.of_nat (length cs)) (bufferSize st - bufferPosition st))
        with 0 in Hp, Heq, Hcells by lia.
      replace (Z.min (Z.of_nat (S (length cs))) (bufferSize st - bufferPosition st))
        with 0 by lia.
      split; [exact Hp |]. split; [exact Heq |]. split; [exact Hlen |]. split.
      * intros j Hj. rewrite Hcells by exact Hj.
        destruct (Z.leb_spec (bufferPosition st) j), (Z.ltb_spec j (bufferPosition st + 0));
          cbn [andb]; first [reflexivity | lia].
      * rewrite Hdone. cbn [length]. lia.
Qed.

(** X1.  The receive callback stores the bytes it is given from the
    current position on, each cut to 8 bits, up to the armed frame length
    and not beyond: the cells outside stay as they were, nothing but the
    buffer and the position changes, and the frame is complete exactly
    when enough bytes have come. *)
Theorem receiveAll_fills (cs : list Z) (st : escSensor) :
  0 <= bufferPosition st <= bufferSize st ->
  bufferSize st <= Z.of_nat (length (telemetryBuffer st)) ->
  bufferSize st <= 255 ->
  let n := Z.min (Z.of_nat (length cs)) (bufferSize st - bufferPosition st) in
  let st' := receiveAll cs st in
  bufferPosition st' = bufferPosition st + n /\
  st' = set_bufferPosition (bufferPosition st + n)
          (set_telemetryBuffer (telemetryBuffer st') st) /\
  length (telemetryBuffer st') = length (telemetryBuffer st) /\
  (forall j, 0 <= j ->
     rd (telemetryBuffer st') j =
       if (bufferPosition st <=? j) && (j <? bufferPosition st + n)
       then to_uint8 (cs !!! Z.to_nat (j - bufferPosition st))
       else rd (telemetryBuffer st) j) /\
  (isFrameComplete st' = true <->
   bufferSize st - bufferPosition st <= Z.of_nat (length cs)).
Proof. apply receiveAll_cells. Qed.

(** ** The checksum as an error detector *)

Lemma crc8Byte_range crc byte : is_uint8 crc -> is_uint8 byte -> is_uint8 (crc8Byte crc byte).
Proof.
  intros Hcrc Hbyte. rewrite <- updateCrc8_crc8Byte by assumption. apply updateCrc8_range.
Qed.

(** The 8 rounds permute the byte values. *)
Lemma crc8Rounds_inj x y :
  is_uint8 x -> is_uint8 y -> Nat.iter 8 crc8Shift x = Nat.iter 8 crc8Shift y -> x = y.
Proof.
  intros Hx Hy Heq.
  pose (bytes := map Z.of_nat (seq 0 256)).
  assert (Hall : forall a, is_uint8 a ->
            forallb (fun b => implb (Nat.iter 8 crc8Shift a =? Nat.iter 8 crc8Shift b)
                                (a =? b)) bytes = true).
  { apply (forall_uint8
             (fun a => forallb (fun b => implb (Nat.iter 8 crc8Shift a =? Nat.iter 8 crc8Shift b)
                                           (a =? b)) bytes)).
    vm_compute. reflexivity. }
  specialize (Hall x Hx). rewrite forallb_forall in Hall.
  assert (Hin : In y bytes).
  { subst bytes. apply in_map_iff. exists (Z.to_nat y). unfold is_uint8 in Hy.
    split; [lia | apply in_seq; lia]. }
  specialize (Hall y Hin). rewrite Heq, Z.eqb_refl in Hall. cbn [implb] in Hall.
  apply Z.eqb_eq, Hall.
Qed.

Lemma crc8Byte_inj_crc c c' b :
  is_uint8 c -> is_uint8 c' -> is_uint8 b -> crc8Byte c b = crc8Byte c' b -> c = c'.
Proof.
  intros Hc Hc' Hb Heq. unfold crc8Byte in Heq.
  apply crc8Rounds_inj in Heq; [| apply lxor_uint8; assumption | apply lxor_uint8; assumption].
  apply (f_equal (fun v => Z.lxor v b)) in Heq.
  rewrite !Z.lxor_assoc, Z.lxor_nilpotent, !Z.lxor_0_r in Heq. exact Heq.
Qed.

Lemma crc8Byte_inj_byte c b b' :
  is_uint8 c -> is_uint8 b -> is_uint8 b' -> crc8Byte c b = crc8Byte c b' -> b = b'.
Proof.
  intros Hc Hb Hb' Heq. unfold crc8Byte in Heq.
  apply crc8Rounds_inj in Heq; [| apply lxor_uint8; assumption | apply lxor_uint8; assumption].
  apply (f_equal (Z.lxor c)) in Heq.
  rewrite <- !Z.lxor_assoc, Z.lxor_nilpotent, !Z.lxor_0_l in Heq. exact Heq.
Qed.

(** Two running checksums that differ keep differing over the same bytes. *)
Lemma crc8_fold_inj bytes : forall c c',
  Forall is_uint8 bytes -> is_uint8 c -> is_uint8 c' -> c <> c' ->
  fold_left crc8Byte bytes c <> fold_left crc8Byte bytes c'.
Proof.
  induction bytes as [| b bytes IH]; intros c c' Hall Hc Hc' Hne; cbn [fold_left].
  - exact Hne.
  - inversion Hall as [| ? ? Hb Hrest]; subst.
    apply IH; [exact Hrest | apply crc8Byte_range; assumption
              | apply crc8Byte_range; assumption |].
    intros Heq. apply Hne. apply (crc8Byte_inj_crc c c' b); assumption.
Qed.

Lemma crc8_fold_range bytes : forall c,
  Forall is_uint8 bytes -> is_uint8 c -> is_uint8 (fold_left crc8Byte bytes c).
Proof.
  induction bytes as [| b bytes IH]; intros c Hall Hc; cbn [fold_left]; [exact Hc |].
  inversion Hall as [| ? ? Hb Hrest]; subst.
  apply IH; [exact Hrest | apply crc8Byte_range; assumption].
Qed.

(** Changing one byte of a message changes its CRC-8. *)
Lemma crc8_one_byte pre post b b' :
  Forall is_uint8 pre -> Forall is_uint8 post -> is_uint8 b -> is_uint8 b' -> b <> b' ->
  crc8 (pre ++ b :: post) <> crc8 (pre ++ b' :: post).
Proof.
  intros Hpre Hpost Hb Hb' Hne. unfold crc8. rewrite !fold_left_app. cbn [fold_left].
  assert (Hc : is_uint8 (fold_left crc8Byte pre 0))
    by (apply crc8_fold_range; [exact Hpre | unfold is_uint8; lia]).
  apply crc8_fold_inj; [exact Hpost | apply crc8Byte_range; assumption
                       | apply crc8Byte_range; assumption |].
  intros Heq. apply Hne. apply (crc8Byte_inj_byte _ b b' Hc); assumption.
Qed.

(** A full buffer whose check byte is not the checksum fails to decode. *)
Lemma decodeEscFrame_fails st :
  isFrameComplete st = true ->
  is_uint8 (rd (telemetryBuffer st) 9) ->
  rd (telemetryBuffer st) 9 <> calculateCrc8 (telemetryBuffer st) 9 ->
  decodeEscFrame st = (ESC_SENSOR_FRAME_FAILED, st).
Proof.
  intros Hs Hbyte Hne. unfold decodeEscFrame. rewrite Hs. cbn [negb].
  change (TELEMETRY_FRAME_SIZE - 1) with 9.
  pose proof (calculateCrc8_range (telemetryBuffer st) 9) as Hcrc.
  unfold is_uint8 in Hbyte, Hcrc.
  rewrite !to_uint16_small by lia.
  destruct (Z.eqb_spec (calculateCrc8 (telemetryBuffer st) 9) (rd (telemetryBuffer st) 9));
    [congruence | reflexivity].
Qed.

(** A full buffer whose check byte is the checksum decodes. *)
Lemma decodeEscFrame_succeeds st :
  isFrameComplete st = true ->
  rd (telemetryBuffer st) 9 = calculateCrc8 (telemetryBuffer st) 9 ->
  decodeEscFrame st =
    (ESC_SENSOR_FRAME_COMPLETE,
     set_combinedDataNeedsUpdate true
       (modifyEscData (escSensorMotor st) (storeEscFrame (telemetryBuffer st)) st)).
Proof.
  intros Hs Hcrc. unfold decodeEscFrame. rewrite Hs. cbn [negb].
  change (TELEMETRY_FRAME_SIZE - 1) with 9. rewrite Hcrc, Z.eqb_refl. reflexivity.
Qed.

(** X2.  A valid frame in which any one byte, payload or check byte, has
    been replaced by a different byte is rejected: [decodeEscFrame]
    returns [ESC_SENSOR_FRAME_FAILED] and changes nothing.  So every
    error confined to one byte, and every single-bit error, is caught. *)
Theorem decodeEscFrame_detects_byte_error (st : escSensor) (i v : Z) :
  kissFrame (telemetryBuffer st) ->
  isFrameComplete st = true ->
  rd (telemetryBuffer st) 9 = calculateCrc8 (telemetryBuffer st) 9 ->
  0 <= i <= 9 ->
  is_uint8 v ->
  v <> rd (telemetryBuffer st) i ->
  let corrupted := set_telemetryBuffer (wr (telemetryBuffer st) i v) st in
  decodeEscFrame corrupted = (ESC_SENSOR_FRAME_FAILED, corrupted).
Proof.
  intros [Hlen Hall] Hfull Hcrc Hi Hv Hne corrupted.
  set (buf := telemetryBuffer st) in *.
  assert (Hall' : Forall is_uint8 (wr buf i v)) by (apply Forall_insert; assumption).
  assert (Hlen' : length (wr buf i v) = 10%nat) by (unfold wr; rewrite length_insert; exact Hlen).
  apply decodeEscFrame_fails; [exact Hfull | |];
    change (telemetryBuffer corrupted) with (wr buf i v).
  - apply rd_uint8; [exact Hall' | lia].
  - rewrite (calculateCrc8_crc8 (wr buf i v) 9 Hall') by lia.
    rewrite (calculateCrc8_crc8 buf 9 Hall) in Hcrc by lia.
    change (Z.to_nat 9) with 9%nat in *.
    destruct (Z.eq_dec i 9) as [-> | Hpayload].
    + rewrite rd_wr_eq by lia. unfold wr. rewrite take_insert_ge by (cbn; lia).
      rewrite <- Hcrc. exact Hne.
    + rewrite rd_wr_ne by lia. rewrite Hcrc.
      assert (Hcell : take 9 buf !! Z.to_nat i = Some (rd buf i)).
      { rewrite lookup_take_lt by lia. unfold rd.
        destruct (lookup_lt_is_Some_2 buf (Z.to_nat i)) as [x Hx]; [lia |].
        rewrite Hx. f_equal. symmetry. apply list_lookup_total_correct, Hx. }
      unfold wr. rewrite take_insert_lt by lia.
      rewrite insert_take_drop by (rewrite length_take; lia).
      rewrite <- (take_drop_middle _ _ _ Hcell) at 1.
      assert (Hcut : Forall is_uint8 (take 9 buf)) by (apply Forall_take, Hall).
      apply crc8_one_byte.
      * apply Forall_take, Hcut.
      * apply Forall_drop, Hcut.
      * apply rd_uint8; [exact Hall | lia].
      * exact Hv.
      * intros Heq. apply Hne. symmetry. exact Heq.
Qed.

(** X3.  The checksum of a message followed by its own checksum is 0, so
    a receiver may also check a frame by running [calculateCrc8] over all
    of it. *)
Theorem calculateCrc8_residue (payload : list Z) :
  Forall is_uint8 payload ->
  calculateCrc8 (payload ++ [calculateCrc8 payload (Z.of_nat (length payload))])
    (Z.of_nat (length payload) + 1) = 0.
Proof.
  intros Hall.
  assert (Hcrc : calculateCrc8 payload (Z.of_nat (length payload)) = crc8 payload).
  { rewrite calculateCrc8_crc8 by (try exact Hall; lia).
    rewrite Nat2Z.id, take_ge by lia. reflexivity. }
  rewrite Hcrc.
  assert (Hc : is_uint8 (crc8 payload))
    by (apply crc8_fold_range; [exact Hall | unfold is_uint8; lia]).
  rewrite calculateCrc8_crc8.
  - rewrite take_ge by (rewrite length_app; cbn [length]; lia).
    unfold crc8. rewrite fold_left_app. cbn [fold_left]. fold (crc8 payload).
    unfold crc8Byte. rewrite Z.lxor_nilpotent. reflexivity.
  - apply Forall_app. split; [exact Hall | constructor; [exact Hc | constructor]].
  - rewrite length_app. cbn [length]. lia.
Qed.

(** ** The KISS scheduler on any input *)

Lemma kissEncode_frame r :
  kissRecord r -> kissFrame (kissEncode r).
Proof.
  intros (_ & Ht & Hv & Hc & Hm & Hr). split; [reflexivity |].
  assert (Hhi : forall v, 0 <= v < 65536 -> is_uint8 (v / 256)).
  { intros v Hrange. unfold is_uint8.
    split; [apply Z.div_pos; lia | apply Z.div_lt_upper_bound; lia]. }
  assert (Hlo : forall v, is_uint8 (v mod 256))
    by (intros v; unfold is_uint8; apply Z.mod_pos_bound; lia).
  unfold kissEncode, kissPayloadOf. cbn [app].
  repeat (apply Forall_cons_2; [first [exact Ht | apply Hhi; assumption | apply Hlo] |]).
  apply Forall_cons_2; [apply calculateCrc8_range | apply Forall_nil_2].
Qed.

Lemma kissEncode_checksum r :
  rd (kissEncode r) 9 = calculateCrc8 (kissEncode r) 9.
Proof.
  unfold kissEncode. change (rd (kissPayloadOf r ++ [?c]) 9) with c.
  unfold calculateCrc8. apply calculateCrc8Loop_ext; [lia |].
  intros j Hj. unfold rd.
  rewrite lookup_total_app_l by (cbn [kissPayloadOf length]; lia). reflexivity.
Qed.

Lemma kissEncode_decoded r :
  kissRecord r -> decodedEscFrame (kissEncode r) = with_dataAge 0 r.
Proof.
  intros (_ & Ht & Hv & Hc & Hm & Hr).
  unfold decodedEscFrame, with_dataAge.
  change (rd (kissEncode r) 0) with (temperature r).
  change (rd (kissEncode r) 1) with (voltage r / 256).
  change (rd (kissEncode r) 2) with (voltage r mod 256).
  change (rd (kissEncode r) 3) with (current r / 256).
  change (rd (kissEncode r) 4) with (current r mod 256).
  change (rd (kissEncode r) 5) with (consumption r / 256).
  change (rd (kissEncode r) 6) with (consumption r mod 256).
  change (rd (kissEncode r) 7) with (rpm r / 256).
  change (rd (kissEncode r) 8) with (rpm r mod 256).
  pose proof (Z.div_mod (voltage r) 256 ltac:(lia)).
  pose proof (Z.div_mod (current r) 256 ltac:(lia)).
  pose proof (Z.div_mod (consumption r) 256 ltac:(lia)).
  pose proof (Z.div_mod (rpm r) 256 ltac:(lia)).
  f_equal; lia.
Qed.

(** A frame received in full after a request sits in the buffer as sent. *)
Lemma receiveAll_frame frame st :
  bufferPosition st = 0 -> bufferSize st = 10 ->
  length (telemetryBuffer st) = 10%nat ->
  kissFrame frame ->
  receiveAll frame st = set_bufferPosition 10 (set_telemetryBuffer frame st).
Proof.
  intros Hpos Hsize Hlen [Hflen Hfall].
  destruct (receiveAll_cells frame st) as (Hp & Heq & Hl & Hcells & _); [lia | lia | lia |].
  rewrite Hpos, Hsize, Hflen in *.
  change (0 + Z.min (Z.of_nat 10) (10 - 0)) with 10 in *.
  assert (Hbuf : telemetryBuffer (receiveAll frame st) = frame).
  { apply (list_eq_same_length _ _ 10); [exact Hflen | lia |].
    intros i x y Hi Hx Hy.
    specialize (Hcells (Z.of_nat i) ltac:(lia)).
    unfold rd in Hcells. rewrite Nat2Z.id in Hcells.
    rewrite (list_lookup_total_correct _ _ _ Hx) in Hcells.
    destruct (Z.leb_spec 0 (Z.of_nat i)), (Z.ltb_spec (Z.of_nat i) 10); try lia.
    cbn [andb] in Hcells. rewrite Z.sub_0_r, Nat2Z.id in Hcells.
    rewrite (list_lookup_total_correct _ _ _ Hy) in Hcells.
    rewrite Hcells. apply to_uint8_small.
    exact (Forall_lookup_1 is_uint8 frame i y Hfall Hy). }
  rewrite Heq, Hbuf. reflexivity.
Qed.

Section KissAnyInput.

Variable env : platform.
Hypothesis motorCount_range : 1 <= getMotorCount env <= 255.

(** X4.  Round trip.  After a request, the ten bytes that encode a
    reading arrive and the task runs before the time-out: the motor's
    record now holds exactly that reading with age 0, no error is
    counted, and the next motor in turn is asked at once. *)
Theorem kiss_frame_round_trip (st : escSensor) (r : escSensorData_t) (us : Z) :
  kissRecord r ->
  escSensorTriggerState st = ESC_SENSOR_TRIGGER_PENDING ->
  bufferPosition st = 0 -> bufferSize st = 10 ->
  length (telemetryBuffer st) = 10%nat ->
  0 <= escTriggerTimestamp st <= 4294967 ->
  us / 1000 < escTriggerTimestamp st + ESC_REQUEST_TIMEOUT ->
  0 <= escSensorMotor st < getMotorCount env ->
  getMotorCount env <= Z.of_nat (length (escSensorData st)) ->
  let st' := kissSensorProcess env us (receiveAll (kissEncode r) st) in
  escData st' (escSensorMotor st) = with_dataAge 0 r /\
  combinedDataNeedsUpdate st' = true /\
  escSensorMotor st' = (escSensorMotor st + 1) mod getMotorCount env /\
  requestTelemetry st' = escSensorMotor st' :: requestTelemetry st /\
  escTriggerTimestamp st' = us / 1000 /\
  bufferPosition st' = 0 /\
  totalCrcErrorCount st' = totalCrcErrorCount st /\
  totalTimeoutCount st' = totalTimeoutCount st.
Proof using motorCount_range.
  intros Hr Hs Hpos Hsize Hlen Hts Hin Hm Hdata st'.
  pose proof (kissEncode_frame r Hr) as Hframe.
  subst st'. rewrite (receiveAll_frame _ st Hpos Hsize Hlen Hframe).
  set (s1 := set_bufferPosition 10 (set_telemetryBuffer (kissEncode r) st)).
  assert (Hdec : decodeEscFrame s1 =
            (ESC_SENSOR_FRAME_COMPLETE,
             set_combinedDataNeedsUpdate true
               (modifyEscData (escSensorMotor st) (storeEscFrame (kissEncode r)) s1))).
  { apply decodeEscFrame_succeeds.
    - subst s1. unfold isFrameComplete. cbn. rewrite Hsize. reflexivity.
    - apply kissEncode_checksum. }
  unfold kissSensorProcess.
  change (escSensorTriggerState s1) with (escSensorTriggerState st). rewrite Hs.
  change (escTriggerTimestamp s1) with (escTriggerTimestamp st).
  unfold ESC_REQUEST_TIMEOUT in *. rewrite to_uint32_small by lia.
  destruct (Z.ltb_spec (us / 1000) (escTriggerTimestamp st + 100)); [| lia].
  rewrite Hdec.
  set (s2 := set_combinedDataNeedsUpdate true
               (modifyEscData (escSensorMotor st) (storeEscFrame (kissEncode r)) s1)).
  destruct (selectNextMotor_other_fields env s2) as (Hd3 & _ & _ & Hc3 & Hr3).
  assert (Hm3 : escSensorMotor (selectNextMotor env s2) =
                (escSensorMotor st + 1) mod getMotorCount env)
    by (apply (selectNextMotor_motor env motorCount_range s2); exact Hm).
  assert (Hflag : combinedDataNeedsUpdate (selectNextMotor env s2) = true).
  { unfold selectNextMotor. cbn. destruct (_ =? _); reflexivity. }
  assert (Hcrc : totalCrcErrorCount (selectNextMotor env s2) = totalCrcErrorCount st).
  { unfold selectNextMotor. cbn. destruct (_ =? _); reflexivity. }
  cbn. rewrite Hm3, Hr3, Hc3, Hflag, Hcrc.
  split; [| repeat split; reflexivity].
  change (escData (selectNextMotor env s2) (escSensorMotor st) = with_dataAge 0 r).
  unfold escData at 1. rewrite Hd3.
  change (escData (modifyEscData (escSensorMotor st) (storeEscFrame (kissEncode r)) s1)
            (escSensorMotor st) = with_dataAge 0 r).
  rewrite escData_modify_eq by (subst s1; cbn; lia).
  rewrite storeEscFrame_decoded by exact Hframe. apply kissEncode_decoded, Hr.
Qed.

(** X5.  A full frame with a wrong check byte, found before the time-out,
    is a failed answer and not a time-out: the motor keeps its last
    reading with the age bumped (saturating), and the next motor in turn
    is asked at once.  The CRC-error counter goes up by one when the debug
    mode is [DEBUG_ESC_SENSOR] and stays as it is in any other debug mode;
    the time-out counter stays as it is. *)
Theorem kissSensorProcess_crc_error (st : escSensor) (us : Z) :
  escSensorTriggerState st = ESC_SENSOR_TRIGGER_PENDING ->
  0 <= escTriggerTimestamp st <= 4294967 ->
  us / 1000 < escTriggerTimestamp st + ESC_REQUEST_TIMEOUT ->
  isFrameComplete st = true ->
  is_uint8 (rd (telemetryBuffer st) 9) ->
  rd (telemetryBuffer st) 9 <> calculateCrc8 (telemetryBuffer st) 9 ->
  0 <= escSensorMotor st < getMotorCount env ->
  getMotorCount env <= Z.of_nat (length (escSensorData st)) ->
  0 <= dataAge (escData st (escSensorMotor st)) <= ESC_DATA_INVALID ->
  0 <= totalCrcErrorCount st < 2 ^ 32 - 1 ->
  let st' := kissSensorProcess env us st in
  totalCrcErrorCount st' =
    (if debugEscSensor env then totalCrcErrorCount st + 1 else totalCrcErrorCount st) /\
  totalTimeoutCount st' = totalTimeoutCount st /\
  escData st' (escSensorMotor st) =
    with_dataAge (Z.min (dataAge (escData st (escSensorMotor st)) + 1) ESC_DATA_INVALID)
      (escData st (escSensorMotor st)) /\
  escSensorMotor st' = (escSensorMotor st + 1) mod getMotorCount env /\
  requestTelemetry st' = escSensorMotor st' :: requestTelemetry st /\
  escTriggerTimestamp st' = us / 1000 /\
  bufferPosition st' = 0.
Proof using motorCount_range.
  intros Hs Hts Hin Hfull Hbyte Hbad Hm Hdata Hage Hcount st'. subst st'.
  unfold kissSensorProcess. rewrite Hs.
  unfold ESC_REQUEST_TIMEOUT in *. rewrite to_uint32_small by lia.
  destruct (Z.ltb_spec (us / 1000) (escTriggerTimestamp st + 100)); [| lia].
  rewrite (decodeEscFrame_fails st Hfull Hbyte Hbad).
  destruct (increaseDataAge_other_fields st) as (Hm1 & _ & _ & Hc1 & Hr1).
  destruct (selectNextMotor_other_fields env (increaseDataAge st))
    as (Hd2 & _ & _ & Hc2 & Hr2).
  assert (Hm2 : escSensorMotor (selectNextMotor env (increaseDataAge st)) =
                (escSensorMotor st + 1) mod getMotorCount env).
  { rewrite (selectNextMotor_motor env motorCount_range) by (rewrite Hm1; exact Hm).
    rewrite Hm1. reflexivity. }
  assert (Hcrc : totalCrcErrorCount (selectNextMotor env (increaseDataAge st)) =
                 totalCrcErrorCount st).
  { unfold selectNextMotor, increaseDataAge. cbn.
    destruct (_ =? _), (_ <? _); reflexivity. }
  assert (Hrecord :
            escData (selectNextMotor env (increaseDataAge st)) (escSensorMotor st) =
            with_dataAge
              (Z.min (dataAge (escData st (escSensorMotor st)) + 1) ESC_DATA_INVALID)
              (escData st (escSensorMotor st))).
  { unfold escData at 1. rewrite Hd2.
    fold (escData (increaseDataAge st) (escSensorMotor st)).
    unfold increaseDataAge, ESC_DATA_INVALID in *.
    destruct (Z.ltb_spec (dataAge (escData st (escSensorMotor st))) 255) as [Hlt | Hge].
    - change (escData (set_combinedDataNeedsUpdate true ?s) ?m) with (escData s m).
      rewrite escData_modify_eq by lia.
      rewrite to_uint8_small by lia. f_equal. lia.
    - replace (Z.min (dataAge (escData st (escSensorMotor st)) + 1) 255)
        with (dataAge (escData st (escSensorMotor st))) by lia.
      destruct (escData st (escSensorMotor st)). reflexivity. }
  change (2 ^ 32 - 1) with 4294967295 in Hcount.
  destruct (debugEscSensor env); cbn; rewrite Hm2, Hr2, Hr1, Hc2, Hc1, ?Hcrc;
    rewrite ?to_uint32_small by lia;
    (split; [reflexivity |]); (split; [reflexivity |]);
    (split; [exact Hrecord | repeat split; reflexivity]).
Qed.

End KissAnyInput.


(** [kissInOrder] looks at the request log, the trigger state and the
    motor index only. *)
Lemma kissInOrder_same env s t :
  requestTelemetry s = requestTelemetry t ->
  escSensorTriggerState s = escSensorTriggerState t ->
  escSensorMotor s = escSensorMotor t ->
  kissInOrder env t -> kissInOrder env s.
Proof. unfold kissInOrder. intros -> -> ->. exact id. Qed.

Lemma decodeEscFrame_scheduler_fields st :
  requestTelemetry (snd (decodeEscFrame st)) = requestTelemetry st /\
  escSensorTriggerState (snd (decodeEscFrame st)) = escSensorTriggerState st /\
  escSensorMotor (snd (decodeEscFrame st)) = escSensorMotor st.
Proof.
  unfold decodeEscFrame. destruct (negb (isFrameComplete st)); [repeat split; reflexivity |].
  destruct (_ =? _); repeat split; reflexivity.
Qed.

Section KissOrder.

Variable env : platform.
Hypothesis motorCount_range : 1 <= getMotorCount env <= 255.

Lemma kissInOrder_motor st :
  kissInOrder env st -> 0 <= escSensorMotor st < getMotorCount env.
Proof using motorCount_range.
  intros [_ Hstate]. destruct (length (requestTelemetry st)).
  - destruct Hstate as [_ ->]. lia.
  - destruct Hstate as [_ ->]. apply Z.mod_pos_bound. lia.
Qed.

(** Moving on to the next motor and asking it keeps the order. *)
Lemma kissInOrder_next st ms :
  escSensorTriggerState st = ESC_SENSOR_TRIGGER_PENDING ->
  kissInOrder env st ->
  kissInOrder env (setRequest ms (selectNextMotor env st)).
Proof using motorCount_range.
  intros Hs Hinv. pose proof (kissInOrder_motor st Hinv) as Hm.
  destruct Hinv as [Hlog Hstate].
  destruct (selectNextMotor_other_fields env st) as (_ & _ & _ & _ & Hr).
  pose proof (selectNextMotor_motor env motorCount_range st Hm) as Hnext.
  unfold kissInOrder. cbn. rewrite Hr, Hnext.
  destruct (length (requestTelemetry st)) as [| k] eqn:Hlen.
  - destruct Hstate as [Hstart _]. congruence.
  - destruct Hstate as [_ Hcur]. cbn [requestsInOrder roundRobin] in *.
    assert (Hstep : (escSensorMotor st + 1) mod getMotorCount env =
                    Z.of_nat (S k) mod getMotorCount env).
    { rewrite Hcur, Zplus_mod_idemp_l. f_equal. lia. }
    rewrite Hstep. split; [| split; reflexivity].
    f_equal. exact Hlog.
Qed.

Lemma kissSensorProcess_inOrder us st :
  kissInOrder env st -> kissInOrder env (kissSensorProcess env us st).
Proof using motorCount_range.
  intros Hinv. unfold kissSensorProcess.
  destruct (escSensorTriggerState st) eqn:Hs.
  - destruct (_ <=? _); [| exact Hinv].
    destruct Hinv as [Hlog Hstate].
    destruct (length (requestTelemetry st)) as [| k] eqn:Hlen;
      [| destruct Hstate as [Hp _]; congruence].
    destruct Hstate as [_ Hm].
    apply length_zero_iff_nil in Hlen.
    unfold kissInOrder. cbn. rewrite Hlen, Hm. cbn.
    rewrite Z.mod_0_l by lia. repeat split; reflexivity.
  - assert (Hbump : kissInOrder env (increaseDataAge st) /\
                    escSensorTriggerState (increaseDataAge st) = ESC_SENSOR_TRIGGER_PENDING).
    { destruct (increaseDataAge_other_fields st) as (Hm1 & Hs1 & _ & _ & Hr1).
      split; [apply (kissInOrder_same env _ st); assumption | congruence]. }
    destruct (_ <? _).
    + destruct (decodeEscFrame_scheduler_fields st) as (Hr1 & Hs1 & Hm1).
      destruct (decodeEscFrame st) as [state st1]. cbn [snd] in *.
      assert (Hinv1 : kissInOrder env st1) by (apply (kissInOrder_same env _ st); assumption).
      destruct state.
      * exact Hinv1.
      * apply kissInOrder_next; [congruence | exact Hinv1].
      * destruct (increaseDataAge_other_fields st1) as (Hm2 & Hs2 & _ & _ & Hr2).
        assert (Hnext : kissInOrder env
                  (setRequest (us / 1000) (selectNextMotor env (increaseDataAge st1)))).
        { apply kissInOrder_next; [congruence |].
          apply (kissInOrder_same env _ st1); assumption. }
        revert Hnext.
        generalize (setRequest (us / 1000) (selectNextMotor env (increaseDataAge st1))).
        intros s Hnext. cbn zeta.
      destruct (debugEscSensor env); [| exact Hnext].
      apply (kissInOrder_same env _ s); [reflexivity .. | exact Hnext].
    + assert (Hnext : kissInOrder env
                (setRequest (us / 1000) (selectNextMotor env (increaseDataAge st))))
        by (apply kissInOrder_next; apply Hbump).
      revert Hnext.
      generalize (setRequest (us / 1000) (selectNextMotor env (increaseDataAge st))).
      intros s Hnext. cbn zeta.
      destruct (debugEscSensor env); [| exact Hnext].
      apply (kissInOrder_same env _ s); [reflexivity .. | exact Hnext].
Qed.

(** X6.  Whatever bytes arrive and whenever the task runs, the scheduler
    asks the motors strictly in turn: the requests so far are for motors
    0, 1, ..., each one taken modulo the motor count, the one asked last
    is the current motor, and the motor index never leaves the range of
    the motors in use. *)
Theorem kiss_requests_in_order (evs : list kissEvent) (st0 : escSensor) :
  kissStartup st0 ->
  let st := kissRun env evs st0 in
  kissInOrder env st /\
  0 <= escSensorMotor st < getMotorCount env /\
  (forall m, head (requestTelemetry st) = Some m -> m = escSensorMotor st).
Proof using motorCount_range.
  intros Hstart st.
  assert (Hinv : kissInOrder env st).
  { subst st. unfold kissRun.
    assert (H0 : kissInOrder env st0).
    { destruct Hstart as (Hs & Hm & _ & Hr). unfold kissInOrder. rewrite Hr. cbn.
      repeat split; assumption. }
    clear Hstart. revert st0 H0.
    induction evs as [| e evs IH]; intros st0 H0; cbn [fold_left]; [exact H0 |].
    apply IH. destruct e as [us | c]; cbn [kissStep].
    - apply kissSensorProcess_inOrder, H0.
    - destruct (escSensorDataReceive_other_fields c st0) as (_ & Hm & Hs & _ & _ & Hr).
      apply (kissInOrder_same env _ st0); assumption. }
  split; [exact Hinv |]. split; [apply kissInOrder_motor, Hinv |].
  intros m Hhead. destruct Hinv as [Hlog Hstate].
  destruct (length (requestTelemetry st)) as [| k] eqn:Hlen.
  - apply length_zero_iff_nil in Hlen. rewrite Hlen in Hhead. discriminate.
  - destruct Hstate as [_ ->]. rewrite Hlog in Hhead. cbn [requestsInOrder] in Hhead.
    destruct k; cbn [roundRobin head] in Hhead; injection Hhead as <-;
      [rewrite Z.mod_0_l by lia |]; reflexivity.
Qed.

End KissOrder.

(** ** The combined record *)

Lemma sumOf_range f rs bound :
  0 <= bound -> Forall (fun r => 0 <= f r < bound) rs ->
  0 <= sumOf f rs <= bound * Z.of_nat (length rs).
Proof.
  intros Hb Hall. unfold sumOf.
  induction Hall as [| r rs Hr Hrs IH]; cbn [map fold_right length]; lia.
Qed.

Lemma maxOf_range f rs bound :
  0 <= bound -> Forall (fun r => 0 <= f r <= bound) rs -> 0 <= maxOf f rs <= bound.
Proof.
  intros Hb Hall. unfold maxOf.
  induction Hall as [| r rs Hr Hrs IH]; cbn [map fold_right]; lia.
Qed.

Lemma maxOf_nonneg f rs : 0 <= maxOf f rs.
Proof. unfold maxOf. induction rs as [| r rs IH]; cbn [map fold_right]; lia. Qed.

(** The loop adds the records it visits to what it was given, as long as
    the sums stay inside 32 bits. *)
Lemma combineLoop_adds st n : forall i c,
  0 <= i ->
  (Z.to_nat i + n <= length (escSensorData st))%nat ->
  Forall kissRecord (take n (drop (Z.to_nat i) (escSensorData st))) ->
  0 <= dataAge c <= 255 -> 0 <= temperature c <= 255 ->
  0 <= voltage c /\ voltage c + 65536 * Z.of_nat n < 2 ^ 31 ->
  0 <= current c /\ current c + 65536 * Z.of_nat n < 2 ^ 31 ->
  0 <= consumption c /\ consumption c + 65536 * Z.of_nat n < 2 ^ 31 ->
  0 <= rpm c /\ rpm c + 65536 * Z.of_nat n < 2 ^ 31 ->
  let rs := take n (drop (Z.to_nat i) (escSensorData st)) in
  combineLoop st n i c =
    {| dataAge := Z.max (dataAge c) (maxOf dataAge rs);
       temperature := Z.max (temperature c) (maxOf temperature rs);
       voltage := voltage c + sumOf voltage rs;
       current := current c + sumOf current rs;
       consumption := consumption c + sumOf consumption rs;
       rpm := rpm c + sumOf rpm rs |}.
Proof.
  induction n as [| n IH]; intros i c Hi Hlen Hall Ha Ht Hv Hc Hm Hr rs.
  - subst rs. cbn [combineLoop take]. unfold maxOf, sumOf. cbn [map fold_right].
    rewrite !Z.add_0_r. rewrite !Z.max_l by (destruct Ha, Ht; assumption).
    destruct c. reflexivity.
  - destruct (lookup_lt_is_Some_2 (escSensorData st) (Z.to_nat i)) as [x Hx]; [lia |].
    assert (Hrd : escData st i = x) by (apply list_lookup_total_correct, Hx).
    subst rs. rewrite (drop_S _ _ _ Hx) in *. cbn [take] in *.
    pose proof (Forall_inv Hall) as Hrec. pose proof (Forall_inv_tail Hall) as Hrest.
    destruct Hrec as (Hxa & Hxt & Hxv & Hxc & Hxm & Hxr). unfold ESC_DATA_INVALID in Hxa.
    cbn [combineLoop]. change (2 ^ 31) with 2147483648 in *.
    rewrite Nat2Z.inj_succ in Hv, Hc, Hm, Hr.
    assert (Hstep : combineMotor st c i =
              {| dataAge := Z.max (dataAge c) (dataAge x);
                 temperature := Z.max (temperature c) (temperature x);
                 voltage := voltage c + voltage x;
                 current := current c + current x;
                 consumption := consumption c + consumption x;
                 rpm := rpm c + rpm x |}).
    { unfold combineMotor. rewrite Hrd.
      unfold with_rpm, with_consumption, with_current, with_voltage, with_temperature,
        with_dataAge. cbn.
      rewrite to_uint8_small, to_int16_small, !to_int32_small by lia. reflexivity. }
    rewrite Hstep.
    replace (Z.to_nat i) with (Z.to_nat (i + 1) - 1)%nat in Hrest |- * by lia.
    replace (S (Z.to_nat (i + 1) - 1)) with (Z.to_nat (i + 1)) in Hrest |- * by lia.
    rewrite IH; cbn [dataAge temperature voltage current consumption rpm];
      try lia; [| exact Hrest].
    unfold maxOf, sumOf. cbn [map fold_right]. f_equal; lia.
Qed.

Lemma updateCombined_aggregate env st :
  1 <= getMotorCount env <= 255 ->
  getMotorCount env <= Z.of_nat (length (escSensorData st)) ->
  Forall kissRecord (motorRecords env st) ->
  combinedEscSensorData (updateCombined env st) = aggregate (motorRecords env st).
Proof.
  intros Hn Hlen Hall. unfold updateCombined. cbn.
  assert (Hcount : length (motorRecords env st) = Z.to_nat (getMotorCount env))
    by (unfold motorRecords; rewrite length_take; lia).
  pose proof (combineLoop_adds st (Z.to_nat (getMotorCount env)) 0 zeroEscSensorData)
    as Hloop.
  change (Z.to_nat 0) with 0%nat in Hloop. rewrite drop_0 in Hloop.
  fold (motorRecords env st) in Hloop. cbn zeta in Hloop.
  change (2 ^ 31) with 2147483648 in Hloop.
  rewrite Hloop by (cbn; first [lia | exact Hall]). clear Hloop.
  cbn [dataAge temperature voltage current consumption rpm zeroEscSensorData].
  assert (Hv : 0 <= sumOf voltage (motorRecords env st) <= 65536 * 255).
  { pose proof (sumOf_range voltage (motorRecords env st) 65536 ltac:(lia)) as H.
    rewrite Hcount in H. assert (Hok : Forall (fun r => 0 <= voltage r < 65536)
                                         (motorRecords env st)).
    { eapply Forall_impl; [exact Hall |]. intros r Hr. apply Hr. }
    specialize (H Hok). lia. }
  assert (Hr : 0 <= sumOf rpm (motorRecords env st) <= 65536 * 255).
  { pose proof (sumOf_range rpm (motorRecords env st) 65536 ltac:(lia)) as H.
    rewrite Hcount in H. assert (Hok : Forall (fun r => 0 <= rpm r < 65536)
                                         (motorRecords env st)).
    { eapply Forall_impl; [exact Hall |]. intros r Hrec. apply Hrec. }
    specialize (H Hok). lia. }
  pose proof (maxOf_nonneg dataAge (motorRecords env st)) as Hma.
  pose proof (maxOf_nonneg temperature (motorRecords env st)) as Hmt.
  unfold with_rpm, with_voltage, aggregate. cbn.
  rewrite Hcount, Z2Nat.id by lia.
  rewrite !Z.quot_div_nonneg by lia.
  assert (Hqv : 0 <= sumOf voltage (motorRecords env st) / getMotorCount env <= 65536 * 255).
  { split; [apply Z.div_pos; lia |].
    apply Z.div_le_upper_bound; [lia |]. nia. }
  assert (Hqr : 0 <= sumOf rpm (motorRecords env st) / getMotorCount env <= 65536 * 255).
  { split; [apply Z.div_pos; lia |].
    apply Z.div_le_upper_bound; [lia |]. nia. }
  rewrite !Z.add_0_l. rewrite !to_int32_small by lia.
  rewrite !Z.max_r by lia. reflexivity.
Qed.

Section CombinedRecord.

Variable env : platform.
Hypothesis feature_on : featureEscSensor env = true.
Hypothesis kiss_protocol : protocol env = ESC_SENSOR_PROTO_KISS.
Hypothesis motorCount_byte : 0 <= getMotorCount env <= 255.

Lemma getEscSensorData_combined_cases st :
  getEscSensorData env ESC_SENSOR_COMBINED st =
    (Some CombinedRecord,
     if combinedDataNeedsUpdate st && (0 <? getMotorCount env)
     then updateCombined env st else st).
Proof using feature_on kiss_protocol motorCount_byte.
  unfold getEscSensorData. rewrite feature_on, kiss_protocol. cbn [negb].
  unfold ESC_SENSOR_COMBINED.
  destruct (Z.ltb_spec 255 (getMotorCount env)); [lia |].
  rewrite Z.eqb_refl. destruct (_ && _); reflexivity.
Qed.

(** X7.  With KISS, a query for the combined record answers with the
    combined record and never touches a motor's record.  When the
    combined record is stale and there is a motor, it is rebuilt as the
    largest age and temperature, the summed current and consumption and
    the mean voltage and rpm of the motors in use, and marked fresh; when
    it is fresh, or there is no motor to divide by, nothing changes. *)
Theorem getEscSensorData_combined (st : escSensor) :
  getMotorCount env <= Z.of_nat (length (escSensorData st)) ->
  Forall kissRecord (motorRecords env st) ->
  let answer := getEscSensorData env ESC_SENSOR_COMBINED st in
  fst answer = Some CombinedRecord /\
  escSensorData (snd answer) = escSensorData st /\
  (combinedDataNeedsUpdate st = true -> 1 <= getMotorCount env ->
   combinedEscSensorData (snd answer) = aggregate (motorRecords env st) /\
   combinedDataNeedsUpdate (snd answer) = false) /\
  (combinedDataNeedsUpdate st = false \/ getMotorCount env = 0 -> snd answer = st).
Proof using feature_on kiss_protocol motorCount_byte.
  intros Hlen Hall answer. subst answer. rewrite getEscSensorData_combined_cases.
  cbn [fst snd]. split; [reflexivity |]. split; [| split].
  - destruct (_ && _); reflexivity.
  - intros Hstale Hn. rewrite Hstale.
    destruct (Z.ltb_spec 0 (getMotorCount env)); [| lia]. cbn [andb].
    split; [apply updateCombined_aggregate; [lia | exact Hlen | exact Hall] | reflexivity].
  - intros [Hfresh | Hnone].
    + rewrite Hfresh. reflexivity.
    + rewrite Hnone, andb_false_r. reflexivity.
Qed.

(** *** The combined record along a run *)

Lemma combinedFresh_stale st : combinedDataNeedsUpdate st = true -> combinedFresh env st.
Proof. unfold combinedFresh. intros ->. discriminate. Qed.

Lemma combinedFresh_same s t :
  escSensorData s = escSensorData t ->
  combinedEscSensorData s = combinedEscSensorData t ->
  combinedDataNeedsUpdate s = combinedDataNeedsUpdate t ->
  combinedFresh env t -> combinedFresh env s.
Proof. unfold combinedFresh, motorRecords. intros -> -> ->. exact id. Qed.

Lemma selectNextMotor_combined s :
  escSensorData (selectNextMotor env s) = escSensorData s /\
  combinedEscSensorData (selectNextMotor env s) = combinedEscSensorData s /\
  combinedDataNeedsUpdate (selectNextMotor env s) = combinedDataNeedsUpdate s /\
  telemetryBuffer (selectNextMotor env s) = telemetryBuffer s.
Proof. unfold selectNextMotor. cbn. destruct (_ =? _); repeat split; reflexivity. Qed.

Lemma increaseDataAge_storeSound len st :
  storeSound env len st -> storeSound env len (increaseDataAge st).
Proof.
  intros Hst. unfold increaseDataAge.
  destruct (Z.ltb_spec (dataAge (escData st (escSensorMotor st))) ESC_DATA_INVALID)
    as [Hlt | Hge]; [| exact Hst].
  destruct Hst as (Hbuf & Hrec & Hlen & Hfresh).
  split; [exact Hbuf |]. split; [| split; [| apply combinedFresh_stale; reflexivity]].
  - cbn. apply Forall_alter; [exact Hrec |].
    intros r Hr (Ha & Hrest).
    assert (escData st (escSensorMotor st) = r) as Hsame
      by (apply list_lookup_total_correct, Hr).
    rewrite Hsame in Hlt. unfold ESC_DATA_INVALID in *.
    split; [cbn; rewrite to_uint8_small by lia; unfold ESC_DATA_INVALID; lia | exact Hrest].
  - cbn. rewrite length_alter. exact Hlen.
Qed.

Lemma decodeEscFrame_storeSound len st :
  storeSound env len st -> storeSound env len (snd (decodeEscFrame st)).
Proof.
  intros Hst. unfold decodeEscFrame.
  destruct (negb _); [exact Hst |].
  destruct (_ =? _); [| exact Hst].
  destruct Hst as (Hbuf & Hrec & Hlen & Hfresh).
  split; [exact Hbuf |]. split; [| split; [| apply combinedFresh_stale; reflexivity]].
  - cbn. apply Forall_alter; [exact Hrec |].
    intros r _ _. rewrite storeEscFrame_decoded by exact Hbuf.
    destruct Hbuf as [Hl Hall].
    assert (Hb : forall i, 0 <= i < 10 -> 0 <= rd (telemetryBuffer st) i < 256)
      by (intros i Hi; apply rd_uint8; [exact Hall | lia]).
    pose proof (Hb 0). pose proof (Hb 1). pose proof (Hb 2). pose proof (Hb 3).
    pose proof (Hb 4). pose proof (Hb 5). pose proof (Hb 6). pose proof (Hb 7).
    pose proof (Hb 8).
    unfold kissRecord, decodedEscFrame, ESC_DATA_INVALID. cbn. lia.
  - cbn. rewrite length_alter. exact Hlen.
Qed.

Lemma storeSound_same len s t :
  telemetryBuffer s = telemetryBuffer t ->
  escSensorData s = escSensorData t ->
  combinedEscSensorData s = combinedEscSensorData t ->
  combinedDataNeedsUpdate s = combinedDataNeedsUpdate t ->
  storeSound env len t -> storeSound env len s.
Proof.
  intros Hb Hd Hc Hf (Hbuf & Hrec & Hlen & Hfresh). unfold storeSound.
  rewrite Hb, Hd.
  split; [exact Hbuf |]. split; [exact Hrec |]. split; [exact Hlen |].
  apply (combinedFresh_same s t); assumption.
Qed.

Lemma nextRequest_storeSound len ms s :
  storeSound env len s -> storeSound env len (setRequest ms (selectNextMotor env s)).
Proof.
  intros Hs. destruct (selectNextMotor_combined s) as (Hd & Hc & Hf & Hb).
  apply (storeSound_same len _ s); assumption.
Qed.

Lemma kissSensorProcess_storeSound len us st :
  storeSound env len st -> storeSound env len (kissSensorProcess env us st).
Proof.
  intros Hst. unfold kissSensorProcess. destruct (escSensorTriggerState st).
  - destruct (_ <=? _); [| exact Hst].
    apply (storeSound_same len _ st); [reflexivity .. | exact Hst].
  - destruct (_ <? _).
    + pose proof (decodeEscFrame_storeSound len st Hst) as Hdec.
      destruct (decodeEscFrame st) as [state st1]. cbn [snd] in Hdec.
      destruct state; [exact Hdec | apply nextRequest_storeSound, Hdec |].
      assert (Hnext : storeSound env len
                (setRequest (us / 1000) (selectNextMotor env (increaseDataAge st1))))
        by apply nextRequest_storeSound, increaseDataAge_storeSound, Hdec.
      revert Hnext.
      generalize (setRequest (us / 1000) (selectNextMotor env (increaseDataAge st1))).
      intros s Hnext. cbn zeta.
      destruct (debugEscSensor env); [| exact Hnext].
      apply (storeSound_same len _ s); [reflexivity .. | exact Hnext].
    + assert (Hnext : storeSound env len
                (setRequest (us / 1000) (selectNextMotor env (increaseDataAge st))))
        by apply nextRequest_storeSound, increaseDataAge_storeSound, Hst.
      revert Hnext.
      generalize (setRequest (us / 1000) (selectNextMotor env (increaseDataAge st))).
      intros s Hnext. cbn zeta.
      destruct (debugEscSensor env); [| exact Hnext].
      apply (storeSound_same len _ s); [reflexivity .. | exact Hnext].
Qed.

Lemma escSensorDataReceive_storeSound len c st :
  storeSound env len st -> storeSound env len (escSensorDataReceive c st).
Proof.
  intros (Hbuf & Hrec & Hlen & Hfresh).
  split; [apply escSensorDataReceive_kissFrame, Hbuf |].
  destruct (escSensorDataReceive_other_fields c st) as (Hd & _).
  assert (Hsame : combinedFresh env (escSensorDataReceive c st)).
  { apply (combinedFresh_same _ st); [exact Hd | | | exact Hfresh];
      unfold escSensorDataReceive; destruct (_ <? _); reflexivity. }
  rewrite Hd. split; [exact Hrec |]. split; [exact Hlen | exact Hsame].
Qed.

Lemma getEscSensorData_storeSound len m st :
  getMotorCount env <= Z.of_nat len ->
  storeSound env len st -> storeSound env len (snd (getEscSensorData env m st)).
Proof using feature_on kiss_protocol motorCount_byte.
  intros Hn Hst. unfold getEscSensorData. rewrite feature_on, kiss_protocol. cbn [negb].
  destruct (_ <? _); [exact Hst |]. destruct (_ =? _); [| exact Hst].
  destruct (combinedDataNeedsUpdate st) eqn:Hstale; cbn [andb]; [| exact Hst].
  destruct (Z.ltb_spec 0 (getMotorCount env)) as [Hpos | Hnone]; [| exact Hst].
  destruct Hst as (Hbuf & Hrec & Hlen & Hfresh). cbn [snd].
  split; [exact Hbuf |]. split; [exact Hrec |]. split; [exact Hlen |].
  intros _. change (motorRecords env (updateCombined env st)) with (motorRecords env st).
  apply updateCombined_aggregate; [lia | lia |].
  unfold motorRecords. apply Forall_take, Hrec.
Qed.

Lemma kissActs_storeSound len acts st :
  getMotorCount env <= Z.of_nat len ->
  storeSound env len st -> storeSound env len (kissActs env acts st).
Proof using feature_on kiss_protocol motorCount_byte.
  intros Hn. unfold kissActs. revert st.
  induction acts as [| a acts IH]; intros st H0; cbn [fold_left]; [exact H0 |].
  apply IH. destruct a as [[us | c] | m]; cbn [kissAct kissStep].
  - apply kissSensorProcess_storeSound, H0.
  - apply escSensorDataReceive_storeSound, H0.
  - apply getEscSensorData_storeSound; [exact Hn | exact H0].
Qed.

(** X8.  The combined record is never served stale.  Start from a store of
    KISS readings whose combined record is fresh or marked stale, let the
    scheduler run, bytes arrive and consumers query in any order: a query
    for the combined record then answers with the aggregate of the motor
    records as they are at that moment. *)
Theorem combined_always_current (acts : list kissActivity) (st0 : escSensor) :
  1 <= getMotorCount env <= Z.of_nat (length (escSensorData st0)) ->
  kissFrame (telemetryBuffer st0) ->
  Forall kissRecord (escSensorData st0) ->
  combinedFresh env st0 ->
  let st := kissActs env acts st0 in
  let answer := getEscSensorData env ESC_SENSOR_COMBINED st in
  fst answer = Some CombinedRecord /\
  escSensorData (snd answer) = escSensorData st /\
  combinedEscSensorData (snd answer) = aggregate (motorRecords env st).
Proof using feature_on kiss_protocol motorCount_byte.
  intros Hn Hbuf Hrec Hfresh st answer.
  assert (Hst : storeSound env (length (escSensorData st0)) st).
  { apply kissActs_storeSound; [lia |].
    split; [exact Hbuf |]. split; [exact Hrec |]. split; [reflexivity | exact Hfresh]. }
  destruct Hst as (_ & Hrecs & Hlen & Hcur).
  subst answer. rewrite getEscSensorData_combined_cases. cbn [fst snd].
  split; [reflexivity |].
  destruct (combinedDataNeedsUpdate st) eqn:Hstale; cbn [andb].
  - destruct (Z.ltb_spec 0 (getMotorCount env)); [| lia].
    split; [reflexivity |].
    apply updateCombined_aggregate; [lia | lia |].
    unfold motorRecords. apply Forall_take, Hrecs.
  - split; [reflexivity |]. apply Hcur, Hstale.
Qed.

End CombinedRecord.

(** ** Initialisation *)

Lemma invalidateLoop_other_fields n : forall i st,
  escSensorPort (invalidateLoop n i st) = escSensorPort st /\
  telemetryBuffer (invalidateLoop n i st) = telemetryBuffer st /\
  escSensorTriggerState (invalidateLoop n i st) = escSensorTriggerState st /\
  escSensorMotor (invalidateLoop n i st) = escSensorMotor st /\
  combinedEscSensorData (invalidateLoop n i st) = combinedEscSensorData st /\
  combinedDataNeedsUpdate (invalidateLoop n i st) = combinedDataNeedsUpdate st /\
  hwData (invalidateLoop n i st) = hwData st.
Proof.
  induction n as [| n IH]; intros i st; cbn [invalidateLoop].
  - repeat split.
  - destruct (IH (i + 1) (modifyEscData i (with_dataAge ESC_DATA_INVALID) st))
      as (-> & -> & -> & -> & -> & -> & ->).
    repeat split.
Qed.

(** X9.  [escSensorInit] without a port configuration returns false and
    changes nothing.  With one, it returns whether the port is open, which
    is what [isEscSensorActive] says from then on: the result of opening
    it for KISS and Hobbywing, the port as it was for any other protocol.
    Whether or not the port opened, every record of the array has age
    [ESC_DATA_INVALID] afterwards and its other fields as before. *)
Theorem escSensorInit_result (env : platform) (st : escSensor) :
  0 <= MAX_SUPPORTED_MOTORS env ->
  Z.of_nat (length (escSensorData st)) = MAX_SUPPORTED_MOTORS env ->
  let result := escSensorInit env st in
  (serialPortConfigured env = false -> result = (false, st)) /\
  (serialPortConfigured env = true ->
   fst result = isEscSensorActive (snd result) /\
   isEscSensorActive (snd result) =
     match protocol env with
     | ESC_SENSOR_PROTO_OTHER => escSensorPort st
     | _ => serialPortOpens env
     end /\
   length (escSensorData (snd result)) = length (escSensorData st) /\
   forall j, 0 <= j < MAX_SUPPORTED_MOTORS env ->
     escData (snd result) j = with_dataAge ESC_DATA_INVALID (escData st j)).
Proof.
  intros Hmax Hlen result. subst result. unfold escSensorInit, isEscSensorActive.
  split; intros Hcfg; rewrite Hcfg; cbn [negb]; [reflexivity |].
  cbn [fst snd]. split; [reflexivity |].
  set (opened := match protocol env with
                 | ESC_SENSOR_PROTO_OTHER => st
                 | _ => set_escSensorPort (serialPortOpens env) st
                 end).
  assert (Hdata : escSensorData opened = escSensorData st)
    by (subst opened; destruct (protocol env); reflexivity).
  destruct (invalidateLoop_other_fields (Z.to_nat (MAX_SUPPORTED_MOTORS env)) 0 opened)
    as (Hport & _).
  destruct (invalidateLoop_spec (Z.to_nat (MAX_SUPPORTED_MOTORS env)) 0 opened ltac:(lia))
    as [Hl Hget].
  rewrite Hport. split; [subst opened; destruct (protocol env); reflexivity |].
  rewrite Hl, Hdata. split; [reflexivity |].
  intros j Hj. rewrite Hget by (rewrite Hdata; lia).
  destruct (Z.leb_spec 0 j), (Z.ltb_spec j (0 + Z.of_nat (Z.to_nat (MAX_SUPPORTED_MOTORS env))));
    cbn [andb]; try lia.
  unfold escData. rewrite Hdata. reflexivity.
Qed.

(** ** The Hobbywing parser on any input *)

Lemma processHW4_parserOk b st :
  hw4ParserOk st ->
  hw4ParserOk (snd (processHW4TelemetryStream b st)) /\
  rd (hwData (snd (processHW4TelemetryStream b st))) 19 = rd (hwData st) 19 /\
  bytesRead (snd (processHW4TelemetryStream b st))
    + (if fst (processHW4TelemetryStream b st) then 19 else 0) <= bytesRead st + 1 /\
  (fst (processHW4TelemetryStream b st) = true ->
   rd (hwData (snd (processHW4TelemetryStream b st))) 0 = 0x9B /\
   rd (hwData (snd (processHW4TelemetryStream b st))) 1 <> 0x9B /\
   rd (hwData (snd (processHW4TelemetryStream b st))) 18 = b).
Proof.
  intros (Hread & Hskip & Hlen & Hsync & Hsecond). unfold processHW4TelemetryStream.
  destruct (Z.ltb_spec 0 (skipBytes st)) as [Hs | Hs].
  { cbn [fst snd]. rewrite to_uint8_small by lia.
    split; [| split; [reflexivity | split; [cbn; lia | discriminate]]].
    unfold hw4ParserOk. cbn. repeat split; try lia; assumption. }
  destruct (Z.eqb_spec (bytesRead st) 0) as [H0 | H0];
    destruct (Z.eqb_spec b 155) as [Hb | Hb]; cbn [andb].
  - cbn [fst snd]. rewrite H0. rewrite to_uint8_small by lia. cbn.
    split; [| split; [apply rd_wr_ne; lia | split; [lia | discriminate]]].
    unfold hw4ParserOk. cbn. unfold wr.
    rewrite length_insert.
    repeat split; try lia; try assumption.
    intros _. subst b. apply (rd_wr_eq (hwData st) 0 155). lia.
  - rewrite H0. cbn.
    split; [| split; [reflexivity | split; [lia | discriminate]]].
    unfold hw4ParserOk. repeat split; try lia; assumption.
  - destruct (Z.eqb_spec (bytesRead st) 1) as [H1 | H1].
    + cbn.
      split; [| split; [reflexivity | split; [lia | discriminate]]].
      unfold hw4ParserOk. cbn. repeat split; try lia; assumption.
    + destruct (Z.ltb_spec 0 (bytesRead st)); [| lia].
      cbn [bytesRead set_bytesRead]. rewrite to_uint8_small by lia.
      assert (Hk0 : rd (wr (hwData st) (bytesRead st) b) 0 = 155)
        by (rewrite rd_wr_ne by lia; apply Hsync; lia).
      assert (Hk1 : rd (wr (hwData st) (bytesRead st) b) 1 <> 155)
        by (rewrite rd_wr_ne by lia; apply Hsecond; lia).
      destruct (Z.eqb_spec (bytesRead st + 1) 19) as [H19 | H19]; cbn.
      * split; [| split; [apply rd_wr_ne; lia | split; [lia |]]].
        -- unfold hw4ParserOk. cbn. unfold wr. rewrite length_insert.
           repeat split; try lia; assumption.
        -- intros _. split; [exact Hk0 |]. split; [exact Hk1 |].
           replace 18 with (bytesRead st) by lia. apply rd_wr_eq. lia.
      * split; [| split; [apply rd_wr_ne; lia | split; [lia | discriminate]]].
        unfold hw4ParserOk. cbn. unfold wr at 1. rewrite length_insert.
        repeat split; try lia; try assumption; intros _; assumption.
  - destruct (Z.eqb_spec (bytesRead st) 1) as [H1 | H1]; cbn [andb].
    + destruct (Z.ltb_spec 0 (bytesRead st)); [| lia].
      cbn [bytesRead set_bytesRead]. rewrite to_uint8_small by lia.
      rewrite H1. change (1 + 1 =? 19) with false. cbn.
      split; [| split; [apply rd_wr_ne; lia | split; [lia | discriminate]]].
      unfold hw4ParserOk. cbn. unfold wr at 1. rewrite length_insert.
      repeat split; try lia; try assumption.
      * intros _. rewrite rd_wr_ne by lia. apply Hsync. lia.
      * intros _. rewrite rd_wr_eq by lia. exact Hb.
    + destruct (Z.ltb_spec 0 (bytesRead st)); [| lia].
      cbn [bytesRead set_bytesRead]. rewrite to_uint8_small by lia.
      assert (Hk0 : rd (wr (hwData st) (bytesRead st) b) 0 = 155)
        by (rewrite rd_wr_ne by lia; apply Hsync; lia).
      assert (Hk1 : rd (wr (hwData st) (bytesRead st) b) 1 <> 155)
        by (rewrite rd_wr_ne by lia; apply Hsecond; lia).
      destruct (Z.eqb_spec (bytesRead st + 1) 19) as [H19 | H19]; cbn.
      * split; [| split; [apply rd_wr_ne; lia | split; [lia |]]].
        -- unfold hw4ParserOk. cbn. unfold wr. rewrite length_insert.
           repeat split; try lia; assumption.
        -- intros _. split; [exact Hk0 |]. split; [exact Hk1 |].
           replace 18 with (bytesRead st) by lia. apply rd_wr_eq. lia.
      * split; [| split; [apply rd_wr_ne; lia | split; [lia | discriminate]]].
        unfold hw4ParserOk. cbn. unfold wr at 1. rewrite length_insert.
        repeat split; try lia; try assumption; intros _; assumption.
Qed.

(** X10.  The Hobbywing parser on any bytes at all.  Between two bytes the
    buffer holds at most 18 bytes of a frame that starts with the sync
    byte and does not go on with a second one, and at most 11 bytes are
    left to skip; the 20th cell of the buffer is never written.  One call
    is made per byte, a frame is reported at most once per 19 bytes, and
    when the next byte completes a frame the buffer holds the sync byte, a
    second byte other than the sync byte, and that byte as the 19th. *)
Theorem hw4Feed_parser_invariant (bytes : list Z) (st : escSensor) :
  hw4ParserOk st ->
  let flags := fst (hw4Feed bytes st) in
  let st' := snd (hw4Feed bytes st) in
  hw4ParserOk st' /\
  rd (hwData st') 19 = rd (hwData st) 19 /\
  length flags = length bytes /\
  19 * Z.of_nat (count_occ bool_dec flags true) + bytesRead st'
    <= bytesRead st + Z.of_nat (length bytes) /\
  forall b, fst (processHW4TelemetryStream b st') = true ->
    rd (hwData (snd (processHW4TelemetryStream b st'))) 0 = 0x9B /\
    rd (hwData (snd (processHW4TelemetryStream b st'))) 1 <> 0x9B /\
    rd (hwData (snd (processHW4TelemetryStream b st'))) 18 = b.
Proof.
  intros Hok flags st'. subst flags st'.
  assert (Hrun : hw4ParserOk (snd (hw4Feed bytes st)) /\
                 rd (hwData (snd (hw4Feed bytes st))) 19 = rd (hwData st) 19 /\
                 length (fst (hw4Feed bytes st)) = length bytes /\
                 19 * Z.of_nat (count_occ bool_dec (fst (hw4Feed bytes st)) true)
                   + bytesRead (snd (hw4Feed bytes st))
                   <= bytesRead st + Z.of_nat (length bytes)).
  { revert st Hok. induction bytes as [| b bytes IH]; intros st Hok.
    - cbn. split; [exact Hok |]. split; [reflexivity |]. split; [reflexivity | lia].
    - rewrite hw4Feed_cons. cbn [fst snd length].
      destruct (processHW4_parserOk b st Hok) as (Hok1 & Hcell & Hcount & _).
      destruct (IH _ Hok1) as (Hok2 & Hcell2 & Hlen2 & Hcount2).
      split; [exact Hok2 |]. split; [congruence |]. split; [congruence |].
      destruct (fst (processHW4TelemetryStream b st)).
      + rewrite count_occ_cons_eq by reflexivity. lia.
      + rewrite count_occ_cons_neq by discriminate. lia. }
  destruct Hrun as (Hok' & Hcell & Hlen & Hcount).
  split; [exact Hok' |]. split; [exact Hcell |]. split; [exact Hlen |].
  split; [exact Hcount |].
  intros b Hb. apply (processHW4_parserOk b _ Hok'). exact Hb.
Qed.

(** *** Frames back to back *)

Lemma hw4Feed_frame frame st :
  skipBytes st = 0 -> bytesRead st = 0 -> length (hwData st) = 20%nat ->
  hw4DataFrame frame ->
  fst (hw4Feed frame st) = replicate 18 false ++ [true] /\
  hwData (snd (hw4Feed frame st)) = frame ++ drop 19 (hwData st) /\
  bytesRead (snd (hw4Feed frame st)) = 0 /\
  skipBytes (snd (hw4Feed frame st)) = 0.
Proof.
  intros Hskip Hread Hlen (Hflen & Hhead & Hsecond).
  destruct frame as [| b0 rest]; [discriminate |].
  cbn in Hhead. injection Hhead as ->. cbn [length] in Hflen.
  rewrite hw4Feed_cons, processHW4_sync by assumption. cbn [fst snd].
  destruct (hw4Feed_fill rest (set_bytesRead 1 (set_hwData (wr (hwData st) 0 155) st)))
    as (Hf & Hd & Hr & Hs).
  - exact Hskip.
  - cbn. lia.
  - cbn. lia.
  - intros _. destruct rest as [| b1 rest]; [discriminate |]. exact Hsecond.
  - cbn. unfold wr. rewrite length_insert. exact Hlen.
  - rewrite Hf, Hd, Hr, Hs.
    replace (length rest - 1)%nat with 17%nat by lia.
    split; [reflexivity |]. split; [| split; reflexivity].
    cbn [bytesRead set_bytesRead hwData set_hwData].
    destruct (hwData st) as [| d0 cells]; [discriminate |]. reflexivity.
Qed.

Lemma last_cons_default {A : Type} (l : list A) : forall (x d d' : A),
  List.last (x :: l) d = List.last (x :: l) d'.
Proof.
  induction l as [| y l IH]; intros x d d'; [reflexivity |].
  change (List.last (y :: l) d = List.last (y :: l) d'). apply IH.
Qed.

(** X11.  Data frames sent back to back to an idle parser are all
    reported: every frame gives 18 calls that return false and one that
    returns true, the parser is idle again after each, and at the end the
    buffer holds the last frame. *)
Theorem hw4Feed_frames (frames : list (list Z)) (st : escSensor) :
  skipBytes st = 0 -> bytesRead st = 0 -> length (hwData st) = 20%nat ->
  Forall hw4DataFrame frames ->
  let st' := snd (hw4Feed (concat frames) st) in
  fst (hw4Feed (concat frames) st) =
    concat (map (fun _ => replicate 18 false ++ [true]) frames) /\
  skipBytes st' = 0 /\ bytesRead st' = 0 /\
  hwData st' = List.last frames (take 19 (hwData st)) ++ drop 19 (hwData st).
Proof.
  intros Hskip Hread Hlen Hall. cbn zeta. revert st Hskip Hread Hlen.
  induction Hall as [| frame frames Hframe _ IH]; intros st Hskip Hread Hlen.
  - cbn. rewrite take_drop. repeat split; assumption.
  - cbn [concat map]. rewrite hw4Feed_app. cbn [fst snd].
    destruct (hw4Feed_frame frame st Hskip Hread Hlen Hframe) as (Hf & Hd & Hr & Hs).
    assert (Hlen1 : length (hwData (snd (hw4Feed frame st))) = 20%nat).
    { rewrite Hd, length_app, length_drop, Hlen. destruct Hframe as [-> _]. reflexivity. }
    destruct (IH _ Hs Hr Hlen1) as (Hf2 & Hs2 & Hr2 & Hd2).
    rewrite Hf, Hf2, Hs2, Hr2, Hd2. do 3 (split; [reflexivity |]).
    assert (Hdrop : drop 19 (hwData (snd (hw4Feed frame st))) = drop 19 (hwData st)).
    { rewrite Hd, drop_app_length'; [reflexivity | destruct Hframe as [-> _]; reflexivity]. }
    assert (Htake : take 19 (hwData (snd (hw4Feed frame st))) = frame).
    { rewrite Hd, take_app_length'; [reflexivity | destruct Hframe as [-> _]; reflexivity]. }
    rewrite Hdrop, Htake. destruct frames as [| next frames]; [reflexivity |].
    f_equal. change (List.last (frame :: next :: frames) (take 19 (hwData st)))
      with (List.last (next :: frames) (take 19 (hwData st))).
    apply last_cons_default.
Qed.

(** ** The Hobbywing task *)

Lemma increaseDataAge_kissVariables st :
  kissVariables (increaseDataAge st) = kissVariables st.
Proof. unfold increaseDataAge. destruct (_ <? _); reflexivity. Qed.

Lemma increaseDataAge_other_records st j :
  0 <= escSensorMotor st -> 0 <= j -> j <> escSensorMotor st ->
  escData (increaseDataAge st) j = escData st j.
Proof.
  intros Hm Hj Hne. unfold increaseDataAge. destruct (_ <? _); [| reflexivity].
  change (escData (set_combinedDataNeedsUpdate true ?s) j) with (escData s j).
  apply escData_modify_ne; [exact Hm | exact Hj | congruence].
Qed.

Lemma processHW4_kissVariables b st :
  kissVariables (snd (processHW4TelemetryStream b st)) = kissVariables st /\
  escSensorData (snd (processHW4TelemetryStream b st)) = escSensorData st.
Proof.
  unfold processHW4TelemetryStream.
  repeat match goal with
         | |- context [if ?c then _ else _] => destruct c
         end; split; reflexivity.
Qed.

Lemma hw4DecodeFrame_record0 env fp t st :
  kissVariables (hw4DecodeFrame env fp t st) = kissVariables st /\
  length (escSensorData (hw4DecodeFrame env fp t st)) = length (escSensorData st) /\
  forall j, 0 < j -> escData (hw4DecodeFrame env fp t st) j = escData st j.
Proof.
  unfold hw4DecodeFrame. destruct (hw4FrameSane (hwData st)).
  - split; [reflexivity |]. split; [cbn; apply length_alter |].
    intros j Hj.
    change (escData (set_dataUpdateUs t ?s) j) with (escData s j).
    apply escData_modify_ne; lia.
  - destruct (debugEscSensor env); (split; [reflexivity |]); split; reflexivity.
Qed.

Lemma hw4ReceiveByte_record0 env fp t st b :
  kissVariables (hw4ReceiveByte env fp t st b) = kissVariables st /\
  length (escSensorData (hw4ReceiveByte env fp t st b)) = length (escSensorData st) /\
  forall j, 0 < j -> escData (hw4ReceiveByte env fp t st b) j = escData st j.
Proof.
  unfold hw4ReceiveByte. destruct (processHW4_kissVariables b st) as [Hk Hd].
  destruct (processHW4TelemetryStream b st) as [complete s1]. cbn [snd] in Hk, Hd.
  destruct complete.
  - destruct (hw4DecodeFrame_record0 env fp t s1) as (Hk1 & Hl1 & Hj1).
    split; [congruence |]. split; [congruence |].
    intros j Hj. rewrite Hj1 by exact Hj. unfold escData. rewrite Hd. reflexivity.
  - split; [exact Hk |]. split; [rewrite Hd; reflexivity |].
    intros j _. unfold escData. rewrite Hd. reflexivity.
Qed.

Lemma hw4Receive_record0 env fp t rx : forall st,
  kissVariables (fold_left (hw4ReceiveByte env fp t) rx st) = kissVariables st /\
  length (escSensorData (fold_left (hw4ReceiveByte env fp t) rx st))
    = length (escSensorData st) /\
  forall j, 0 < j -> escData (fold_left (hw4ReceiveByte env fp t) rx st) j = escData st j.
Proof.
  induction rx as [| b rx IH]; intros st; cbn [fold_left].
  - split; [reflexivity |]. split; reflexivity.
  - destruct (IH (hw4ReceiveByte env fp t st b)) as (Hk & Hl & Hj).
    destruct (hw4ReceiveByte_record0 env fp t st b) as (Hk1 & Hl1 & Hj1).
    split; [congruence |]. split; [congruence |].
    intros j Hpos. rewrite Hj by exact Hpos. apply Hj1, Hpos.
Qed.

(** X12.  The Hobbywing task writes telemetry record 0 and the age of the
    current motor's record, and nothing else of the telemetry store: every
    other record, the length of the array and all that belongs to the KISS
    side (receive buffer, trigger state and time, motor index, request
    log, timeout count, combined record, port) are after the task as they
    were before it, whatever bytes were waiting. *)
Theorem hw4SensorProcess_record0 (env : platform) (fp : fpu) (currentTimeUs : Z)
    (rx : list Z) (st : escSensor) :
  0 <= escSensorMotor st ->
  let st' := hw4SensorProcess env fp currentTimeUs rx st in
  kissVariables st' = kissVariables st /\
  length (escSensorData st') = length (escSensorData st) /\
  forall j, 0 < j -> j <> escSensorMotor st -> escData st' j = escData st j.
Proof.
  intros Hm st'. subst st'. unfold hw4SensorProcess.
  set (s0 := if 250000 <? cmp32 currentTimeUs (dataUpdateUs st)
             then set_dataUpdateUs currentTimeUs (increaseDataAge st) else st).
  assert (H0 : kissVariables s0 = kissVariables st /\
               length (escSensorData s0) = length (escSensorData st) /\
               forall j, 0 < j -> j <> escSensorMotor st -> escData s0 j = escData st j).
  { subst s0. destruct (_ <? _); [| repeat split; reflexivity].
    split; [apply (increaseDataAge_kissVariables st) |].
    split; [apply (increaseDataAge_length st) |].
    intros j Hj Hne. apply (increaseDataAge_other_records st j); [exact Hm | lia | exact Hne]. }
  clearbody s0. destruct H0 as (Hk0 & Hl0 & Hj0).
  destruct (hw4Receive_record0 env fp currentTimeUs rx s0) as (Hk1 & Hl1 & Hj1).
  revert Hk1 Hl1 Hj1. generalize (fold_left (hw4ReceiveByte env fp currentTimeUs) rx s0).
  intros s1 Hk1 Hl1 Hj1. cbn zeta.
  split; [| split].
  - transitivity (kissVariables s1); [reflexivity | congruence].
  - cbn. rewrite length_alter. congruence.
  - intros j Hj Hne.
    match goal with
    | |- escData (modifyEscData 0 ?f ?s) j = _ =>
        rewrite (escData_modify_ne 0 j f s) by lia
    end.
    change (escData s1 j = escData st j).
    rewrite Hj1 by exact Hj. apply Hj0; assumption.
Qed.

(** *** The age of Hobbywing data *)

(** [cmp32] is the time elapsed on the wrapping clock while that is below
    2^31 microseconds, and negative from there on. *)
Lemma cmp32_elapsedUs now last :
  cmp32 now last =
    if elapsedUs now last <? 2 ^ 31 then elapsedUs now last
    else elapsedUs now last - 2 ^ 32.
Proof.
  unfold cmp32, to_int32, to_signed, elapsedUs.
  change (2 ^ (32 - 1)) with 2147483648. change (2 ^ 31) with 2147483648.
  change (2 ^ 32) with 4294967296.
  pose proof (Z.mod_pos_bound (now - last) 4294967296 ltac:(lia)) as Hrange.
  pose proof (Z.div_mod (now - last) 4294967296 ltac:(lia)) as Hsplit.
  destruct (Z.ltb_spec ((now - last) mod 4294967296) 2147483648) as [Hlt | Hge].
  - replace (now - last + 2147483648)
      with ((now - last) mod 4294967296 + 2147483648
            + (now - last) / 4294967296 * 4294967296) by lia.
    rewrite Z.mod_add by lia. rewrite Z.mod_small by lia. lia.
  - replace (now - last + 2147483648)
      with ((now - last) mod 4294967296 - 2147483648
            + ((now - last) / 4294967296 + 1) * 4294967296) by lia.
    rewrite Z.mod_add by lia. rewrite Z.mod_small by lia. lia.
Qed.

Lemma with_consumption_age v st j :
  0 <= j < Z.of_nat (length (escSensorData st)) ->
  dataAge (escData (modifyEscData 0 (with_consumption v) st) j) = dataAge (escData st j).
Proof.
  intros Hj. destruct (Z.eq_dec j 0) as [-> | Hne].
  - rewrite escData_modify_eq by exact Hj. reflexivity.
  - rewrite escData_modify_ne by lia. reflexivity.
Qed.

(** X13.  A run of the Hobbywing task with no byte waiting ages the
    current record exactly when more than 250 ms have passed since the
    last update on the wrapping 32-bit microsecond clock, and less than
    2^31 microseconds: the age then goes up by one, stopping at
    [ESC_DATA_INVALID], and the time of the last update becomes the
    present.  Otherwise age and time of the last update stay. *)
Theorem hw4SensorProcess_data_age (env : platform) (fp : fpu) (currentTimeUs : Z)
    (st : escSensor) :
  0 <= escSensorMotor st < Z.of_nat (length (escSensorData st)) ->
  0 <= dataAge (escData st (escSensorMotor st)) <= ESC_DATA_INVALID ->
  let m := escSensorMotor st in
  let elapsed := elapsedUs currentTimeUs (dataUpdateUs st) in
  let st' := hw4SensorProcess env fp currentTimeUs [] st in
  (250000 < elapsed < 2 ^ 31 ->
   dataAge (escData st' m) = Z.min (dataAge (escData st m) + 1) ESC_DATA_INVALID /\
   dataUpdateUs st' = currentTimeUs) /\
  (elapsed <= 250000 \/ 2 ^ 31 <= elapsed ->
   dataAge (escData st' m) = dataAge (escData st m) /\
   dataUpdateUs st' = dataUpdateUs st).
Proof.
  intros Hm Hage m elapsed st'. subst st'. unfold hw4SensorProcess. cbn [fold_left].
  rewrite cmp32_elapsedUs. fold elapsed.
  assert (Hrange : 0 <= elapsed < 2 ^ 32)
    by (apply Z.mod_pos_bound; reflexivity).
  change (2 ^ 31) with 2147483648 in *. change (2 ^ 32) with 4294967296 in *.
  split.
  - intros Hlate.
    destruct (Z.ltb_spec elapsed 2147483648); [| lia].
    destruct (Z.ltb_spec 250000 elapsed); [| lia].
    cbn zeta. split; [| reflexivity].
    match goal with
    | |- dataAge (escData (modifyEscData 0 (with_consumption ?v) ?s) m) = _ =>
        rewrite (with_consumption_age v s m)
    end.
    + change (dataAge (escData (increaseDataAge st) m)
              = Z.min (dataAge (escData st m) + 1) ESC_DATA_INVALID).
      rewrite increaseDataAge_age by (fold m; lia || exact Hage).
      fold m. rewrite Z.eqb_refl. cbn [andb]. fold m in Hage. unfold ESC_DATA_INVALID in *.
      destruct (Z.ltb_spec (dataAge (escData st m)) 255); lia.
    + cbn. rewrite increaseDataAge_length. exact Hm.
  - intros Hearly.
    assert (Hquiet : (250000 <? (if elapsed <? 2147483648 then elapsed
                                 else elapsed - 4294967296)) = false).
    { destruct (Z.ltb_spec elapsed 2147483648); apply Z.ltb_ge; lia. }
    rewrite Hquiet. cbn zeta. split; [| reflexivity].
    match goal with
    | |- dataAge (escData (modifyEscData 0 (with_consumption ?v) ?s) m) = _ =>
        rewrite (with_consumption_age v s m)
    end; [reflexivity | exact Hm].
Qed.

(** *** A whole frame in one run of the task *)

Lemma rd_app_l (a tail : list Z) i :
  0 <= i < Z.of_nat (length a) -> rd (a ++ tail) i = rd a i.
Proof. intros Hi. unfold rd. apply lookup_total_app_l. lia. Qed.

Lemma hw4Feed_other_fields bytes : forall st,
  escSensorData (snd (hw4Feed bytes st)) = escSensorData st /\
  totalCrcErrorCount (snd (hw4Feed bytes st)) = totalCrcErrorCount st /\
  dataUpdateUs (snd (hw4Feed bytes st)) = dataUpdateUs st.
Proof.
  induction bytes as [| b bytes IH]; intros st.
  - repeat split.
  - rewrite hw4Feed_cons. cbn [snd].
    destruct (IH (snd (processHW4TelemetryStream b st))) as (-> & -> & ->).
    unfold processHW4TelemetryStream.
    repeat match goal with
           | |- context [if ?c then _ else _] => destruct c
           end; repeat split.
Qed.

(** While the parser reports nothing, the loop of the task only feeds it. *)
Lemma hw4Receive_quiet env fp t bytes : forall st,
  Forall (eq false) (fst (hw4Feed bytes st)) ->
  fold_left (hw4ReceiveByte env fp t) bytes st = snd (hw4Feed bytes st).
Proof.
  induction bytes as [| b bytes IH]; intros st Hquiet; [reflexivity |].
  rewrite hw4Feed_cons in Hquiet. cbn [fst] in Hquiet. rewrite hw4Feed_cons. cbn [snd fold_left].
  apply Forall_cons in Hquiet as [Hb Hrest].
  assert (Hstep : hw4ReceiveByte env fp t st b = snd (processHW4TelemetryStream b st)).
  { unfold hw4ReceiveByte. destruct (processHW4TelemetryStream b st) as [complete s1].
    cbn [fst snd] in *. subst complete. reflexivity. }
  rewrite Hstep. apply IH, Hrest.
Qed.

Lemma hw4Receive_frame env fp t frame st :
  skipBytes st = 0 -> bytesRead st = 0 -> length (hwData st) = 20%nat ->
  hw4DataFrame frame ->
  fold_left (hw4ReceiveByte env fp t) frame st =
    hw4DecodeFrame env fp t (snd (hw4Feed frame st)).
Proof.
  intros Hskip Hread Hlen Hframe.
  destruct (hw4Feed_frame frame st Hskip Hread Hlen Hframe) as (Hflags & _).
  destruct Hframe as (Hflen & _).
  destruct (exists_last (l := frame)) as (body & b & ->);
    [intros ->; discriminate |].
  rewrite hw4Feed_app in Hflags. cbn [fst] in Hflags.
  rewrite hw4Feed_app. cbn [snd].
  set (s1 := snd (hw4Feed body st)) in *.
  rewrite hw4Feed_cons in Hflags. cbn [fst hw4Feed] in Hflags.
  apply app_inj_tail in Hflags as [Hquiet Hdone].
  rewrite fold_left_app. cbn [fold_left].
  rewrite (hw4Receive_quiet env fp t body st)
    by (rewrite Hquiet; apply Forall_replicate; reflexivity).
  fold s1. rewrite hw4Feed_cons. cbn [snd hw4Feed].
  unfold hw4ReceiveByte.
  destruct (processHW4TelemetryStream b s1) as [complete s2]. cbn [fst snd] in *.
  subst complete. reflexivity.
Qed.

Lemma storeHW4Frame_age_rpm env fp d r :
  dataAge (storeHW4Frame env fp d r) = 0 /\
  rpm (storeHW4Frame env fp d r) = hw4Rpm d / 100.
Proof.
  assert (Hrpm : 0 <= hw4Rpm d < 2 ^ 32) by (apply Z.mod_pos_bound; reflexivity).
  change (2 ^ 32) with 4294967296 in Hrpm.
  assert (Hsmall : to_int32 (hw4Rpm d / 100) = hw4Rpm d / 100).
  { apply to_int32_small.
    pose proof (Z.div_pos (hw4Rpm d) 100 ltac:(lia) ltac:(lia)).
    assert (hw4Rpm d / 100 < 42949673) by (apply Z.div_lt_upper_bound; lia).
    lia. }
  unfold storeHW4Frame. cbn zeta.
  destruct (_ || _); cbn; rewrite Hsmall; split; reflexivity.
Qed.

Lemma hw4Frame_app frame tail :
  length frame = 19%nat ->
  hw4FrameSane (frame ++ tail) = hw4FrameSane frame /\
  hw4Rpm (frame ++ tail) = hw4Rpm frame.
Proof.
  intros Hlen. unfold hw4FrameSane, hw4Rpm.
  rewrite !rd_app_l by (rewrite Hlen; lia). split; reflexivity.
Qed.

Lemma increaseDataAge_readings st :
  (0 < length (escSensorData st))%nat ->
  temperature (escData (increaseDataAge st) 0) = temperature (escData st 0) /\
  voltage (escData (increaseDataAge st) 0) = voltage (escData st 0) /\
  current (escData (increaseDataAge st) 0) = current (escData st 0) /\
  rpm (escData (increaseDataAge st) 0) = rpm (escData st 0).
Proof.
  intros Hlen. unfold increaseDataAge. destruct (_ <? _); [| repeat split].
  unfold escData. cbn.
  destruct (Nat.eq_dec (Z.to_nat (escSensorMotor st)) 0%nat) as [-> | Hne].
  - rewrite list_lookup_total_alter_eq by exact Hlen. repeat split.
  - rewrite list_lookup_total_alter_ne by exact Hne. repeat split.
Qed.

(** X14.  A whole data frame waiting when the Hobbywing task runs, with
    the parser idle: the task takes the 19 bytes into the buffer and is
    idle again.  If the frame passes the sanity check, record 0 is fresh
    (age 0), its rpm is the 24-bit rpm field of the frame divided by 100,
    the time of the last update is the present and the error count stays;
    if not, temperature, voltage, current and rpm of record 0 stay as they
    were, and the error count goes up by one when the debug mode is
    [DEBUG_ESC_SENSOR] and stays as it is in any other debug mode. *)
Theorem hw4SensorProcess_frame (env : platform) (fp : fpu) (currentTimeUs : Z)
    (frame : list Z) (st : escSensor) :
  skipBytes st = 0 -> bytesRead st = 0 -> length (hwData st) = 20%nat ->
  hw4DataFrame frame ->
  (0 < length (escSensorData st))%nat ->
  0 <= totalCrcErrorCount st < 2 ^ 32 - 1 ->
  let st' := hw4SensorProcess env fp currentTimeUs frame st in
  skipBytes st' = 0 /\ bytesRead st' = 0 /\
  hwData st' = frame ++ drop 19 (hwData st) /\
  (hw4FrameSane frame = true ->
   dataAge (escData st' 0) = 0 /\
   rpm (escData st' 0) = hw4Rpm frame / 100 /\
   dataUpdateUs st' = currentTimeUs /\
   totalCrcErrorCount st' = totalCrcErrorCount st) /\
  (hw4FrameSane frame = false ->
   totalCrcErrorCount st' =
     (if debugEscSensor env then totalCrcErrorCount st + 1 else totalCrcErrorCount st) /\
   temperature (escData st' 0) = temperature (escData st 0) /\
   voltage (escData st' 0) = voltage (escData st 0) /\
   current (escData st' 0) = current (escData st 0) /\
   rpm (escData st' 0) = rpm (escData st 0)).
Proof.
  intros Hskip Hread Hlen Hframe Hrec Hcount st'. subst st'. unfold hw4SensorProcess.
  set (s0 := if 250000 <? cmp32 currentTimeUs (dataUpdateUs st)
             then set_dataUpdateUs currentTimeUs (increaseDataAge st) else st).
  assert (H0 : skipBytes s0 = 0 /\ bytesRead s0 = 0 /\ hwData s0 = hwData st /\
               length (escSensorData s0) = length (escSensorData st) /\
               totalCrcErrorCount s0 = totalCrcErrorCount st /\
               temperature (escData s0 0) = temperature (escData st 0) /\
               voltage (escData s0 0) = voltage (escData st 0) /\
               current (escData s0 0) = current (escData st 0) /\
               rpm (escData s0 0) = rpm (escData st 0)).
  { subst s0. destruct (_ <? _); [| repeat split; assumption].
    pose proof (increaseDataAge_readings st Hrec) as Hreadings.
    pose proof (increaseDataAge_length st) as Hsame.
    unfold increaseDataAge in *. destruct (_ <? _); repeat split; try assumption;
      apply Hreadings. }
  clearbody s0. destruct H0 as (Hs0 & Hr0 & Hd0 & Hl0 & Hc0 & Ht0 & Hv0 & Hi0 & Hrpm0).
  rewrite hw4Receive_frame by (rewrite ?Hd0; assumption).
  destruct (hw4Feed_frame frame s0) as (_ & Hd & Hr & Hs);
    [rewrite ?Hd0; assumption .. |].
  destruct (hw4Feed_other_fields frame s0) as (Hdata & Hcrc & _).
  revert Hd Hr Hs Hdata Hcrc. generalize (snd (hw4Feed frame s0)).
  intros s2 Hd Hr Hs Hdata Hcrc.
  assert (Hflen : length frame = 19%nat) by apply Hframe.
  destruct (hw4Frame_app frame (drop 19 (hwData s0)) Hflen) as [Hsane Hrpm].
  assert (Hrec2 : 0 <= 0 < Z.of_nat (length (escSensorData s2)))
    by (rewrite Hdata, Hl0; lia).
  unfold hw4DecodeFrame. rewrite Hd, Hsane. cbn zeta.
  destruct (hw4FrameSane frame).
  - split; [exact Hs |]. split; [exact Hr |]. split; [rewrite <- Hd0; exact Hd |].
    split; [| discriminate]. intros _.
    match goal with
    | |- context [escData (modifyEscData 0 ?f ?s) 0] =>
        rewrite (escData_modify_eq 0 f s) by (cbn; rewrite length_alter; exact Hrec2)
    end.
    match goal with
    | |- context [with_consumption ?v (escData ?s 0)] =>
        change (escData s 0)
          with (escData (modifyEscData 0
                           (storeHW4Frame env fp (frame ++ drop 19 (hwData s0))) s2) 0)
    end.
    rewrite escData_modify_eq by exact Hrec2.
    destruct (storeHW4Frame_age_rpm env fp (frame ++ drop 19 (hwData s0)) (escData s2 0))
      as [Hage Hrpm'].
    split; [exact Hage |]. split; [cbn [rpm with_consumption]; rewrite <- Hrpm; exact Hrpm' |].
    split; [reflexivity | rewrite <- Hc0, <- Hcrc; reflexivity].
  - assert (Hsame : escData s2 0 = escData s0 0)
      by (unfold escData; rewrite Hdata; reflexivity).
    change (2 ^ 32) with 4294967296 in Hcount.
    destruct (debugEscSensor env).
    + split; [exact Hs |]. split; [exact Hr |]. split; [rewrite <- Hd0; exact Hd |].
      split; [discriminate |]. intros _.
      match goal with
      | |- context [escData (modifyEscData 0 ?f ?s) 0] =>
          rewrite (escData_modify_eq 0 f s) by exact Hrec2
      end.
      split.
      * cbn. rewrite Hcrc, Hc0. apply to_uint32_small. lia.
      * change (escData (set_consumptionUpdateUs ?a (set_totalConsumption ?b
                  (set_totalCrcErrorCount ?c s2))) 0) with (escData s2 0).
        rewrite Hsame. cbn. repeat split; assumption.
    + split; [exact Hs |]. split; [exact Hr |]. split; [rewrite <- Hd0; exact Hd |].
      split; [discriminate |]. intros _.
      match goal with
      | |- context [escData (modifyEscData 0 ?f ?s) 0] =>
          rewrite (escData_modify_eq 0 f s) by exact Hrec2
      end.
      split.
      * cbn. rewrite Hcrc, Hc0. reflexivity.
      * change (escData (set_consumptionUpdateUs ?a (set_totalConsumption ?b s2)) 0)
          with (escData s2 0).
        rewrite Hsame. cbn. repeat split; assumption.
Qed.

(** ** RPM sources after initialisation *)

Lemma constrain_range amt low high :
  low <= high -> low <= constrain amt low high <= high.
Proof.
  intros Hle. unfold constrain.
  destruct (Z.ltb_spec amt low); [lia |]. destruct (Z.ltb_spec high amt); lia.
Qed.

Lemma length_wr a i v : length (wr a i v) = length a.
Proof. unfold wr. apply length_insert. Qed.

Lemma rpmSourceInitLoop_div env esc n : forall i ms,
  0 <= i ->
  length (motorRpmDiv (rpmSourceInitLoop env esc n i ms)) = length (motorRpmDiv ms) /\
  forall j, 0 <= j < Z.of_nat (length (motorRpmDiv ms)) ->
    rd (motorRpmDiv (rpmSourceInitLoop env esc n i ms)) j =
      if (i <=? j) && (j <? i + Z.of_nat n)
      then constrain (motorPoleCount env j / 2) 1 100
      else rd (motorRpmDiv ms) j.
Proof.
  induction n as [| n IH]; intros i ms Hi; cbn [rpmSourceInitLoop].
  - split; [reflexivity |]. intros j Hj.
    destruct (Z.leb_spec i j), (Z.ltb_spec j (i + Z.of_nat 0)); cbn [andb];
      first [reflexivity | lia].
  - match goal with
    | |- context [rpmSourceInitLoop env esc n (i + 1) ?ms'] =>
        destruct (IH (i + 1) ms' ltac:(lia)) as [Hlen Hget]
    end.
    cbn [motorRpmDiv] in Hlen, Hget. rewrite length_wr in Hlen, Hget.
    split; [exact Hlen |]. intros j Hj. rewrite Hget by exact Hj.
    pose proof (constrain_range (motorPoleCount env i / 2) 1 100 ltac:(lia)) as Hdiv.
    destruct (Z.eq_dec i j) as [<- | Hne].
    + rewrite rd_wr_eq by lia. rewrite to_uint8_small by lia.
      destruct (Z.leb_spec (i + 1) i), (Z.ltb_spec i (i + 1 + Z.of_nat n)),
        (Z.leb_spec i i), (Z.ltb_spec i (i + Z.of_nat (S n)));
        cbn [andb]; first [reflexivity | lia].
    + rewrite rd_wr_ne by lia.
      destruct (Z.leb_spec (i + 1) j), (Z.ltb_spec j (i + 1 + Z.of_nat n)),
        (Z.leb_spec i j), (Z.ltb_spec j (i + Z.of_nat (S n)));
        cbn [andb]; first [reflexivity | lia].
Qed.

(** X15.  After [rpmSourceInit] the divisor of every motor is half its
    pole count, held between 1 and 100, so [calcMotorRPM] never divides by
    zero.  For an eRPM from 0 up to 21474836 the product by 100 fits the
    [int] and the result is 100 times the eRPM divided by the divisor,
    rounded down. *)
Theorem rpmSourceInit_divisor (env : platform) (esc : escSensor) (ms : motors) (motor : Z) :
  0 <= motor < MAX_SUPPORTED_MOTORS env ->
  MAX_SUPPORTED_MOTORS env <= Z.of_nat (length (motorRpmDiv ms)) ->
  let ms' := rpmSourceInit env esc ms in
  rd (motorRpmDiv ms') motor = constrain (motorPoleCount env motor / 2) 1 100 /\
  1 <= rd (motorRpmDiv ms') motor <= 100 /\
  forall erpm, 0 <= erpm <= 21474836 ->
    calcMotorRPM ms' motor erpm = 100 * erpm / rd (motorRpmDiv ms') motor /\
    erpm <= calcMotorRPM ms' motor erpm <= 100 * erpm.
Proof.
  intros Hmotor Hmax ms'. subst ms'. unfold rpmSourceInit.
  destruct (rpmSourceInitLoop_div env esc (Z.to_nat (MAX_SUPPORTED_MOTORS env)) 0 ms
              ltac:(lia)) as [_ Hget].
  assert (Hdiv : rd (motorRpmDiv (rpmSourceInitLoop env esc
                       (Z.to_nat (MAX_SUPPORTED_MOTORS env)) 0 ms)) motor
                 = constrain (motorPoleCount env motor / 2) 1 100).
  { rewrite Hget by lia.
    destruct (Z.leb_spec 0 motor),
      (Z.ltb_spec motor (0 + Z.of_nat (Z.to_nat (MAX_SUPPORTED_MOTORS env))));
      cbn [andb]; first [reflexivity | lia]. }
  pose proof (constrain_range (motorPoleCount env motor / 2) 1 100 ltac:(lia)) as Hrange.
  split; [exact Hdiv |]. split; [rewrite Hdiv; exact Hrange |].
  intros erpm Herpm. unfold calcMotorRPM. rewrite Hdiv.
  set (d := constrain (motorPoleCount env motor / 2) 1 100) in *.
  rewrite to_int32_small by lia. rewrite Z.quot_div_nonneg by lia.
  split; [reflexivity |]. split.
  - apply Z.div_le_lower_bound; nia.
  - apply Z.div_le_upper_bound; nia.
Qed.

(** X16.  After [rpmSourceInit] the eRPM of a motor comes from the first
    origin available to it, in this order: the frequency sensor when the
    feature is on and the motor's port is initialised, DShot telemetry
    when that is in use, the ESC sensor when the feature is on and the
    sensor was active at initialisation; with none of them it is 0.  The
    ESC sensor reading is the one stored when the eRPM is asked for. *)
Theorem rpmSourceInit_priority (env : platform) (booted esc : escSensor) (ms : motors)
    (motor : Z) :
  0 <= motor < MAX_SUPPORTED_MOTORS env ->
  MAX_SUPPORTED_MOTORS env <= Z.of_nat (length (motorRpmSource ms)) ->
  getMotorERPM env esc (rpmSourceInit env booted ms) motor =
    if featureFreqSensor env && isFreqSensorPortInitialized env motor
    then getFreqSensorRPM env motor
    else if useDshotTelemetry env then getDshotTelemetry env motor
    else if featureEscSensor env && isEscSensorActive booted
    then getEscSensorRPM esc motor
    else 0.
Proof.
  intros Hmotor Hmax. unfold getMotorERPM, rpmSourceInit.
  destruct (rpmSourceInitLoop_source env booted (Z.to_nat (MAX_SUPPORTED_MOTORS env)) 0 ms
              ltac:(lia)) as [_ Hget].
  rewrite Hget by lia.
  destruct (Z.leb_spec 0 motor),
    (Z.ltb_spec motor (0 + Z.of_nat (Z.to_nat (MAX_SUPPORTED_MOTORS env))));
    cbn [andb]; try lia.
  unfold selectRpmSource.
  destruct (featureFreqSensor env && isFreqSensorPortInitialized env motor); [reflexivity |].
  destruct (useDshotTelemetry env); [reflexivity |].
  destruct (featureEscSensor env && isEscSensorActive booted); reflexivity.
Qed.

(** ** A sensor that is not running *)

(** X17.  Start with the port variable null, as at program start.  When
    [escSensorInit] returns false, or the motors are not enabled, the task
    does nothing however often it runs and whatever bytes wait: the store
    stays as the initialisation left it, so no telemetry is requested and
    no timeout is counted.  In the first case [rpmSourceInit] gives no
    motor the ESC sensor as its RPM source. *)
Theorem escSensorTicks_idle (env : platform) (fp : fpu) (ticks : list (Z * list Z))
    (st : escSensor) :
  escSensorPort st = false ->
  fst (escSensorInit env st) = false \/ motorIsEnabled env = false ->
  let booted := snd (escSensorInit env st) in
  escSensorTicks env fp ticks booted = booted /\
  (fst (escSensorInit env st) = false ->
   forall i, selectRpmSource env booted i <> RPM_SRC_ESC_SENSOR).
Proof.
  intros Hnull Hoff booted.
  assert (Hport : escSensorPort booted = fst (escSensorInit env st)).
  { subst booted. unfold escSensorInit.
    destruct (negb (serialPortConfigured env)); [exact Hnull | reflexivity]. }
  clearbody booted.
  assert (Hguard : negb (escSensorPort booted) || negb (motorIsEnabled env) = true).
  { rewrite Hport. destruct Hoff as [-> | ->]; [reflexivity | apply orb_true_r]. }
  split.
  - unfold escSensorTicks. induction ticks as [| tick ticks IH]; [reflexivity |].
    cbn [fold_left]. unfold escSensorProcess at 2. rewrite Hguard. exact IH.
  - intros Hfailed i. unfold selectRpmSource, isEscSensorActive.
    rewrite Hport, Hfailed, andb_false_r.
    destruct (_ && _); [discriminate |]. destruct (useDshotTelemetry env); discriminate.
Qed.

(** ** The further properties at sample inputs *)

Lemma receiveAll_fills_witness :
  0 <= bufferPosition kissRequested <= bufferSize kissRequested /\
  bufferSize kissRequested <= Z.of_nat (length (telemetryBuffer kissRequested)) /\
  bufferSize kissRequested <= 255 /\
  isFrameComplete (receiveAll kissGoodFrame kissRequested) = true.
Proof.
  assert (Hpos : 0 <= bufferPosition kissRequested <= bufferSize kissRequested)
    by by_computation.
  assert (Hroom : bufferSize kissRequested
                  <= Z.of_nat (length (telemetryBuffer kissRequested))) by by_computation.
  assert (Hbyte : bufferSize kissRequested <= 255) by by_computation.
  split; [exact Hpos |]. split; [exact Hroom |]. split; [exact Hbyte |].
  apply (receiveAll_fills kissGoodFrame kissRequested Hpos Hroom Hbyte).
  by_computation.
Defined.

Lemma decodeEscFrame_detects_byte_error_witness :
  kissFrame (telemetryBuffer (kissAwaiting kissGoodFrame)) /\
  rd (telemetryBuffer (kissAwaiting kissGoodFrame)) 9
    = calculateCrc8 (telemetryBuffer (kissAwaiting kissGoodFrame)) 9 /\
  7 <> rd (telemetryBuffer (kissAwaiting kissGoodFrame)) 3 /\
  fst (decodeEscFrame
         (set_telemetryBuffer (wr (telemetryBuffer (kissAwaiting kissGoodFrame)) 3 7)
            (kissAwaiting kissGoodFrame))) = ESC_SENSOR_FRAME_FAILED.
Proof.
  assert (Hne : 7 <> rd (telemetryBuffer (kissAwaiting kissGoodFrame)) 3) by by_computation.
  assert (Hi : 0 <= 3 <= 9) by lia.
  assert (Hv : is_uint8 7) by (unfold is_uint8; lia).
  split; [exact kissGoodFrame_is_frame |]. split; [reflexivity |]. split; [exact Hne |].
  rewrite (decodeEscFrame_detects_byte_error (kissAwaiting kissGoodFrame) 3 7
             kissGoodFrame_is_frame eq_refl eq_refl Hi Hv Hne).
  reflexivity.
Defined.

Lemma calculateCrc8_residue_witness :
  Forall is_uint8 kissPayload /\ calculateCrc8 kissGoodFrame 10 = 0.
Proof.
  assert (Hbytes : Forall is_uint8 kissPayload) by (repeat constructor; by_computation).
  split; [exact Hbytes |]. exact (calculateCrc8_residue kissPayload Hbytes).
Defined.

Lemma kiss_frame_round_trip_witness :
  1 <= getMotorCount quadKiss <= 255 /\
  kissRecord sampleReading /\
  kissEncode sampleReading = kissGoodFrame /\
  5050000 / 1000 < escTriggerTimestamp kissRequested + ESC_REQUEST_TIMEOUT /\
  escData (kissSensorProcess quadKiss 5050000
             (receiveAll (kissEncode sampleReading) kissRequested)) 0
    = with_dataAge 0 sampleReading.
Proof.
  assert (Hn : 1 <= getMotorCount quadKiss <= 255) by by_computation.
  assert (Hr : kissRecord sampleReading) by by_computation.
  assert (Hlen : length (telemetryBuffer kissRequested) = 10%nat) by reflexivity.
  assert (Hstamp : 0 <= escTriggerTimestamp kissRequested <= 4294967) by by_computation.
  assert (Hearly : 5050000 / 1000 < escTriggerTimestamp kissRequested + ESC_REQUEST_TIMEOUT)
    by by_computation.
  assert (Hm : 0 <= escSensorMotor kissRequested < getMotorCount quadKiss)
    by by_computation.
  assert (Hrecs : getMotorCount quadKiss <= Z.of_nat (length (escSensorData kissRequested)))
    by by_computation.
  split; [exact Hn |]. split; [exact Hr |]. split; [reflexivity |]. split; [exact Hearly |].
  exact (proj1 (kiss_frame_round_trip quadKiss Hn kissRequested sampleReading 5050000
                  Hr eq_refl eq_refl eq_refl Hlen Hstamp Hearly Hm Hrecs)).
Defined.

Lemma kissSensorProcess_crc_error_witness :
  1 <= getMotorCount quadKiss <= 255 /\
  isFrameComplete (kissAwaiting kissBadFrame) = true /\
  rd (telemetryBuffer (kissAwaiting kissBadFrame)) 9
    <> calculateCrc8 (telemetryBuffer (kissAwaiting kissBadFrame)) 9 /\
  debugEscSensor quadKiss = true /\
  totalCrcErrorCount (kissSensorProcess quadKiss 5050000 (kissAwaiting kissBadFrame))
    = totalCrcErrorCount (kissAwaiting kissBadFrame) + 1 /\
  totalTimeoutCount (kissSensorProcess quadKiss 5050000 (kissAwaiting kissBadFrame))
    = totalTimeoutCount (kissAwaiting kissBadFrame) /\
  debugEscSensor quadKissNoDebug = false /\
  totalCrcErrorCount (kissSensorProcess quadKissNoDebug 5050000 (kissAwaiting kissBadFrame))
    = totalCrcErrorCount (kissAwaiting kissBadFrame) /\
  requestTelemetry (kissSensorProcess quadKissNoDebug 5050000 (kissAwaiting kissBadFrame))
    = [1; 0].
Proof.
  assert (Hn : 1 <= getMotorCount quadKiss <= 255) by by_computation.
  assert (Hstamp : 0 <= escTriggerTimestamp (kissAwaiting kissBadFrame) <= 4294967)
    by by_computation.
  assert (Hearly : 5050000 / 1000
                   < escTriggerTimestamp (kissAwaiting kissBadFrame) + ESC_REQUEST_TIMEOUT)
    by by_computation.
  assert (Hbyte : is_uint8 (rd (telemetryBuffer (kissAwaiting kissBadFrame)) 9))
    by by_computation.
  assert (Hbad : rd (telemetryBuffer (kissAwaiting kissBadFrame)) 9
                 <> calculateCrc8 (telemetryBuffer (kissAwaiting kissBadFrame)) 9)
    by by_computation.
  assert (Hm : 0 <= escSensorMotor (kissAwaiting kissBadFrame) < getMotorCount quadKiss)
    by by_computation.
  assert (Hrecs : getMotorCount quadKiss
                  <= Z.of_nat (length (escSensorData (kissAwaiting kissBadFrame))))
    by by_computation.
  assert (Hage : 0 <= dataAge (escData (kissAwaiting kissBadFrame)
                                 (escSensorMotor (kissAwaiting kissBadFrame)))
                 <= ESC_DATA_INVALID) by by_computation.
  assert (Hcount : 0 <= totalCrcErrorCount (kissAwaiting kissBadFrame) < 2 ^ 32 - 1)
    by by_computation.
  split; [exact Hn |]. split; [reflexivity |]. split; [exact Hbad |].
  split; [reflexivity |].
  destruct (kissSensorProcess_crc_error quadKiss Hn (kissAwaiting kissBadFrame) 5050000
              eq_refl Hstamp Hearly eq_refl Hbyte Hbad Hm Hrecs Hage Hcount)
    as (Hcrc & Htimeout & _).
  split; [exact Hcrc |]. split; [exact Htimeout |]. split; [reflexivity |].
  destruct (kissSensorProcess_crc_error quadKissNoDebug Hn (kissAwaiting kissBadFrame)
              5050000 eq_refl Hstamp Hearly eq_refl Hbyte Hbad Hm Hrecs Hage Hcount)
    as (Hquiet & _ & _ & Hmotor & Hlog & _).
  split; [exact Hquiet |]. rewrite Hlog, Hmotor. reflexivity.
Defined.

Lemma kiss_requests_in_order_witness :
  1 <= getMotorCount quadKiss <= 255 /\
  kissStartup (initialEscSensor quadKiss) /\
  kissInOrder quadKiss (kissRun quadKiss corruptFrameRun (initialEscSensor quadKiss)) /\
  0 <= escSensorMotor (kissRun quadKiss corruptFrameRun (initialEscSensor quadKiss))
    < getMotorCount quadKiss.
Proof.
  assert (Hn : 1 <= getMotorCount quadKiss <= 255) by by_computation.
  assert (Hstart : kissStartup (initialEscSensor quadKiss)) by (repeat split).
  split; [exact Hn |]. split; [exact Hstart |].
  destruct (kiss_requests_in_order quadKiss Hn corruptFrameRun (initialEscSensor quadKiss)
              Hstart) as (Horder & Hm & _).
  split; [exact Horder | exact Hm].
Defined.

Lemma getEscSensorData_combined_witness :
  featureEscSensor quadKiss = true /\
  protocol quadKiss = ESC_SENSOR_PROTO_KISS /\
  0 <= getMotorCount quadKiss <= 255 /\
  getMotorCount quadKiss <= Z.of_nat (length (escSensorData oneFreshRecord)) /\
  Forall kissRecord (motorRecords quadKiss oneFreshRecord) /\
  combinedDataNeedsUpdate oneFreshRecord = true /\
  combinedEscSensorData (snd (getEscSensorData quadKiss ESC_SENSOR_COMBINED oneFreshRecord))
    = aggregate (motorRecords quadKiss oneFreshRecord).
Proof.
  assert (Hn : 0 <= getMotorCount quadKiss <= 255) by by_computation.
  assert (Hlen : getMotorCount quadKiss <= Z.of_nat (length (escSensorData oneFreshRecord)))
    by by_computation.
  assert (Hall : Forall kissRecord (motorRecords quadKiss oneFreshRecord))
    by (repeat first [constructor; [by_computation |] | constructor]).
  assert (Hpos : 1 <= getMotorCount quadKiss) by by_computation.
  split; [reflexivity |]. split; [reflexivity |]. split; [exact Hn |].
  split; [exact Hlen |]. split; [exact Hall |]. split; [reflexivity |].
  destruct (getEscSensorData_combined quadKiss eq_refl eq_refl Hn oneFreshRecord Hlen Hall)
    as (_ & _ & Hstale & _).
  exact (proj1 (Hstale eq_refl Hpos)).
Defined.

Lemma combined_always_current_witness :
  featureEscSensor quadKiss = true /\
  protocol quadKiss = ESC_SENSOR_PROTO_KISS /\
  1 <= getMotorCount quadKiss <= Z.of_nat (length (escSensorData oneFreshRecord)) /\
  kissFrame (telemetryBuffer oneFreshRecord) /\
  Forall kissRecord (escSensorData oneFreshRecord) /\
  combinedFresh quadKiss oneFreshRecord /\
  combinedEscSensorData
    (snd (getEscSensorData quadKiss ESC_SENSOR_COMBINED
            (kissActs quadKiss sampleActivity oneFreshRecord)))
    = aggregate (motorRecords quadKiss (kissActs quadKiss sampleActivity oneFreshRecord)).
Proof.
  assert (Hn : 0 <= getMotorCount quadKiss <= 255) by by_computation.
  assert (Hlen : 1 <= getMotorCount quadKiss
                 <= Z.of_nat (length (escSensorData oneFreshRecord))) by by_computation.
  assert (Hbuf : kissFrame (telemetryBuffer oneFreshRecord))
    by (split; [reflexivity | repeat constructor; by_computation]).
  assert (Hall : Forall kissRecord (escSensorData oneFreshRecord))
    by (repeat first [constructor; [by_computation |] | constructor]).
  assert (Hfresh : combinedFresh quadKiss oneFreshRecord)
    by (intros Hstale; discriminate Hstale).
  split; [reflexivity |]. split; [reflexivity |]. split; [exact Hlen |].
  split; [exact Hbuf |]. split; [exact Hall |]. split; [exact Hfresh |].
  exact (proj2 (proj2 (combined_always_current quadKiss eq_refl eq_refl Hn sampleActivity
                         oneFreshRecord Hlen Hbuf Hall Hfresh))).
Defined.

Lemma escSensorInit_result_witness :
  0 <= MAX_SUPPORTED_MOTORS quadKiss /\
  Z.of_nat (length (escSensorData (initialEscSensor quadKiss)))
    = MAX_SUPPORTED_MOTORS quadKiss /\
  fst (escSensorInit quadKiss (initialEscSensor quadKiss)) = true /\
  dataAge (escData (snd (escSensorInit quadKiss (initialEscSensor quadKiss))) 3)
    = ESC_DATA_INVALID /\
  escSensorInit unwiredKiss (initialEscSensor unwiredKiss)
    = (false, initialEscSensor unwiredKiss).
Proof.
  assert (Hmax : 0 <= MAX_SUPPORTED_MOTORS quadKiss) by by_computation.
  assert (Hmax' : 0 <= MAX_SUPPORTED_MOTORS unwiredKiss) by by_computation.
  assert (Hj : 0 <= 3 < MAX_SUPPORTED_MOTORS quadKiss) by by_computation.
  split; [exact Hmax |]. split; [reflexivity |].
  destruct (escSensorInit_result quadKiss (initialEscSensor quadKiss) Hmax eq_refl)
    as (_ & Hwired).
  destruct (Hwired eq_refl) as (Hres & Hactive & _ & Hrecords).
  split; [rewrite Hres, Hactive; reflexivity |].
  split; [rewrite (Hrecords 3 Hj); reflexivity |].
  exact (proj1 (escSensorInit_result unwiredKiss (initialEscSensor unwiredKiss)
                  Hmax' eq_refl) eq_refl).
Defined.

Lemma hw4Feed_parser_invariant_witness :
  hw4ParserOk (initialEscSensor singleHW4) /\
  hw4ParserOk (snd (hw4Feed hw4SyncPayloadStream (initialEscSensor singleHW4))) /\
  rd (hwData (snd (hw4Feed hw4SyncPayloadStream (initialEscSensor singleHW4)))) 19
    = rd (hwData (initialEscSensor singleHW4)) 19.
Proof.
  assert (Hok : hw4ParserOk (initialEscSensor singleHW4)) by by_computation.
  split; [exact Hok |].
  destruct (hw4Feed_parser_invariant hw4SyncPayloadStream (initialEscSensor singleHW4) Hok)
    as (Hok' & Hcell & _).
  split; [exact Hok' | exact Hcell].
Defined.

Lemma hw4Feed_frames_witness :
  Forall hw4DataFrame [hw4RunningFrame; hw4StoppedFrame] /\
  fst (hw4Feed (hw4RunningFrame ++ hw4StoppedFrame) (initialEscSensor singleHW4))
    = replicate 18 false ++ [true] ++ replicate 18 false ++ [true] /\
  take 19 (hwData (snd (hw4Feed (hw4RunningFrame ++ hw4StoppedFrame)
                          (initialEscSensor singleHW4)))) = hw4StoppedFrame.
Proof.
  assert (Hframes : Forall hw4DataFrame [hw4RunningFrame; hw4StoppedFrame])
    by (repeat first [constructor; [by_computation |] | constructor]).
  split; [exact Hframes |].
  destruct (hw4Feed_frames [hw4RunningFrame; hw4StoppedFrame] (initialEscSensor singleHW4)
              eq_refl eq_refl eq_refl Hframes) as (Hflags & _ & _ & Hdata).
  split; [exact Hflags |].
  change (concat [hw4RunningFrame; hw4StoppedFrame])
    with (hw4RunningFrame ++ hw4StoppedFrame) in Hdata.
  rewrite Hdata. reflexivity.
Defined.

Lemma hw4SensorProcess_record0_witness :
  0 <= escSensorMotor (initialEscSensor singleHW4) /\
  requestTelemetry (hw4SensorProcess singleHW4 rawFpu 1000 hw4RunningFrame
                      (initialEscSensor singleHW4)) = [] /\
  escData (hw4SensorProcess singleHW4 rawFpu 1000 hw4RunningFrame
             (initialEscSensor singleHW4)) 1
    = escData (initialEscSensor singleHW4) 1.
Proof.
  assert (Hm : 0 <= escSensorMotor (initialEscSensor singleHW4)) by by_computation.
  assert (Hj : 0 < 1) by lia.
  assert (Hne : 1 <> escSensorMotor (initialEscSensor singleHW4)) by by_computation.
  split; [exact Hm |].
  destruct (hw4SensorProcess_record0 singleHW4 rawFpu 1000 hw4RunningFrame
              (initialEscSensor singleHW4) Hm) as (Hkiss & _ & Hrecords).
  split; [| exact (Hrecords 1 Hj Hne)].
  exact (f_equal (fun v => snd v) Hkiss).
Defined.

Lemma hw4SensorProcess_data_age_witness :
  0 <= escSensorMotor (initialEscSensor singleHW4)
    < Z.of_nat (length (escSensorData (initialEscSensor singleHW4))) /\
  250000 < elapsedUs 300000 (dataUpdateUs (initialEscSensor singleHW4)) < 2 ^ 31 /\
  dataAge (escData (hw4SensorProcess singleHW4 rawFpu 300000 []
                      (initialEscSensor singleHW4)) 0) = 1 /\
  dataAge (escData (hw4SensorProcess singleHW4 rawFpu 200000 []
                      (initialEscSensor singleHW4)) 0) = 0.
Proof.
  assert (Hm : 0 <= escSensorMotor (initialEscSensor singleHW4)
               < Z.of_nat (length (escSensorData (initialEscSensor singleHW4))))
    by by_computation.
  assert (Hage : 0 <= dataAge (escData (initialEscSensor singleHW4)
                           (escSensorMotor (initialEscSensor singleHW4)))
                 <= ESC_DATA_INVALID) by by_computation.
  assert (Hlate : 250000 < elapsedUs 300000 (dataUpdateUs (initialEscSensor singleHW4))
                  < 2 ^ 31) by by_computation.
  assert (Hearly : elapsedUs 200000 (dataUpdateUs (initialEscSensor singleHW4)) <= 250000
                   \/ 2 ^ 31 <= elapsedUs 200000 (dataUpdateUs (initialEscSensor singleHW4)))
    by (left; by_computation).
  split; [exact Hm |]. split; [exact Hlate |]. split.
  - exact (proj1 (proj1 (hw4SensorProcess_data_age singleHW4 rawFpu 300000
                           (initialEscSensor singleHW4) Hm Hage) Hlate)).
  - exact (proj1 (proj2 (hw4SensorProcess_data_age singleHW4 rawFpu 200000
                           (initialEscSensor singleHW4) Hm Hage) Hearly)).
Defined.

Lemma hw4SensorProcess_frame_witness :
  hw4DataFrame hw4RunningFrame /\
  hw4FrameSane hw4RunningFrame = true /\
  rpm (escData (hw4SensorProcess singleHW4 rawFpu 1000 hw4RunningFrame
                  (initialEscSensor singleHW4)) 0) = 660 /\
  hw4DataFrame hw4InsaneFrame /\
  hw4FrameSane hw4InsaneFrame = false /\
  debugEscSensor singleHW4 = true /\
  totalCrcErrorCount (hw4SensorProcess singleHW4 rawFpu 1000 hw4InsaneFrame
                        (initialEscSensor singleHW4)) = 1 /\
  debugEscSensor singleHW4NoDebug = false /\
  totalCrcErrorCount (hw4SensorProcess singleHW4NoDebug rawFpu 1000 hw4InsaneFrame
                        (initialEscSensor singleHW4)) = 0.
Proof.
  assert (Hgood : hw4DataFrame hw4RunningFrame) by by_computation.
  assert (Hbad : hw4DataFrame hw4InsaneFrame) by by_computation.
  assert (Hrec : (0 < length (escSensorData (initialEscSensor singleHW4)))%nat)
    by (vm_compute; lia).
  assert (Hcount : 0 <= totalCrcErrorCount (initialEscSensor singleHW4) < 2 ^ 32 - 1)
    by by_computation.
  split; [exact Hgood |]. split; [reflexivity |]. split.
  - destruct (hw4SensorProcess_frame singleHW4 rawFpu 1000 hw4RunningFrame
                (initialEscSensor singleHW4) eq_refl eq_refl eq_refl Hgood Hrec Hcount)
      as (_ & _ & _ & Hsane & _).
    destruct (Hsane eq_refl) as (_ & Hrpm & _). rewrite Hrpm. reflexivity.
  - split; [exact Hbad |]. split; [reflexivity |]. split; [reflexivity |].
    destruct (hw4SensorProcess_frame singleHW4 rawFpu 1000 hw4InsaneFrame
                (initialEscSensor singleHW4) eq_refl eq_refl eq_refl Hbad Hrec Hcount)
      as (_ & _ & _ & _ & Hinsane).
    destruct (Hinsane eq_refl) as (Herr & _).
    split; [rewrite Herr; reflexivity |]. split; [reflexivity |].
    destruct (hw4SensorProcess_frame singleHW4NoDebug rawFpu 1000 hw4InsaneFrame
                (initialEscSensor singleHW4) eq_refl eq_refl eq_refl Hbad Hrec Hcount)
      as (_ & _ & _ & _ & Hquiet).
    destruct (Hquiet eq_refl) as (Hsame & _). rewrite Hsame. reflexivity.
Defined.

Lemma rpmSourceInit_divisor_witness :
  0 <= 2 < MAX_SUPPORTED_MOTORS quadKiss /\
  MAX_SUPPORTED_MOTORS quadKiss <= Z.of_nat (length (motorRpmDiv threeSources)) /\
  rd (motorRpmDiv (rpmSourceInit quadKiss (initialEscSensor quadKiss) threeSources)) 2 = 1 /\
  calcMotorRPM (rpmSourceInit quadKiss (initialEscSensor quadKiss) threeSources) 2 500
    = 50000.
Proof.
  assert (Hmotor : 0 <= 2 < MAX_SUPPORTED_MOTORS quadKiss) by by_computation.
  assert (Hlen : MAX_SUPPORTED_MOTORS quadKiss <= Z.of_nat (length (motorRpmDiv threeSources)))
    by by_computation.
  assert (Herpm : 0 <= 500 <= 21474836) by lia.
  split; [exact Hmotor |]. split; [exact Hlen |].
  destruct (rpmSourceInit_divisor quadKiss (initialEscSensor quadKiss) threeSources 2
              Hmotor Hlen) as (Hdiv & _ & Hcalc).
  split; [rewrite Hdiv; reflexivity |].
  rewrite (proj1 (Hcalc 500 Herpm)), Hdiv. reflexivity.
Defined.

Lemma rpmSourceInit_priority_witness :
  0 <= 0 < MAX_SUPPORTED_MOTORS quadKiss /\
  MAX_SUPPORTED_MOTORS quadKiss <= Z.of_nat (length (motorRpmSource threeSources)) /\
  getMotorERPM quadKiss oneFreshRecord
    (rpmSourceInit quadKiss (snd (escSensorInit quadKiss (initialEscSensor quadKiss)))
       threeSources) 0 = 500 /\
  getMotorERPM quadKiss oneFreshRecord
    (rpmSourceInit quadKiss (initialEscSensor quadKiss) threeSources) 0 = 0.
Proof.
  assert (Hmotor : 0 <= 0 < MAX_SUPPORTED_MOTORS quadKiss) by by_computation.
  assert (Hlen : MAX_SUPPORTED_MOTORS quadKiss
                 <= Z.of_nat (length (motorRpmSource threeSources))) by by_computation.
  split; [exact Hmotor |]. split; [exact Hlen |]. split.
  - rewrite (rpmSourceInit_priority quadKiss
               (snd (escSensorInit quadKiss (initialEscSensor quadKiss)))
               oneFreshRecord threeSources 0 Hmotor Hlen).
    reflexivity.
  - rewrite (rpmSourceInit_priority quadKiss (initialEscSensor quadKiss)
               oneFreshRecord threeSources 0 Hmotor Hlen).
    reflexivity.
Defined.

Lemma escSensorTicks_idle_witness :
  escSensorPort (initialEscSensor unwiredKiss) = false /\
  fst (escSensorInit unwiredKiss (initialEscSensor unwiredKiss)) = false /\
  escSensorTicks unwiredKiss rawFpu [(0, []); (5000000, []); (5100000, kissGoodFrame)]
    (snd (escSensorInit unwiredKiss (initialEscSensor unwiredKiss)))
    = snd (escSensorInit unwiredKiss (initialEscSensor unwiredKiss)).
Proof.
  split; [reflexivity |]. split; [reflexivity |].
  exact (proj1 (escSensorTicks_idle unwiredKiss rawFpu
                  [(0, []); (5000000, []); (5100000, kissGoodFrame)]
                  (initialEscSensor unwiredKiss) eq_refl (or_introl eq_refl))).
Defined.
